(** * mini-auction: an auction engine on an ordered, transactional key-value store

    Shallow embedding of [auction.py] (Python 2, FoundationDB API version 200)
    and the properties of its key layout and of its transactional operations.

    Byte strings (Python 2 [str]) are [string]s: an [ascii] is one byte, and
    [String.compare] is the byte-wise lexicographic order in which the store
    keeps its keys. *)

From Stdlib Require Import ZArith List String Ascii Bool Lia Sorted.
From Stdlib Require Import DecimalString DecimalPos DecimalN SpecFloat.
Import ListNotations.

Local Open Scope list_scope.
Local Open Scope string_scope.
Local Open Scope Z_scope.

(** ** Bytes *)

Definition chr (n : Z) : ascii := ascii_of_N (Z.to_N n).
Definition ord (c : ascii) : Z := Z.of_N (N_of_ascii c).

Definition x00 : ascii := "000"%char.
Definition x01 : ascii := "001"%char.
Definition xff : ascii := "255"%char.

Definition str1 (c : ascii) : string := String c EmptyString.

(** ** The tuple layer ([fdb.tuple]) for the element types the program packs:
    byte strings (type code 0x01) and integers (type codes 0x0c .. 0x1c). *)

Module Tuple.

(** [value.replace('\x00', '\x00\xff')] *)
Fixpoint escape (b : string) : string :=
  match b with
  | EmptyString => EmptyString
  | String c r =>
      if Ascii.eqb c x00 then String x00 (String xff (escape r))
      else String c (escape r)
  end.

(** A byte string: 0x01, the escaped bytes, 0x00. *)
Definition encode_bytes (b : string) : string :=
  String x01 (escape b ++ str1 x00).

(** [struct.pack(">Q", v)[-n:]]: the [n] low bytes of [v], big-endian. *)
Fixpoint be_bytes (n : nat) (v : Z) : string :=
  match n with
  | O => EmptyString
  | S k => be_bytes k (v / 256) ++ str1 (chr (v mod 256))
  end.

(** [bisect_left(_size_limits, v)] for [v > 0]: the least [n] with
    [v <= 256^n - 1]. *)
Definition size_of (v : Z) : Z := Z.log2 v / 8 + 1.

(** An integer; [None] where [struct.pack] (or the lookup in
    [_size_limits]) raises: magnitudes of more than eight bytes. *)
Definition encode_int (v : Z) : option string :=
  if v =? 0 then Some (str1 (chr 20))
  else if 0 <? v then
    let n := size_of v in
    if n <=? 8 then Some (String (chr (20 + n)) (be_bytes (Z.to_nat n) v))
    else None
  else
    let n := size_of (- v) in
    if n <=? 8
    then Some (String (chr (20 - n)) (be_bytes (Z.to_nat n) (256 ^ n - 1 + v)))
    else None.

(** [fdb.tuple.pack] of a tuple of byte strings. *)
Fixpoint pack (t : list string) : string :=
  match t with
  | [] => EmptyString
  | b :: r => encode_bytes b ++ pack r
  end.

End Tuple.

(** What follows an encoded byte string is never [0xff]: that byte after a
    [0x00] is an escaped zero. *)
Definition no_ff (r : string) : Prop :=
  match r with
  | String c _ => c <> xff
  | EmptyString => True
  end.

(** ** Subspaces ([fdb.Subspace]): a subspace is its raw prefix. *)

Module Subspace.

Definition t := string.

(** [subspace.key()] *)
Definition key (ss : t) : string := ss.

(** [subspace.pack(tuple)] *)
Definition pack (ss : t) (tp : list string) : string := ss ++ Tuple.pack tp.

(** [subspace[name]] for a byte string [name] *)
Definition item (ss : t) (name : string) : t := ss ++ Tuple.encode_bytes name.

(** [subspace[n]] for an integer [n] *)
Definition item_int (ss : t) (n : Z) : option t :=
  option_map (fun e => ss ++ e) (Tuple.encode_int n).

(** [subspace.range()]: the keys strictly inside the subspace,
    from [prefix + '\x00'] (included) to [prefix + '\xff'] (excluded). *)
Definition range (ss : t) : string * string :=
  (ss ++ str1 x00, ss ++ str1 xff).

End Subspace.

(** ** Python numbers and their text forms *)

Definition is_space (c : ascii) : bool :=
  let n := ord c in ((9 <=? n) && (n <=? 13)) || (n =? 32).

Definition is_digit (c : ascii) : bool :=
  let n := ord c in (48 <=? n) && (n <=? 57).

Fixpoint lstrip (s : string) : string :=
  match s with
  | EmptyString => EmptyString
  | String c r => if is_space c then lstrip r else s
  end.

Fixpoint rstrip (s : string) : string :=
  match s with
  | EmptyString => EmptyString
  | String c r =>
      match rstrip r with
      | EmptyString => if is_space c then EmptyString else str1 c
      | r' => String c r'
      end
  end.

(** [s.strip()] *)
Definition strip (s : string) : string := rstrip (lstrip s).

(** The digits at the head of [s], and what follows them. *)
Fixpoint span_digits (s : string) : string * string :=
  match s with
  | EmptyString => (EmptyString, EmptyString)
  | String c r =>
      if is_digit c
      then let '(d, rest) := span_digits r in (String c d, rest)
      else (EmptyString, s)
  end.

(** The number a string of decimal digits denotes. *)
Fixpoint digits_value (acc : Z) (s : string) : Z :=
  match s with
  | EmptyString => acc
  | String c r => digits_value (10 * acc + (ord c - 48)) r
  end.

(** An optional sign at the head: [(negative, rest)]. *)
Definition split_sign (s : string) : bool * string :=
  match s with
  | String c r =>
      if Ascii.eqb c "-" then (true, r)
      else if Ascii.eqb c "+" then (false, r)
      else (false, s)
  | EmptyString => (false, s)
  end.

(** The decimal digits of a natural number. *)
Definition str_nat (n : Z) : string :=
  DecimalString.NilZero.string_of_uint (N.to_uint (Z.to_N n)).

Fixpoint zeros (n : nat) : string :=
  match n with
  | O => EmptyString
  | S k => String "0" (zeros k)
  end.

(** [s.zfill(n)] for a digit string. *)
Definition zfill (n : nat) (s : string) : string :=
  zeros (n - String.length s) ++ s.

Module PyInt.

(** [str(n)] *)
Definition str (n : Z) : string :=
  if n <? 0 then String "-" (str_nat (- n)) else str_nat n.

(** [int(s)] for a byte string [s]: blanks around an optional sign and
    decimal digits; [None] is [ValueError]. *)
Definition of_string (s : string) : option Z :=
  let '(neg, body) := split_sign (strip s) in
  match span_digits body with
  | (String c d, EmptyString) =>
      let v := digits_value 0 (String c d) in
      Some (if neg then - v else v)
  | _ => None
  end.

End PyInt.

(** Python floats are IEEE 754 binary64 numbers, here [spec_float]s with
    [prec = 53] and [emax = 1024]. *)

Module PyFloat.

Definition t := spec_float.

Definition prec : Z := 53.
Definition emax : Z := 1024.

(** [x <= y] and [x < y] *)
Definition le (x y : t) : bool := SFleb x y.
Definition lt (x y : t) : bool := SFltb x y.

Definition is_nan (x : t) : bool :=
  match x with S754_nan => true | _ => false end.

(** The exact value [m * 2^e] of a finite float as a fraction. *)
Definition fraction (m : positive) (e : Z) : Z * Z :=
  if 0 <=? e then (Zpos m * 2 ^ e, 1) else (Zpos m, 2 ^ (- e)).

(** [a / b] rounded to the nearest integer, ties to even ([0 < b]). *)
Definition round_half_even (a b : Z) : Z :=
  let q := a / b in
  match 2 * (a mod b) ?= b with
  | Lt => q
  | Gt => q + 1
  | Eq => if Z.even q then q else q + 1
  end.

(** [10^x <= num / den] *)
Definition ge_pow10 (num den x : Z) : bool :=
  if 0 <=? x then den * 10 ^ x <=? num else den <=? num * 10 ^ (- x).

Fixpoint climb (fuel : nat) (num den x : Z) : Z :=
  match fuel with
  | O => x
  | S f => if ge_pow10 num den (x + 1) then climb f num den (x + 1) else x
  end.

(** The decimal exponent of [num / den]: the [x] with
    [10^x <= num / den < 10^(x+1)], reached from an estimate that the
    binary logarithms put at most three steps below it. *)
Definition dec_exponent (num den : Z) : Z :=
  let b := Z.log2 num - Z.log2 den in
  climb 8 num den ((b - 1) * 30103 / 100000 - 1).

(** [num / den] correctly rounded to [p] significant decimal digits:
    the [p]-digit integer and the decimal exponent of its first digit. *)
Definition sig_digits (p num den : Z) : Z * Z :=
  let x := dec_exponent num den in
  let k := p - 1 - x in
  let d := if 0 <=? k then round_half_even (num * 10 ^ k) den
           else round_half_even num (den * 10 ^ (- k)) in
  if d =? 10 ^ p then (10 ^ (p - 1), x + 1) else (d, x).

(** A digit string without its trailing zeros. *)
Fixpoint strip_zeros (s : string) : string :=
  match s with
  | EmptyString => EmptyString
  | String c r =>
      match strip_zeros r with
      | EmptyString => if Ascii.eqb c "0" then EmptyString else str1 c
      | r' => String c r'
      end
  end.

(** The ['g'] presentation of digits [ds] whose decimal point stands
    after the first [decpt] of them, with [Py_DTSF_ADD_DOT_0]:
    exponent form when [decpt <= -4] or [decpt > precision]. *)
Definition format_short (precision : Z) (ds : string) (decpt : Z) : string :=
  let n := Z.of_nat (String.length ds) in
  if (decpt <=? -4) || (precision <? decpt) then
    let x := decpt - 1 in
    let mant :=
      match ds with
      | String c EmptyString => str1 c
      | String c r => String c (String "." r)
      | EmptyString => EmptyString
      end in
    mant ++ "e" ++ (if x <? 0 then "-" else "+")
         ++ zfill 2 (str_nat (Z.abs x))
  else if decpt <=? 0 then
    "0." ++ zeros (Z.to_nat (- decpt)) ++ ds
  else if n <=? decpt then
    ds ++ zeros (Z.to_nat (decpt - n)) ++ ".0"
  else
    substring 0 (Z.to_nat decpt) ds ++ "."
      ++ substring (Z.to_nat decpt) (Z.to_nat (n - decpt)) ds.

Definition sign_prefix (s : bool) : string := if s then "-" else "".

(** [str(x)] in Python 2: ['%.12g'] with a [".0"] added to an integer
    ([PyFloat_STR_PRECISION] is 12). *)
Definition str (x : t) : string :=
  match x with
  | S754_nan => "nan"
  | S754_infinity s => sign_prefix s ++ "inf"
  | S754_zero s => sign_prefix s ++ "0.0"
  | S754_finite s m e =>
      let '(num, den) := fraction m e in
      let '(d, x) := sig_digits 12 num den in
      sign_prefix s ++ format_short 12 (strip_zeros (str_nat d)) (x + 1)
  end.

(** ["%.2f" % x] *)
Definition format_2f (x : t) : string :=
  match x with
  | S754_nan => "nan"
  | S754_infinity s => sign_prefix s ++ "inf"
  | S754_zero s => sign_prefix s ++ "0.00"
  | S754_finite s m e =>
      let '(num, den) := fraction m e in
      let n := round_half_even (num * 100) den in
      sign_prefix s ++ str_nat (n / 100) ++ "." ++ zfill 2 (str_nat (n mod 100))
  end.

(** The float nearest to [num / den] (ties to even), with sign [s]. *)
Definition of_fraction (s : bool) (num den : Z) : t :=
  let '(q, e, l) := SFdiv_core_binary prec emax num 0 den 0 in
  binary_round_aux prec emax s q e l.

(** The float nearest to [d * 10^x]. *)
Definition of_decimal (s : bool) (d x : Z) : t :=
  if d =? 0 then S754_zero s
  else if 0 <=? x then of_fraction s (d * 10 ^ x) 1
  else of_fraction s d (10 ^ (- x)).

Definition lower (c : ascii) : ascii :=
  let n := ord c in if (65 <=? n) && (n <=? 90) then chr (n + 32) else c.

Fixpoint lowercase (s : string) : string :=
  match s with
  | EmptyString => EmptyString
  | String c r => String (lower c) (lowercase r)
  end.

(** The exponent part of a literal: nothing, or [e], an optional sign and
    digits. *)
Definition parse_exponent (s : string) : option Z :=
  match s with
  | EmptyString => Some 0
  | String c r =>
      if Ascii.eqb (lower c) "e" then
        let '(neg, body) := split_sign r in
        match span_digits body with
        | (String c' d, EmptyString) =>
            let v := digits_value 0 (String c' d) in
            Some (if neg then - v else v)
        | _ => None
        end
      else None
  end.

(** [float(s)] for a byte string [s]; [None] is [ValueError]. *)
Definition of_string (s : string) : option t :=
  let '(neg, body) := split_sign (strip s) in
  let word := lowercase body in
  if String.eqb word "inf" || String.eqb word "infinity"
  then Some (S754_infinity neg)
  else if String.eqb word "nan" then Some S754_nan
  else
    let '(ip, rest) := span_digits body in
    let '(fp, rest') :=
      match rest with
      | String "." r => span_digits r
      | _ => (EmptyString, rest)
      end in
    match ip ++ fp with
    | EmptyString => None
    | ds =>
        match parse_exponent rest' with
        | Some x =>
            Some (of_decimal neg (digits_value 0 ds)
                             (x - Z.of_nat (String.length fp)))
        | None => None
        end
    end.

End PyFloat.

(** ** Domain entities *)

Definition dquote : string := str1 (chr 34).

Module Auction.

Record t := { name : string; description : string }.

Definition id_tuple (a : t) : list string := [name a; description a].
Definition highest_bid_tuple (a : t) : list string :=
  [name a; description a; "highest_bid"].
Definition winning_bidder_tuple (a : t) : list string :=
  [name a; description a; "winning_bidder"].
Definition num_bids_tuple (a : t) : list string :=
  [name a; description a; "num_bids"].

Definition get_packed_ids (a : t) (subspace : Subspace.t)
  : string * string * string * string :=
  (Subspace.pack subspace (id_tuple a),
   Subspace.pack subspace (highest_bid_tuple a),
   Subspace.pack subspace (num_bids_tuple a),
   Subspace.pack subspace (winning_bidder_tuple a)).

(** [__str__] *)
Definition str (a : t) : string :=
  "Auction(" ++ name a ++ ", " ++ description a ++ ")".

(** Two auctions are the same when their [id_tuple]s are. *)
Definition eqb (a a' : t) : bool :=
  String.eqb (name a) (name a') && String.eqb (description a) (description a').

End Auction.

Module Bidder.

Record t := { name : string }.

(** [tuple(self.name)]: one element per character of the name. *)
Definition id_tuple (b : t) : list string :=
  map str1 (list_ascii_of_string (name b)).

Definition num_bids_tuple (b : t) : list string := [name b; "num_bids"].

Definition get_packed_ids (b : t) (bidder_subspace : Subspace.t)
  : string * string :=
  (Subspace.pack bidder_subspace (id_tuple b),
   Subspace.pack bidder_subspace (num_bids_tuple b)).

(** [__str__] *)
Definition str (b : t) : string := "Bidder(" ++ name b ++ ")".

(** Two bidders are the same when their names are. *)
Definition eqb (b b' : t) : bool := String.eqb (name b) (name b').

End Bidder.

Module Bid.

Record t := { bidder : Bidder.t; auction : Auction.t; value : PyFloat.t }.

Definition bidder_id_tuple (b : t) : list string := Bidder.id_tuple (bidder b).
Definition auction_id_tuple (b : t) : list string := Auction.id_tuple (auction b).

(** [__str__] *)
Definition str (b : t) : string :=
  "Bid(" ++ Bidder.name (bidder b) ++ ", " ++ Auction.name (auction b)
    ++ ", " ++ dquote ++ Auction.description (auction b) ++ dquote
    ++ ", $" ++ PyFloat.format_2f (value b) ++ ")".

End Bid.

(** ** The ordered key-value store: keys in increasing byte order, each once *)

Module Store.

Definition t := list (string * string).

Definition empty : t := [].

Fixpoint get (k : string) (s : t) : option string :=
  match s with
  | [] => None
  | (k', v) :: r => if String.eqb k k' then Some v else get k r
  end.

Fixpoint set (k v : string) (s : t) : t :=
  match s with
  | [] => [(k, v)]
  | (k', v') :: r =>
      match String.compare k k' with
      | Lt => (k, v) :: s
      | Eq => (k, v) :: r
      | Gt => (k', v') :: set k v r
      end
  end.

(** [k] lies in the range [[b, e)]. *)
Definition in_range (rg : string * string) (k : string) : bool :=
  String.leb (fst rg) k && String.ltb k (snd rg).

(** The pairs whose key lies in the range, in key order. *)
Definition get_range (rg : string * string) (s : t) : t :=
  filter (fun kv => in_range rg (fst kv)) s.

(** [del db[b:e]]: the store without the pairs whose key lies in the range. *)
Definition clear_range (rg : string * string) (s : t) : t :=
  filter (fun kv => negb (in_range rg (fst kv))) s.

(** The keys of a store are strictly increasing. *)
Definition key_lt (x y : string * string) : Prop :=
  String.compare (fst x) (fst y) = Lt.

Definition sorted (s : t) : Prop := StronglySorted key_lt s.

End Store.

(** ** Transaction bodies: a state and error monad over the transaction's
    view of the store and the lines printed so far *)

Inductive exn :=
| NameError (name : string)
| TypeError
| ValueError
| StructError.

Inductive res (A : Type) :=
| Ret (a : A)
| Raise (e : exn).
Arguments Ret {A} a.
Arguments Raise {A} e.

Definition Tx (A : Type) : Type :=
  Store.t * list string -> res A * (Store.t * list string).

Definition ret {A} (a : A) : Tx A := fun st => (Ret a, st).

Definition raise {A} (e : exn) : Tx A := fun st => (Raise e, st).

Definition bind {A B} (m : Tx A) (f : A -> Tx B) : Tx B :=
  fun st =>
    match m st with
    | (Ret a, st') => f a st'
    | (Raise e, st') => (Raise e, st')
    end.

Declare Scope tx_scope.
Delimit Scope tx_scope with tx.
Notation "x <- m ;; k" := (bind m (fun x => k))
  (at level 100, m at next level, right associativity) : tx_scope.
Notation "m ;; k" := (bind m (fun _ => k))
  (at level 100, right associativity) : tx_scope.

(** [tr[key]]: the value, or [None] when [present()] is false. *)
Definition tr_get (key : string) : Tx (option string) :=
  fun st => (Ret (Store.get key (fst st)), st).

(** [tr[key] = value] *)
Definition tr_set (key value : string) : Tx unit :=
  fun st => (Ret tt, (Store.set key value (fst st), snd st)).

(** [tr[begin:end]] *)
Definition tr_get_range (rg : string * string) : Tx Store.t :=
  fun st => (Ret (Store.get_range rg (fst st)), st).

(** [print line] *)
Definition print (line : string) : Tx unit :=
  fun st => (Ret tt, (fst st, snd st ++ [line])%list).

Definition present (v : option string) : bool :=
  match v with Some _ => true | None => false end.

(** [v == s] for a value read from the store and a byte string. *)
Definition value_eqb (v : option string) (s : string) : bool :=
  match v with Some b => String.eqb b s | None => false end.

(** [str(v)] for a value read from the store. *)
Definition value_str (v : option string) : string :=
  match v with Some b => b | None => "None" end.

(** [int(v)] for a value read from the store. *)
Definition value_int (v : option string) : Tx Z :=
  match v with
  | None => raise TypeError
  | Some b => match PyInt.of_string b with
              | Some n => ret n
              | None => raise ValueError
              end
  end.

(** [float(str(v))] for a value read from the store. *)
Definition value_float (v : option string) : Tx PyFloat.t :=
  match PyFloat.of_string (value_str v) with
  | Some x => ret x
  | None => raise ValueError
  end.

(** [subspace[n]] inside a body: packing the integer may raise. *)
Definition item_int (ss : Subspace.t) (n : Z) : Tx Subspace.t :=
  match Subspace.item_int ss n with
  | Some k => ret k
  | None => raise StructError
  end.

(** [@fdb.transactional] applied to a database: the body runs on the
    committed store; its writes are committed when it returns, and dropped
    when it raises. What it printed stays printed. *)
Definition transactional {A} (body : Tx A) (db : Store.t)
  : res A * Store.t * list string :=
  match body (db, []) with
  | (Ret a, (tr, out)) => (Ret a, tr, out)
  | (Raise e, (_, out)) => (Raise e, db, out)
  end.

(** What a call returned, the store it left and the lines it printed. *)
Definition returned {A} (c : res A * Store.t * list string) : res A := fst (fst c).
Definition committed {A} (c : res A * Store.t * list string) : Store.t := snd (fst c).
Definition printed {A} (c : res A * Store.t * list string) : list string := snd c.

(** The same call when the store reports a conflict at commit: each store of
    [conflicts] is one the body ran on before its commit was refused and the
    body re-invoked; a body that raises ends the call. [db] is the store of
    the attempt that commits. *)
Fixpoint transactional_retry {A} (body : Tx A) (conflicts : list Store.t)
  (db : Store.t) : res A * Store.t * list string :=
  match conflicts with
  | [] => transactional body db
  | c :: cs =>
      match body (c, []) with
      | (Ret _, (_, out)) =>
          let '(r, db', out') := transactional_retry body cs db in
          (r, db', (out ++ out')%list)
      | (Raise e, (_, out)) => (Raise e, c, out)
      end
  end.

(** A body is print-only on the console when it never reads what was
    printed: run after earlier output, it does what it does on an empty
    console and adds its lines to that output. *)
Definition prints_only {A} (m : Tx A) : Prop :=
  forall db out0,
    m (db, out0) =
    let '(r, (db', out)) := m (db, []) in (r, (db', (out0 ++ out)%list)).

(** ** The auction engine *)

(** Every operation prints its message and returns [None]; the embedding
    returns, in place of [None], which [return] of the body was reached. *)
Inductive report :=
| Done
| AlreadyExists
| NotFound
| AuctionClosed
| BidTooLow
| AlreadyWinning.

Section Engine.

(** The raw prefix of the directory [('auction-kv',)], allocated by the
    directory layer when the directory is created. *)
Variable auction_kv : Subspace.t.

Definition auctions_ss : Subspace.t := Subspace.item auction_kv "auctions".
Definition bids_ss : Subspace.t := Subspace.item auction_kv "bids".
Definition bidders_ss : Subspace.t := Subspace.item auction_kv "bidders".

Definition add_auction (auction : Auction.t) : Tx report :=
  let '(auction_key, highest_bid_key, num_bids_key, winning_bidder_key) :=
    Auction.get_packed_ids auction auctions_ss in
  (v <- tr_get auction_key ;;
   if present v then
     print ("Cannot add auction " ++ Auction.str auction ++ ": already exists") ;;
     ret AlreadyExists
   else
     tr_set auction_key "OPEN" ;;
     tr_set highest_bid_key "0" ;;
     tr_set winning_bidder_key "" ;;
     tr_set num_bids_key "0" ;;
     ret Done)%tx.

Definition close_auction (auction : Auction.t) : Tx report :=
  let '(auction_key, _, _, _) := Auction.get_packed_ids auction auctions_ss in
  (v <- tr_get auction_key ;;
   if negb (present v) then
     print ("Cannot close auction " ++ Auction.str auction ++ ": does not exists") ;;
     ret NotFound
   else
     tr_set auction_key "CLOSED" ;;
     ret Done)%tx.

(** In the branch of an absent auction the message is built from [bid],
    a name that is bound neither in the function nor in the module:
    evaluating it raises [NameError] before anything is printed. *)
Definition is_auction_open (auction : Auction.t) : Tx bool :=
  let '(auction_key, _, _, _) := Auction.get_packed_ids auction auctions_ss in
  (v <- tr_get auction_key ;;
   if negb (present v) then
     raise (NameError "bid")
   else
     v' <- tr_get auction_key ;;
     ret (value_eqb v' "OPEN"))%tx.

Definition winning_bid (auction : Auction.t)
  : Tx (option string * option string) :=
  let '(auction_key, highest_bid_key, _, winning_bidder_key) :=
    Auction.get_packed_ids auction auctions_ss in
  (v <- tr_get auction_key ;;
   if negb (present v) then
     raise (NameError "bid")
   else
     w <- tr_get winning_bidder_key ;;
     h <- tr_get highest_bid_key ;;
     ret (w, h))%tx.

Definition add_bidder (bidder : Bidder.t) : Tx report :=
  let '(bidder_key, num_bids_key) := Bidder.get_packed_ids bidder bidders_ss in
  (v <- tr_get bidder_key ;;
   if present v then
     print ("Cannot add bidder " ++ Bidder.str bidder ++ ": already exists") ;;
     ret AlreadyExists
   else
     tr_set bidder_key (Bidder.str bidder) ;;
     tr_set num_bids_key "0" ;;
     ret Done)%tx.

Definition submit_bid (bid : Bid.t) : Tx report :=
  let '(auction_key, highest_bid_key, num_bids_key, winning_bidder_key) :=
    Auction.get_packed_ids (Bid.auction bid) auctions_ss in
  let '(bidder_key, bidder_num_bids_key) :=
    Bidder.get_packed_ids (Bid.bidder bid) bidders_ss in
  let who := "[" ++ Bidder.str (Bid.bidder bid) ++ "] " in
  let on_auction :=
    who ++ "Cannot bid on auction " ++ Auction.str (Bid.auction bid) in
  (v <- tr_get auction_key ;;
   if negb (present v) then
     print (on_auction ++ ": does not exist") ;;
     ret NotFound
   else
   st <- tr_get auction_key ;;
   if value_eqb st "CLOSED" then
     print (on_auction ++ ": auction is closed") ;;
     ret AuctionClosed
   else
   hv <- tr_get highest_bid_key ;;
   h <- value_float hv ;;
   if PyFloat.le (Bid.value bid) h then
     hv' <- tr_get highest_bid_key ;;
     print (on_auction ++ ": bid " ++ PyFloat.str (Bid.value bid)
              ++ " is less than " ++ value_str hv') ;;
     ret BidTooLow
   else
   w <- tr_get winning_bidder_key ;;
   if value_eqb w (Bidder.name (Bid.bidder bid)) then
     print (who ++ "Cannot bid on auction " ++ auction_key
              ++ ": already highest bidder") ;;
     ret AlreadyWinning
   else
   nv <- tr_get num_bids_key ;;
   n <- value_int nv ;;
   let bid_number := n + 1 in
   tr_set highest_bid_key (PyFloat.str (Bid.value bid)) ;;
   tr_set winning_bidder_key (Bidder.name (Bid.bidder bid)) ;;
   tr_set num_bids_key (PyInt.str bid_number) ;;
   print (who ++ Auction.str (Bid.auction bid) ++ ": new highest bid "
            ++ PyFloat.format_2f (Bid.value bid)) ;;
   k <- item_int (Subspace.item bids_ss auction_key) bid_number ;;
   tr_set (Subspace.key k) (Bid.str bid) ;;
   bv <- tr_get bidder_num_bids_key ;;
   m <- value_int bv ;;
   let bidder_bid_number := m + 1 in
   tr_set bidder_num_bids_key (PyInt.str bidder_bid_number) ;;
   k' <- item_int (Subspace.item bids_ss bidder_key) bidder_bid_number ;;
   tr_set (Subspace.key k') (Bid.str bid) ;;
   ret Done)%tx.

Definition bids_for_bidder (bidder : Bidder.t) : Tx Store.t :=
  let bidder_key := Subspace.pack bidders_ss (Bidder.id_tuple bidder) in
  tr_get_range (Subspace.range (Subspace.item bids_ss bidder_key)).

Definition bids_for_auction (auction : Auction.t) : Tx Store.t :=
  let auction_key := Subspace.pack auctions_ss (Auction.id_tuple auction) in
  tr_get_range (Subspace.range (Subspace.item bids_ss auction_key)).

End Engine.

(** ** Keys, calls and runs *)

Section Keys.

Variable auction_kv : Subspace.t.

(** The four keys of an auction and the two of a bidder, as
    [get_packed_ids] returns them. *)
Definition auction_key (a : Auction.t) : string :=
  Subspace.pack (auctions_ss auction_kv) (Auction.id_tuple a).
Definition highest_bid_key (a : Auction.t) : string :=
  Subspace.pack (auctions_ss auction_kv) (Auction.highest_bid_tuple a).
Definition num_bids_key (a : Auction.t) : string :=
  Subspace.pack (auctions_ss auction_kv) (Auction.num_bids_tuple a).
Definition winning_bidder_key (a : Auction.t) : string :=
  Subspace.pack (auctions_ss auction_kv) (Auction.winning_bidder_tuple a).
Definition bidder_key (b : Bidder.t) : string :=
  Subspace.pack (bidders_ss auction_kv) (Bidder.id_tuple b).
Definition bidder_num_bids_key (b : Bidder.t) : string :=
  Subspace.pack (bidders_ss auction_kv) (Bidder.num_bids_tuple b).

(** The key of entry [i] of the bid log of a scope (the packed key of an
    auction or of a bidder): [bids_ss[scope][i]]. *)
Definition log_key (scope : string) (i : Z) : option string :=
  Subspace.item_int (Subspace.item (bids_ss auction_kv) scope) i.

(** The key of entry [i] of a bid log as [subspace[i]] builds it, for an
    index that can be packed. *)
Definition log_entry_key (scope : string) (i : Z) : string :=
  match log_key scope i with
  | Some k => k
  | None => EmptyString
  end.

(** The rows of the bid log of [scope] that hold the bids [bids], in order,
    from entry [i] on. *)
Fixpoint log_rows (scope : string) (i : Z) (bids : list Bid.t) : Store.t :=
  match bids with
  | [] => []
  | b :: rest => (log_entry_key scope i, Bid.str b) :: log_rows scope (i + 1) rest
  end.

(** The auction's highest bid as [submit_bid] reads it. *)
Definition highest_bid (db : Store.t) (a : Auction.t) : option PyFloat.t :=
  match Store.get (highest_bid_key a) db with
  | Some b => PyFloat.of_string b
  | None => None
  end.

(** A bid counter as [submit_bid] reads it. *)
Definition counter (db : Store.t) (key : string) : option Z :=
  match Store.get key db with
  | Some b => PyInt.of_string b
  | None => None
  end.

(** The store [submit_bid] commits when it accepts a bid, [n] and [m]
    being the bid counts of the auction and of the bidder before it and
    [ka], [kb] the keys of the two new log entries. *)
Definition accepted_store (db : Store.t) (bid : Bid.t) (n m : Z) (ka kb : string)
  : Store.t :=
  let a := Bid.auction bid in
  let b := Bid.bidder bid in
  Store.set kb (Bid.str bid)
    (Store.set (bidder_num_bids_key b) (PyInt.str (m + 1))
       (Store.set ka (Bid.str bid)
          (Store.set (num_bids_key a) (PyInt.str (n + 1))
             (Store.set (winning_bidder_key a) (Bidder.name b)
                (Store.set (highest_bid_key a) (PyFloat.str (Bid.value bid)) db))))).

(** The checks [submit_bid] passes, and the reads and packings that
    succeed, on the way to accepting a bid. *)
Definition accepts (db : Store.t) (bid : Bid.t) (h : PyFloat.t) (n m : Z)
  (ka kb : string) : Prop :=
  let a := Bid.auction bid in
  let b := Bid.bidder bid in
  Store.get (auction_key a) db <> None /\
  value_eqb (Store.get (auction_key a) db) "CLOSED" = false /\
  highest_bid db a = Some h /\
  PyFloat.le (Bid.value bid) h = false /\
  value_eqb (Store.get (winning_bidder_key a) db) (Bidder.name b) = false /\
  counter db (num_bids_key a) = Some n /\
  log_key (auction_key a) (n + 1) = Some ka /\
  counter db (bidder_num_bids_key b) = Some m /\
  log_key (bidder_key b) (m + 1) = Some kb.

(** The lines [submit_bid] prints when it rejects a bid. *)
Definition cannot_bid (bid : Bid.t) : string :=
  ("[" ++ Bidder.str (Bid.bidder bid) ++ "] ")
    ++ "Cannot bid on auction " ++ Auction.str (Bid.auction bid).

Definition closed_line (bid : Bid.t) : string :=
  cannot_bid bid ++ ": auction is closed".

Definition too_low_line (bid : Bid.t) (highest : string) : string :=
  cannot_bid bid ++ ": bid " ++ PyFloat.str (Bid.value bid)
    ++ " is less than " ++ highest.

Definition already_winning_line (bid : Bid.t) : string :=
  ("[" ++ Bidder.str (Bid.bidder bid) ++ "] ")
    ++ "Cannot bid on auction " ++ auction_key (Bid.auction bid)
    ++ ": already highest bidder".

(** The line [submit_bid] prints when it accepts a bid. *)
Definition new_highest_line (bid : Bid.t) : string :=
  ("[" ++ Bidder.str (Bid.bidder bid) ++ "] ")
    ++ Auction.str (Bid.auction bid) ++ ": new highest bid "
    ++ PyFloat.format_2f (Bid.value bid).

(** The operations of the engine, and what a call answers. *)
Inductive op :=
| AddAuction (a : Auction.t)
| CloseAuction (a : Auction.t)
| IsAuctionOpen (a : Auction.t)
| WinningBid (a : Auction.t)
| AddBidder (b : Bidder.t)
| SubmitBid (bid : Bid.t)
| BidsForBidder (b : Bidder.t)
| BidsForAuction (a : Auction.t).

Inductive answer :=
| Report (r : report)
| Flag (b : bool)
| Winner (w h : option string)
| Rows (kvs : Store.t).

Definition body (o : op) : Tx answer :=
  match o with
  | AddAuction a => (r <- add_auction auction_kv a ;; ret (Report r))%tx
  | CloseAuction a => (r <- close_auction auction_kv a ;; ret (Report r))%tx
  | IsAuctionOpen a => (b <- is_auction_open auction_kv a ;; ret (Flag b))%tx
  | WinningBid a =>
      (wh <- winning_bid auction_kv a ;; ret (Winner (fst wh) (snd wh)))%tx
  | AddBidder b => (r <- add_bidder auction_kv b ;; ret (Report r))%tx
  | SubmitBid bid => (r <- submit_bid auction_kv bid ;; ret (Report r))%tx
  | BidsForBidder b => (kvs <- bids_for_bidder auction_kv b ;; ret (Rows kvs))%tx
  | BidsForAuction a => (kvs <- bids_for_auction auction_kv a ;; ret (Rows kvs))%tx
  end.

(** The committed store after a call, and after a sequence of calls. *)
Definition exec (o : op) (db : Store.t) : Store.t :=
  committed (transactional (body o) db).

Definition exec_all (ops : list op) (db : Store.t) : Store.t :=
  fold_left (fun s o => exec o s) ops db.

(** An amount that is a number and that [str] renders exactly:
    [float(str(v)) == v]. *)
Definition plain_amount (v : PyFloat.t) : Prop :=
  PyFloat.is_nan v = false /\ PyFloat.of_string (PyFloat.str v) = Some v.

Definition plain_op (o : op) : Prop :=
  match o with
  | SubmitBid bid => plain_amount (Bid.value bid)
  | _ => True
  end.

Definition is_done (r : res report) : bool :=
  match r with
  | Ret Done => true
  | _ => false
  end.

(** The bids on auction [a] that a sequence of calls accepts, in order. *)
Fixpoint accepted_bids (a : Auction.t) (ops : list op) (db : Store.t)
  : list Bid.t :=
  match ops with
  | [] => []
  | o :: rest =>
      match o with
      | SubmitBid bid =>
          if Auction.eqb (Bid.auction bid) a
             && is_done (returned (transactional (submit_bid auction_kv bid) db))
          then [bid] else []
      | _ => []
      end ++ accepted_bids a rest (exec o db)
  end%list.

(** Each bid of the list has a positive amount, and an amount above and a
    bidder name other than those of the bid before it ([prev] before the
    first). *)
Fixpoint rising (prev : option Bid.t) (bids : list Bid.t) : Prop :=
  match bids with
  | [] => True
  | b :: rest =>
      PyFloat.lt (S754_zero false) (Bid.value b) = true /\
      match prev with
      | None => True
      | Some p =>
          PyFloat.lt (Bid.value p) (Bid.value b) = true /\
          Bidder.name (Bid.bidder p) <> Bidder.name (Bid.bidder b)
      end /\
      rising (Some b) rest
  end.

(** The auction record as the accepted bids leave it: before any, the
    auction is absent or shows highest bid 0 and no winner; after one, it
    shows the text of its amount and its bidder. *)
Definition tracks (a : Auction.t) (db : Store.t) (prev : option Bid.t) : Prop :=
  match prev with
  | None =>
      Store.get (auction_key a) db = None \/
      (Store.get (highest_bid_key a) db = Some "0" /\ Store.get (winning_bidder_key a) db = Some "")
  | Some p =>
      Store.get (auction_key a) db <> None /\
      Store.get (highest_bid_key a) db = Some (PyFloat.str (Bid.value p)) /\
      Store.get (winning_bidder_key a) db = Some (Bidder.name (Bid.bidder p)) /\
      plain_amount (Bid.value p) /\
      PyFloat.lt (S754_zero false) (Bid.value p) = true
  end.

(** The bid log and the bid count of auction [a] hold the accepted bids
    [bids]: the store is sorted, the ranged read of the log returns their
    rows, an absent auction has none, and the count of a present auction is
    their number. *)
Definition logged (a : Auction.t) (db : Store.t) (bids : list Bid.t) : Prop :=
  Store.sorted db /\
  Store.get_range (Subspace.range (Subspace.item (bids_ss auction_kv) (auction_key a))) db
    = log_rows (auction_key a) 1 bids /\
  (Store.get (auction_key a) db = None -> bids = []) /\
  (Store.get (auction_key a) db <> None ->
   Store.get (num_bids_key a) db = Some (PyInt.str (Z.of_nat (List.length bids)))).

(** The winning bidder and the highest bid an auction shows after the bids
    [bids] were accepted on it, in order, when it showed [prev] before: those
    of the last of them. *)
Fixpoint standing (prev : string * string) (bids : list Bid.t) : string * string :=
  match bids with
  | [] => prev
  | b :: rest =>
      standing (Bidder.name (Bid.bidder b), PyFloat.str (Bid.value b)) rest
  end.

(** An auction of the store shows the winning bidder and the highest bid
    [s]; one that is not in the store has had no bid and will show
    [('', '0')] when added. *)
Definition shows (a : Auction.t) (db : Store.t) (s : string * string) : Prop :=
  match Store.get (auction_key a) db with
  | Some st =>
      (st = "OPEN" \/ st = "CLOSED") /\
      Store.get (winning_bidder_key a) db = Some (fst s) /\
      Store.get (highest_bid_key a) db = Some (snd s)
  | None => s = ("", "0")
  end.

(** The auction a call may write to: the one it adds, closes or bids on. *)
Definition written_auction (o : op) : option Auction.t :=
  match o with
  | AddAuction a | CloseAuction a => Some a
  | SubmitBid bid => Some (Bid.auction bid)
  | IsAuctionOpen _ | WinningBid _ | AddBidder _ | BidsForBidder _
  | BidsForAuction _ => None
  end.

(** The bids of bidder [b] that a sequence of calls accepts, in order. *)
Fixpoint accepted_from (b : Bidder.t) (ops : list op) (db : Store.t)
  : list Bid.t :=
  match ops with
  | [] => []
  | o :: rest =>
      match o with
      | SubmitBid bid =>
          if Bidder.eqb (Bid.bidder bid) b
             && is_done (returned (transactional (submit_bid auction_kv bid) db))
          then [bid] else []
      | _ => []
      end ++ accepted_from b rest (exec o db)
  end%list.

(** The bid log and the bid count of bidder [b] hold the accepted bids
    [bids]: the store is sorted, the ranged read of the log returns their
    rows, a bidder that is not registered has none and has no count, and
    the count of a registered bidder is their number. *)
Definition bidder_logged (b : Bidder.t) (db : Store.t) (bids : list Bid.t) : Prop :=
  Store.sorted db /\
  Store.get_range (Subspace.range (Subspace.item (bids_ss auction_kv) (bidder_key b))) db
    = log_rows (bidder_key b) 1 bids /\
  (Store.get (bidder_key b) db = None ->
   bids = [] /\ Store.get (bidder_num_bids_key b) db = None) /\
  (Store.get (bidder_key b) db <> None ->
   Store.get (bidder_num_bids_key b) db
   = Some (PyInt.str (Z.of_nat (List.length bids)))).

End Keys.

(** A float literal. *)
Definition float_lit (s : string) : PyFloat.t :=
  match PyFloat.of_string s with
  | Some x => x
  | None => S754_nan
  end.

(** A directory prefix as the directory layer allocates them (a packed
    small integer), and the entities of the end-to-end scenario. *)
Definition sample_kv : Subspace.t := String (chr 21) (str1 (chr 1)).
Definition pen : Auction.t :=
  {| Auction.name := "pen"; Auction.description := "blue pen" |}.
Definition bidder_A : Bidder.t := {| Bidder.name := "A" |}.
Definition bidder_B : Bidder.t := {| Bidder.name := "B" |}.
Definition bidder_AB : Bidder.t := {| Bidder.name := "AB" |}.
Definition bid_of (b : Bidder.t) (a : Auction.t) (v : string) : Bid.t :=
  {| Bid.bidder := b; Bid.auction := a; Bid.value := float_lit v |}.

Definition bid_A5 : Bid.t := bid_of bidder_A pen "5.0".
Definition bid_B5 : Bid.t := bid_of bidder_B pen "5.0".
Definition bid_B7 : Bid.t := bid_of bidder_B pen "7.0".

Section Scenario.

Variable auction_kv : Subspace.t.

(** The end-to-end scenario: the stores after the auction and the two
    bidders are added to an empty store, and after each of the bids. *)
Definition scenario_start : Store.t :=
  exec_all auction_kv [AddAuction pen; AddBidder bidder_A; AddBidder bidder_B]
    Store.empty.
Definition after_A5 : Store.t := exec auction_kv (SubmitBid bid_A5) scenario_start.
Definition after_B5 : Store.t := exec auction_kv (SubmitBid bid_B5) after_A5.
Definition after_B7 : Store.t := exec auction_kv (SubmitBid bid_B7) after_B5.

End Scenario.

(** Stores and bids of the instances below, under the sample prefix. *)
Definition only_pen : Store.t := exec sample_kv (AddAuction pen) Store.empty.
Definition bid_B3 : Bid.t := bid_of bidder_B pen "3.0".
Definition bid_A9 : Bid.t := bid_of bidder_A pen "9.0".
Definition bid_B5_and_a_bit : Bid.t := bid_of bidder_B pen "5.0000000000001".
Definition after_B3 : Store.t := exec sample_kv (SubmitBid bid_B3) (scenario_start sample_kv).

(** A second auction, a bid on it, and a bid whose amount is not a number. *)
Definition ink : Auction.t :=
  {| Auction.name := "ink"; Auction.description := "black ink" |}.
Definition bid_B2_ink : Bid.t := bid_of bidder_B ink "2.0".
Definition bid_A_nan : Bid.t :=
  {| Bid.bidder := bidder_A; Bid.auction := pen; Bid.value := S754_nan |}.
Definition after_A_nan : Store.t :=
  exec sample_kv (SubmitBid bid_A_nan) (scenario_start sample_kv).

(** * Properties *)

(** ** Byte strings *)

Lemma append_assoc (a b c : string) : (a ++ b) ++ c = a ++ (b ++ c).
Proof. induction a as [|x a IH]; simpl; [reflexivity | now rewrite IH]. Qed.

Lemma append_nil_r (a : string) : a ++ "" = a.
Proof. induction a as [|x a IH]; simpl; [reflexivity | now rewrite IH]. Qed.

Lemma append_inv_head (p a b : string) : p ++ a = p ++ b -> a = b.
Proof.
  induction p as [|x p IH]; simpl; intros H; [exact H|].
  injection H as H. now apply IH.
Qed.

Lemma ascii_compare_refl (c : ascii) : Ascii.compare c c = Eq.
Proof. unfold Ascii.compare. apply N.compare_refl. Qed.

Lemma compare_refl (s : string) : String.compare s s = Eq.
Proof.
  induction s as [|c s IH]; simpl; [reflexivity|].
  now rewrite ascii_compare_refl.
Qed.

Lemma compare_app (p a b : string) :
  String.compare (p ++ a) (p ++ b) = String.compare a b.
Proof.
  induction p as [|c p IH]; simpl; [reflexivity|].
  now rewrite ascii_compare_refl.
Qed.

Lemma eqb_app (p a b : string) : String.eqb (p ++ a) (p ++ b) = String.eqb a b.
Proof.
  induction p as [|c p IH]; simpl; [reflexivity|].
  now rewrite Ascii.eqb_refl.
Qed.

Lemma compare_neq_lt (a b : string) : String.compare a b = Lt -> a <> b.
Proof. intros H ->. rewrite compare_refl in H. discriminate. Qed.

Lemma compare_neq_gt (a b : string) : String.compare a b = Gt -> a <> b.
Proof. intros H ->. rewrite compare_refl in H. discriminate. Qed.

Lemma prefix_app (p s : string) : String.prefix p (p ++ s) = true.
Proof.
  induction p as [|c p IH]; simpl; [now destruct s|].
  destruct (ascii_dec c c) as [_|N]; [exact IH | now elim N].
Qed.

(** ** The store *)

Lemma get_set_eq (k v : string) (s : Store.t) :
  Store.get k (Store.set k v s) = Some v.
Proof.
  induction s as [|[k' v'] r IH]; simpl.
  - now rewrite String.eqb_refl.
  - destruct (String.compare k k') eqn:C; simpl.
    + now rewrite String.eqb_refl.
    + now rewrite String.eqb_refl.
    + apply compare_neq_gt in C. apply String.eqb_neq in C. now rewrite C.
Qed.

Lemma get_set_neq (k k' v : string) (s : Store.t) :
  k <> k' -> Store.get k (Store.set k' v s) = Store.get k s.
Proof.
  intros N. apply String.eqb_neq in N.
  induction s as [|[k0 v0] r IH]; simpl.
  - now rewrite N.
  - destruct (String.compare k' k0) eqn:C; simpl.
    + apply String.compare_eq_iff in C. subst k0. now rewrite N.
    + now rewrite N.
    + now rewrite IH.
Qed.

Lemma ascii_compare_lt_trans (a b c : ascii) :
  Ascii.compare a b = Lt -> Ascii.compare b c = Lt -> Ascii.compare a c = Lt.
Proof. unfold Ascii.compare. rewrite !N.compare_lt_iff. lia. Qed.

Lemma compare_lt_trans (a : string) : forall b c,
  String.compare a b = Lt -> String.compare b c = Lt -> String.compare a c = Lt.
Proof.
  induction a as [|x a IH]; intros [|y b] [|z c]; simpl; try easy.
  destruct (Ascii.compare x y) eqn:Exy; try discriminate;
    destruct (Ascii.compare y z) eqn:Eyz; try discriminate; intros H1 H2.
  - apply Ascii.compare_eq_iff in Exy, Eyz. subst.
    rewrite ascii_compare_refl. now apply IH with b.
  - apply Ascii.compare_eq_iff in Exy. subst. now rewrite Eyz.
  - apply Ascii.compare_eq_iff in Eyz. subst. now rewrite Exy.
  - now rewrite (ascii_compare_lt_trans _ _ _ Exy Eyz).
Qed.

(** Sorted stores: [set] keeps the order, and a range read of the store
    after a write is the write applied to the range read. *)

Lemma set_below (k v : string) (s : Store.t) :
  Forall (Store.key_lt (k, v)) s -> Store.set k v s = (k, v) :: s.
Proof.
  destruct s as [|[k' v'] r]; [reflexivity|].
  intros H. inversion H as [|? ? L _]; subst. unfold Store.key_lt in L.
  cbn [fst] in L. cbn [Store.set]. now rewrite L.
Qed.

Lemma below_set (k0 v0 k v : string) (s : Store.t) :
  String.compare k0 k = Lt ->
  Forall (Store.key_lt (k0, v0)) s ->
  Forall (Store.key_lt (k0, v0)) (Store.set k v s).
Proof.
  intros L. induction s as [|[k' v'] r IH]; intros H; cbn [Store.set].
  - constructor; [exact L | constructor].
  - inversion H as [|? ? L' H']; subst.
    destruct (String.compare k k') eqn:C.
    + constructor; [exact L | exact H'].
    + constructor; [exact L | exact H].
    + constructor; [exact L' | now apply IH].
Qed.

Lemma set_sorted (k v : string) (s : Store.t) :
  Store.sorted s -> Store.sorted (Store.set k v s).
Proof.
  unfold Store.sorted. induction 1 as [|[k' v'] r S IH F]; cbn [Store.set].
  - constructor; constructor.
  - destruct (String.compare k k') eqn:C.
    + apply String.compare_eq_iff in C. subst k'.
      constructor; [exact S|]. revert F. apply Forall_impl. now intros [? ?].
    + constructor; [now constructor|].
      constructor; [exact C|]. revert F. apply Forall_impl.
      intros [k1 v1]. unfold Store.key_lt. cbn [fst]. now apply compare_lt_trans.
    + constructor; [exact IH|]. apply below_set; [|exact F].
      rewrite String.compare_antisym, C. reflexivity.
Qed.

Lemma empty_sorted : Store.sorted Store.empty.
Proof. constructor. Qed.

Lemma below_filter (x : string * string) (f : string * string -> bool) (s : Store.t) :
  Forall (Store.key_lt x) s -> Forall (Store.key_lt x) (filter f s).
Proof.
  rewrite !Forall_forall. intros H y Hy. apply H.
  apply filter_In in Hy. now destruct Hy.
Qed.

Lemma get_range_set (rg : string * string) (k v : string) (s : Store.t) :
  Store.sorted s ->
  Store.get_range rg (Store.set k v s) =
  if Store.in_range rg k then Store.set k v (Store.get_range rg s)
  else Store.get_range rg s.
Proof.
  unfold Store.sorted, Store.get_range.
  induction 1 as [|[k' v'] r S IH F]; cbn [Store.set filter fst].
  - now destruct (Store.in_range rg k).
  - destruct (String.compare k k') eqn:C; cbn [filter fst].
    + apply String.compare_eq_iff in C. subst k'.
      destruct (Store.in_range rg k); [|reflexivity].
      cbn [Store.set]. now rewrite compare_refl.
    + destruct (Store.in_range rg k) eqn:Ik; [|reflexivity].
      symmetry. apply set_below.
      change (Forall (Store.key_lt (k, v))
                (filter (fun kv => Store.in_range rg (fst kv)) ((k', v') :: r))).
      apply below_filter.
      constructor; [exact C|]. revert F. apply Forall_impl.
      intros [k1 v1]. unfold Store.key_lt. cbn [fst]. now apply compare_lt_trans.
    + rewrite IH.
      destruct (Store.in_range rg k'), (Store.in_range rg k);
        cbn [Store.set]; rewrite ?C; reflexivity.
Qed.

Lemma ascii_below_ff (c : ascii) : c <> xff -> Ascii.compare c xff = Lt.
Proof.
  intros N. unfold Ascii.compare. apply N.compare_lt_iff.
  pose proof (N_ascii_bounded c) as B.
  assert (N_of_ascii c <> 255)%N.
  { intros E. apply N. rewrite <- (ascii_N_embedding c), E. reflexivity. }
  change (N_of_ascii xff) with 255%N. lia.
Qed.

Lemma ascii_above_00 (c : ascii) : Ascii.compare x00 c <> Gt.
Proof.
  unfold Ascii.compare. change (N_of_ascii x00) with 0%N.
  destruct (N_of_ascii c); discriminate.
Qed.

(** The range of a subspace holds the keys that extend its prefix by a
    byte other than [0xff], and only those. *)
Lemma in_range_inside (p : string) (c : ascii) (r : string) :
  c <> xff ->
  Store.in_range (Subspace.range p) (p ++ String c r) = true.
Proof.
  intros N. unfold Store.in_range, Subspace.range, String.leb, String.ltb, str1.
  cbn [fst snd]. rewrite !compare_app. cbn [String.compare].
  rewrite (ascii_below_ff c N).
  pose proof (ascii_above_00 c) as A.
  destruct (Ascii.compare x00 c); try reflexivity; [now destruct r | now elim A].
Qed.

Lemma in_range_prefix (p : string) : forall k,
  Store.in_range (Subspace.range p) k = true ->
  exists c r, k = p ++ String c r /\ c <> xff.
Proof.
  unfold Store.in_range, Subspace.range, String.leb, String.ltb, str1.
  cbn [fst snd].
  induction p as [|x p IH]; intros [|y k]; cbn [String.append String.compare];
    try discriminate.
  - intros H. exists y, k. split; [reflexivity|]. intros ->.
    rewrite ascii_compare_refl in H. destruct (Ascii.compare x00 xff), k; discriminate.
  - rewrite (Ascii.compare_antisym y x).
    destruct (Ascii.compare x y) eqn:C; cbn [CompOpp]; try discriminate.
    apply Ascii.compare_eq_iff in C. subst y. intros H.
    destruct (IH k H) as (c & r & -> & N). now exists c, r.
Qed.

Lemma get_range_set_in (rg : string * string) (k v : string) (s : Store.t) :
  Store.sorted s -> Store.in_range rg k = true ->
  Store.get_range rg (Store.set k v s) = Store.set k v (Store.get_range rg s).
Proof. intros S I. now rewrite get_range_set, I. Qed.

Lemma get_range_set_off (rg : string * string) (k v : string) (s : Store.t) :
  Store.sorted s -> Store.in_range rg k = false ->
  Store.get_range rg (Store.set k v s) = Store.get_range rg s.
Proof. intros S I. now rewrite get_range_set, I. Qed.

(** ** The tuple layer: no two tuples share an encoding *)

Lemma escape_sep (x : string) : forall y r r',
  no_ff r -> no_ff r' ->
  Tuple.escape x ++ String x00 r = Tuple.escape y ++ String x00 r' ->
  x = y /\ r = r'.
Proof.
  induction x as [|c x IH]; intros [|d y] r r' Hr Hr'; simpl.
  - intros [= ->]. now split.
  - destruct (Ascii.eqb_spec d x00) as [->|Nd]; simpl; intros [= E].
    + subst r. now elim Hr.
    + now elim Nd.
  - destruct (Ascii.eqb_spec c x00) as [->|Nc]; simpl; intros [= E].
    + subst r'. now elim Hr'.
    + now elim Nc.
  - destruct (Ascii.eqb_spec c x00) as [->|Nc];
      destruct (Ascii.eqb_spec d x00) as [->|Nd]; simpl; intros H.
    + injection H as H. destruct (IH _ _ _ Hr Hr' H) as [-> ->]. now split.
    + injection H as H _. now elim Nd.
    + injection H as H _. now elim Nc.
    + injection H as -> H. destruct (IH _ _ _ Hr Hr' H) as [-> ->]. now split.
Qed.

Lemma encode_bytes_sep (x y r r' : string) :
  no_ff r -> no_ff r' ->
  Tuple.encode_bytes x ++ r = Tuple.encode_bytes y ++ r' ->
  x = y /\ r = r'.
Proof.
  intros Hr Hr'. unfold Tuple.encode_bytes, str1. simpl.
  rewrite !append_assoc. simpl. intros [= H].
  now apply escape_sep.
Qed.

Lemma no_ff_encode_bytes (b r : string) : no_ff (Tuple.encode_bytes b ++ r).
Proof. simpl. discriminate. Qed.

Lemma no_ff_pack (t : list string) : no_ff (Tuple.pack t).
Proof. destruct t; simpl; [exact I | discriminate]. Qed.

Lemma pack_inj (t1 : list string) : forall t2,
  Tuple.pack t1 = Tuple.pack t2 -> t1 = t2.
Proof.
  induction t1 as [|a t1 IH]; intros [|b t2] H.
  - reflexivity.
  - discriminate.
  - discriminate.
  - cbn [Tuple.pack] in H.
    apply encode_bytes_sep in H; try apply no_ff_pack.
    destruct H as [-> H]. now rewrite (IH _ H).
Qed.

Lemma ord_chr (n : Z) : 0 <= n < 256 -> ord (chr n) = n.
Proof.
  intros H. unfold ord, chr.
  rewrite N_ascii_embedding by lia. lia.
Qed.

Lemma size_of_pos (v : Z) : 1 <= Tuple.size_of v.
Proof.
  unfold Tuple.size_of.
  assert (0 <= Z.log2 v / 8) by (apply Z.div_pos; [apply Z.log2_nonneg | lia]).
  lia.
Qed.

(** An encoded integer starts with a type code between 0x0c and 0x1c. *)
Lemma encode_int_head (n : Z) (e : string) :
  Tuple.encode_int n = Some e ->
  exists c r, e = String c r /\ 12 <= ord c <= 28.
Proof.
  unfold Tuple.encode_int.
  destruct (n =? 0); [intros [= <-]; eexists _, _; split; [reflexivity|]; vm_compute; intuition discriminate|].
  destruct (0 <? n).
  - pose proof (size_of_pos n) as P.
    destruct (Tuple.size_of n <=? 8) eqn:L; [|discriminate].
    apply Z.leb_le in L. intros E. injection E as <-.
    exists (chr (20 + Tuple.size_of n)), (Tuple.be_bytes (Z.to_nat (Tuple.size_of n)) n).
    split; [reflexivity|]. rewrite ord_chr; lia.
  - pose proof (size_of_pos (- n)) as P.
    destruct (Tuple.size_of (- n) <=? 8) eqn:L; [|discriminate].
    apply Z.leb_le in L. intros E. injection E as <-.
    exists (chr (20 - Tuple.size_of (- n))),
      (Tuple.be_bytes (Z.to_nat (Tuple.size_of (- n)))
         (256 ^ Tuple.size_of (- n) - 1 + n)).
    split; [reflexivity|]. rewrite ord_chr; lia.
Qed.

Lemma no_ff_encode_int (n : Z) (e : string) :
  Tuple.encode_int n = Some e -> no_ff e.
Proof.
  intros H. destruct (encode_int_head _ _ H) as (c & r & -> & B).
  simpl. intros ->. vm_compute in B. destruct B as [_ B]. now apply B.
Qed.

(** Counters of at most eight bytes can be packed. *)
Lemma encode_int_some (n : Z) :
  0 <= n < 2 ^ 64 -> exists e, Tuple.encode_int n = Some e.
Proof.
  intros [L U]. unfold Tuple.encode_int.
  destruct (n =? 0) eqn:Z0; [eauto|].
  apply Z.eqb_neq in Z0.
  assert (P : (0 <? n) = true) by (apply Z.ltb_lt; lia). rewrite P.
  assert (Z.log2 n < 64) by (apply Z.log2_lt_pow2; [lia | exact U]).
  assert (S : (Tuple.size_of n <=? 8) = true).
  { apply Z.leb_le. unfold Tuple.size_of.
    assert (Z.log2 n / 8 < 8) by (apply Z.div_lt_upper_bound; lia). lia. }
  rewrite S. eauto.
Qed.

(** ** Key separation *)

Lemma item_sep (kv s1 s2 x y : string) :
  no_ff x -> no_ff y ->
  Subspace.item kv s1 ++ x = Subspace.item kv s2 ++ y ->
  s1 = s2 /\ x = y.
Proof.
  unfold Subspace.item. rewrite !append_assoc.
  intros Hx Hy H. apply append_inv_head in H.
  now apply encode_bytes_sep.
Qed.

(** Packed keys are equal only in the same subspace and for the same tuple. *)
Lemma pack_key_inj (kv s1 s2 : string) (t1 t2 : list string) :
  Subspace.pack (Subspace.item kv s1) t1 = Subspace.pack (Subspace.item kv s2) t2 ->
  s1 = s2 /\ t1 = t2.
Proof.
  unfold Subspace.pack. intros H.
  apply item_sep in H; try apply no_ff_pack.
  destruct H as [-> H]. split; [reflexivity | now apply pack_inj].
Qed.

(** A bid-log key lives in the [bids] subspace, after the encoded scope. *)
Lemma log_key_shape (kv scope : string) (i : Z) (k : string) :
  log_key kv scope i = Some k ->
  exists e, Tuple.encode_int i = Some e /\
            k = Subspace.item kv "bids" ++ (Tuple.encode_bytes scope ++ e).
Proof.
  unfold log_key, Subspace.item_int, bids_ss.
  destruct (Tuple.encode_int i) as [e|]; [|discriminate].
  simpl option_map. intros [= <-]. exists e. split; [reflexivity|].
  unfold Subspace.item. now rewrite !append_assoc.
Qed.

Lemma log_key_neq_pack (kv scope s : string) (i : Z) (k : string) (t : list string) :
  log_key kv scope i = Some k -> s <> "bids" ->
  Subspace.pack (Subspace.item kv s) t <> k.
Proof.
  intros H N E. apply log_key_shape in H. destruct H as (e & _ & ->).
  unfold Subspace.pack in E.
  apply item_sep in E; [| apply no_ff_pack | apply no_ff_encode_bytes].
  now destruct E as [E _].
Qed.

Lemma log_key_sep (kv s1 s2 : string) (i j : Z) (k : string) :
  log_key kv s1 i = Some k -> log_key kv s2 j = Some k -> s1 = s2.
Proof.
  intros H1 H2.
  apply log_key_shape in H1. destruct H1 as (e1 & E1 & ->).
  apply log_key_shape in H2. destruct H2 as (e2 & E2 & H).
  apply append_inv_head in H.
  apply encode_bytes_sep in H; [now destruct H | |]; eapply no_ff_encode_int; eauto.
Qed.

(** ** Comparison of floats *)

Lemma SFcompare_antisym (x y : spec_float) :
  SFcompare y x = option_map CompOpp (SFcompare x y).
Proof.
  destruct x as [s| s| |s m e], y as [s'| s'| |s' m' e']; simpl;
    try reflexivity; try (destruct s; reflexivity); try (destruct s'; reflexivity);
    try (destruct s, s'; reflexivity).
  destruct s, s'; simpl; try reflexivity;
    rewrite (Z.compare_antisym e e'); destruct (e ?= e') eqn:C; simpl; try reflexivity.
  - rewrite CompOpp_involutive. f_equal. exact (Pos.compare_cont_antisym m' m Eq).
  - f_equal. symmetry. exact (Pos.compare_cont_antisym m m' Eq).
Qed.

Lemma lt_not_le (x y : PyFloat.t) : PyFloat.lt x y = true -> PyFloat.le y x = false.
Proof.
  unfold PyFloat.lt, PyFloat.le, SFltb, SFleb. rewrite (SFcompare_antisym x y).
  destruct (SFcompare x y) as [[| |]|]; simpl; congruence.
Qed.

Lemma compare_some (x y : PyFloat.t) :
  PyFloat.is_nan x = false -> PyFloat.is_nan y = false ->
  exists c, SFcompare x y = Some c.
Proof.
  destruct x, y; simpl; try discriminate; intros _ _; eauto.
Qed.

(** Between numbers, [not (x <= y)] is [y < x]. *)
Lemma not_le_lt (x y : PyFloat.t) :
  PyFloat.is_nan x = false -> PyFloat.is_nan y = false ->
  PyFloat.le x y = false -> PyFloat.lt y x = true.
Proof.
  intros Nx Ny. destruct (compare_some x y Nx Ny) as [c E].
  unfold PyFloat.lt, PyFloat.le, SFltb, SFleb. rewrite (SFcompare_antisym x y), E.
  destruct c; simpl; congruence.
Qed.

(** ** Integers in keys keep their order *)

Lemma length_append (a b : string) :
  String.length (a ++ b) = (String.length a + String.length b)%nat.
Proof. induction a as [|c a IH]; simpl; [reflexivity | now rewrite IH]. Qed.

Lemma be_bytes_length (n : nat) : forall v, String.length (Tuple.be_bytes n v) = n.
Proof.
  induction n as [|n IH]; intros v; cbn [Tuple.be_bytes]; [reflexivity|].
  rewrite length_append, IH. cbn. lia.
Qed.

Lemma compare_app_same_length (a : string) : forall b x y,
  String.length a = String.length b ->
  String.compare (a ++ x) (b ++ y) =
  match String.compare a b with
  | Eq => String.compare x y
  | c => c
  end.
Proof.
  induction a as [|c a IH]; intros [|d b] x y L; try discriminate; [reflexivity|].
  cbn [String.append String.compare].
  destruct (Ascii.compare c d); try reflexivity.
  apply IH. now injection L.
Qed.

Lemma chr_lt (v w : Z) :
  0 <= v -> v < w -> w < 256 -> Ascii.compare (chr v) (chr w) = Lt.
Proof.
  intros H0 H1 H2. unfold Ascii.compare, chr.
  rewrite !N_ascii_embedding by lia. apply N.compare_lt_iff. lia.
Qed.

Lemma be_bytes_lt (n : nat) : forall v w,
  0 <= v -> v < w -> w < 256 ^ Z.of_nat n ->
  String.compare (Tuple.be_bytes n v) (Tuple.be_bytes n w) = Lt.
Proof.
  induction n as [|n IH]; intros v w H0 H1 H2.
  - cbn in H2. lia.
  - cbn [Tuple.be_bytes].
    rewrite compare_app_same_length by now rewrite !be_bytes_length.
    rewrite Nat2Z.inj_succ, Z.pow_succ_r in H2 by lia.
    assert (Dv := Z.div_mod v 256 ltac:(lia)).
    assert (Dw := Z.div_mod w 256 ltac:(lia)).
    assert (Mv := Z.mod_pos_bound v 256 ltac:(lia)).
    assert (Mw := Z.mod_pos_bound w 256 ltac:(lia)).
    assert (Qv : 0 <= v / 256) by (apply Z.div_pos; lia).
    assert (Qw : w / 256 < 256 ^ Z.of_nat n) by (apply Z.div_lt_upper_bound; lia).
    destruct (Z.lt_ge_cases (v / 256) (w / 256)) as [L|G].
    + now rewrite (IH _ _ Qv L Qw).
    + assert (E : v / 256 = w / 256) by lia.
      rewrite E, compare_refl. cbn [String.compare str1].
      rewrite chr_lt by lia. reflexivity.
Qed.

Lemma size_of_bound (v : Z) : 0 < v -> v < 256 ^ Tuple.size_of v.
Proof.
  intros H. unfold Tuple.size_of.
  pose proof (Z.log2_spec v H) as [_ U].
  assert (L0 := Z.log2_nonneg v).
  assert (D := Z.div_mod (Z.log2 v) 8 ltac:(lia)).
  assert (M := Z.mod_pos_bound (Z.log2 v) 8 ltac:(lia)).
  assert (Q : 0 <= Z.log2 v / 8) by (apply Z.div_pos; lia).
  change 256 with (2 ^ 8). rewrite <- Z.pow_mul_r by lia.
  eapply Z.lt_le_trans; [exact U|].
  apply Z.pow_le_mono_r; lia.
Qed.

Lemma size_of_mono (v w : Z) : 0 < v -> v <= w -> Tuple.size_of v <= Tuple.size_of w.
Proof.
  intros H L. unfold Tuple.size_of.
  assert (Z.log2 v <= Z.log2 w) by now apply Z.log2_le_mono.
  assert (Z.log2 v / 8 <= Z.log2 w / 8) by (apply Z.div_le_mono; lia).
  lia.
Qed.

Lemma compare_cons (c d : ascii) (s t : string) :
  String.compare (String c s) (String d t) =
  match Ascii.compare c d with
  | Eq => String.compare s t
  | r => r
  end.
Proof. reflexivity. Qed.

(** Positive integers are packed in increasing byte order. *)
Lemma encode_int_lt (i j : Z) (e e' : string) :
  0 < i -> i < j ->
  Tuple.encode_int i = Some e -> Tuple.encode_int j = Some e' ->
  String.compare e e' = Lt.
Proof.
  intros Hi Hij. unfold Tuple.encode_int.
  assert (Zi : (i =? 0) = false) by (apply Z.eqb_neq; lia).
  assert (Zj : (j =? 0) = false) by (apply Z.eqb_neq; lia).
  assert (Pi : (0 <? i) = true) by (apply Z.ltb_lt; lia).
  assert (Pj : (0 <? j) = true) by (apply Z.ltb_lt; lia).
  rewrite Zi, Zj, Pi, Pj.
  pose proof (size_of_pos i) as Si. pose proof (size_of_pos j) as Sj.
  pose proof (size_of_mono i j Hi ltac:(lia)) as M.
  destruct (Tuple.size_of i <=? 8) eqn:Li; [|discriminate].
  destruct (Tuple.size_of j <=? 8) eqn:Lj; [|discriminate].
  apply Z.leb_le in Li, Lj. intros E1 E2.
  apply (f_equal (fun o => match o with Some x => x | None => EmptyString end)) in E1, E2.
  cbv beta iota in E1, E2. rewrite <- E1, <- E2.
  rewrite compare_cons.
  destruct (Z.lt_ge_cases (Tuple.size_of i) (Tuple.size_of j)) as [L|G].
  - rewrite chr_lt by lia. reflexivity.
  - assert (E : Tuple.size_of i = Tuple.size_of j) by lia.
    rewrite E, ascii_compare_refl.
    apply be_bytes_lt; [lia | exact Hij |].
    rewrite Z2Nat.id by lia. apply size_of_bound. lia.
Qed.

(** ** [int(str(n))] is [n] for a count *)

Lemma digits_value_acc (d : Decimal.uint) : forall acc,
  digits_value (Z.pos acc) (DecimalString.NilEmpty.string_of_uint d) =
  Z.pos (Pos.of_uint_acc d acc).
Proof.
  induction d; intros acc; cbn [DecimalString.NilEmpty.string_of_uint digits_value
    Pos.of_uint_acc]; try reflexivity;
    match goal with
    | |- digits_value ?x _ = Z.pos (Pos.of_uint_acc _ ?p) =>
        replace x with (Z.pos p) by (vm_compute (ord _); lia)
    end; apply IHd.
Qed.

Lemma digits_value_uint (d : Decimal.uint) :
  digits_value 0 (DecimalString.NilEmpty.string_of_uint d) = Z.of_N (Pos.of_uint d).
Proof.
  induction d; cbn [DecimalString.NilEmpty.string_of_uint digits_value Pos.of_uint];
    try reflexivity; try exact IHd;
    match goal with
    | |- digits_value ?x _ = Z.of_N (N.pos (Pos.of_uint_acc _ ?p)) =>
        replace x with (Z.pos p) by (vm_compute; reflexivity)
    end; apply digits_value_acc.
Qed.

Lemma span_digits_uint (d : Decimal.uint) :
  span_digits (DecimalString.NilEmpty.string_of_uint d) =
  (DecimalString.NilEmpty.string_of_uint d, EmptyString).
Proof.
  induction d; cbn [DecimalString.NilEmpty.string_of_uint span_digits];
    try reflexivity;
    match goal with
    | |- context [is_digit ?c] => change (is_digit c) with true
    end; cbv iota; now rewrite IHd.
Qed.

Lemma rstrip_uint (d : Decimal.uint) :
  rstrip (DecimalString.NilEmpty.string_of_uint d) =
  DecimalString.NilEmpty.string_of_uint d.
Proof.
  induction d; cbn [DecimalString.NilEmpty.string_of_uint rstrip];
    try reflexivity; rewrite IHd;
    now destruct (DecimalString.NilEmpty.string_of_uint d).
Qed.

Lemma strip_uint (d : Decimal.uint) :
  strip (DecimalString.NilEmpty.string_of_uint d) =
  DecimalString.NilEmpty.string_of_uint d.
Proof.
  unfold strip.
  replace (lstrip (DecimalString.NilEmpty.string_of_uint d))
    with (DecimalString.NilEmpty.string_of_uint d) by now destruct d.
  apply rstrip_uint.
Qed.

Lemma int_of_uint_string (d : Decimal.uint) :
  d <> Decimal.Nil ->
  PyInt.of_string (DecimalString.NilEmpty.string_of_uint d) = Some (Z.of_N (Pos.of_uint d)).
Proof.
  intros N. unfold PyInt.of_string. rewrite strip_uint.
  replace (split_sign (DecimalString.NilEmpty.string_of_uint d))
    with (false, DecimalString.NilEmpty.string_of_uint d) by now destruct d.
  rewrite span_digits_uint.
  destruct (DecimalString.NilEmpty.string_of_uint d) eqn:E.
  - destruct d; try discriminate. now elim N.
  - now rewrite <- E, digits_value_uint.
Qed.

Lemma int_of_str (n : Z) : 0 <= n -> PyInt.of_string (PyInt.str n) = Some n.
Proof.
  intros H. unfold PyInt.str, str_nat.
  assert (L : (n <? 0) = false) by (apply Z.ltb_ge; lia). rewrite L.
  assert (N : N.to_uint (Z.to_N n) <> Decimal.Nil).
  { destruct (Z.to_N n); [discriminate | apply DecimalPos.Unsigned.to_uint_nonnil]. }
  unfold DecimalString.NilZero.string_of_uint.
  destruct (N.to_uint (Z.to_N n)) eqn:E; try (now elim N);
    rewrite <- E in *; rewrite int_of_uint_string by exact N;
    change (Pos.of_uint (N.to_uint (Z.to_N n))) with (N.of_uint (N.to_uint (Z.to_N n)));
    rewrite DecimalN.Unsigned.of_to; f_equal; lia.
Qed.

(** ** The operations *)

Lemma float_of_None : PyFloat.of_string "None" = None.
Proof. reflexivity. Qed.

Lemma transactional_map {A B} (m : Tx A) (f : A -> B) (db : Store.t) :
  transactional (x <- m ;; ret (f x))%tx db =
  let '(r, db', out) := transactional m db in
  (match r with Ret a => Ret (f a) | Raise e => Raise e end, db', out).
Proof.
  unfold transactional, bind, ret.
  destruct (m (db, [])) as [[a|e] [tr out]]; reflexivity.
Qed.

Section EngineFacts.

Variable auction_kv : Subspace.t.

Local Abbreviation AK := (auction_key auction_kv).
Local Abbreviation AH := (highest_bid_key auction_kv).
Local Abbreviation AN := (num_bids_key auction_kv).
Local Abbreviation AW := (winning_bidder_key auction_kv).
Local Abbreviation BK := (bidder_key auction_kv).
Local Abbreviation BN := (bidder_num_bids_key auction_kv).

Lemma auction_ids (a : Auction.t) :
  Auction.get_packed_ids a (auctions_ss auction_kv) = (AK a, AH a, AN a, AW a).
Proof. reflexivity. Qed.

Lemma bidder_ids (b : Bidder.t) :
  Bidder.get_packed_ids b (bidders_ss auction_kv) = (BK b, BN b).
Proof. reflexivity. Qed.

(** Keys of the auction records, of the bidder records and of the bid
    logs never meet. *)
Lemma auctions_bidders_neq (t1 t2 : list string) :
  Subspace.pack (auctions_ss auction_kv) t1 <> Subspace.pack (bidders_ss auction_kv) t2.
Proof. intros E. apply pack_key_inj in E. destruct E as [E _]. discriminate E. Qed.

Lemma auctions_log_neq (t : list string) (scope : string) (i : Z) (k : string) :
  log_key auction_kv scope i = Some k ->
  Subspace.pack (auctions_ss auction_kv) t <> k.
Proof. intros H. eapply log_key_neq_pack; [exact H | discriminate]. Qed.

Lemma bidders_log_neq (t : list string) (scope : string) (i : Z) (k : string) :
  log_key auction_kv scope i = Some k ->
  Subspace.pack (bidders_ss auction_kv) t <> k.
Proof. intros H. eapply log_key_neq_pack; [exact H | discriminate]. Qed.

Lemma auction_bidder_log_neq (a : Auction.t) (b : Bidder.t) (i j : Z) (k k' : string) :
  log_key auction_kv (AK a) i = Some k ->
  log_key auction_kv (BK b) j = Some k' ->
  k <> k'.
Proof.
  intros H H' E. subst k'.
  pose proof (log_key_sep _ _ _ _ _ _ H H') as S.
  now apply auctions_bidders_neq in S.
Qed.

Lemma auctions_key_inj (t1 t2 : list string) :
  Subspace.pack (auctions_ss auction_kv) t1 = Subspace.pack (auctions_ss auction_kv) t2 ->
  t1 = t2.
Proof. intros E. now apply pack_key_inj in E. Qed.

Lemma bidders_key_inj (t1 t2 : list string) :
  Subspace.pack (bidders_ss auction_kv) t1 = Subspace.pack (bidders_ss auction_kv) t2 ->
  t1 = t2.
Proof. intros E. now apply pack_key_inj in E. Qed.

(** Solves [k <> k'] for two keys of the layout that differ by their
    subspace, or by the length or the field tag of their tuple. Keys that
    are not written as a packed key are keys of a bid log. *)
Ltac key_kind k :=
  lazymatch k with
  | auction_key _ _ => constr:(1%nat)
  | highest_bid_key _ _ => constr:(1%nat)
  | num_bids_key _ _ => constr:(1%nat)
  | winning_bidder_key _ _ => constr:(1%nat)
  | bidder_key _ _ => constr:(2%nat)
  | bidder_num_bids_key _ _ => constr:(2%nat)
  | _ => constr:(3%nat)
  end.

Ltac unfold_keys :=
  unfold auction_key, highest_bid_key, num_bids_key, winning_bidder_key,
    bidder_key, bidder_num_bids_key.

Ltac key_neq :=
  lazymatch goal with
  | |- ?k <> ?k' =>
      let c := key_kind k in
      let c' := key_kind k' in
      lazymatch constr:((c, c')) with
      | (1%nat, 2%nat) => unfold_keys; apply auctions_bidders_neq
      | (2%nat, 1%nat) => unfold_keys; apply not_eq_sym; apply auctions_bidders_neq
      | (1%nat, 3%nat) => unfold_keys; eapply auctions_log_neq; eassumption
      | (3%nat, 1%nat) =>
          unfold_keys; apply not_eq_sym; eapply auctions_log_neq; eassumption
      | (2%nat, 3%nat) => unfold_keys; eapply bidders_log_neq; eassumption
      | (3%nat, 2%nat) =>
          unfold_keys; apply not_eq_sym; eapply bidders_log_neq; eassumption
      | (3%nat, 3%nat) =>
          first [ eapply auction_bidder_log_neq; eassumption
                | apply not_eq_sym; eapply auction_bidder_log_neq; eassumption ]
      | (1%nat, 1%nat) =>
          let E := fresh in
          unfold_keys; intros E; apply auctions_key_inj in E;
          first [discriminate E | vm_compute in E; discriminate E]
      | (2%nat, 2%nat) =>
          let E := fresh in
          unfold_keys; intros E; apply bidders_key_inj in E;
          first [discriminate E | vm_compute in E; discriminate E]
      end
  end.

Ltac store_get :=
  repeat first
    [ rewrite get_set_eq
    | rewrite get_set_neq by key_neq ].

Ltac sorted_tac := repeat apply set_sorted; apply empty_sorted.

Ltac tx_cbn :=
  unfold value_float, value_int, item_int;
  cbn [bind tr_get tr_set tr_get_range print ret raise fst snd present negb
       value_eqb value_str Subspace.key String.eqb Ascii.eqb Bool.eqb app].

Ltac tx_lookup :=
  match goal with
  | H : Store.get ?k ?s = _ |- context [Store.get ?k ?s] => rewrite H
  | H : PyFloat.of_string ?b = _ |- context [PyFloat.of_string ?b] => rewrite H
  | H : PyInt.of_string ?b = _ |- context [PyInt.of_string ?b] => rewrite H
  | H : PyFloat.le ?x ?y = _ |- context [PyFloat.le ?x ?y] => rewrite H
  | H : String.eqb ?x ?y = _ |- context [String.eqb ?x ?y] => rewrite H
  | H : value_eqb ?x ?y = _ |- context [value_eqb ?x ?y] => rewrite H
  | H : Subspace.item_int ?ss ?i = _ |- context [Subspace.item_int ?ss ?i] => rewrite H
  | |- context [PyFloat.of_string "None"] => rewrite float_of_None
  end.

Ltac tx_run := repeat first [progress tx_cbn | tx_lookup].

Ltac tx_open :=
  unfold transactional, add_auction, close_auction, is_auction_open,
    winning_bid, add_bidder, submit_bid, bids_for_bidder, bids_for_auction;
  rewrite ?auction_ids, ?bidder_ids.

Ltac rejected :=
  eexists _, _, _; split; [reflexivity|]; left; split; [discriminate | reflexivity].

(** *** [add_auction], [close_auction], [add_bidder] *)

Lemma add_auction_present (db : Store.t) (a : Auction.t) :
  Store.get (AK a) db <> None ->
  transactional (add_auction auction_kv a) db =
  (Ret AlreadyExists, db,
   ["Cannot add auction " ++ Auction.str a ++ ": already exists"]).
Proof.
  intros H. tx_open. destruct (Store.get (AK a) db) eqn:E; [|contradiction].
  tx_run. reflexivity.
Qed.

Lemma add_auction_absent (db : Store.t) (a : Auction.t) :
  Store.get (AK a) db = None ->
  transactional (add_auction auction_kv a) db =
  (Ret Done,
   Store.set (AN a) "0" (Store.set (AW a) "" (Store.set (AH a) "0"
     (Store.set (AK a) "OPEN" db))), []).
Proof. intros H. tx_open. tx_run. reflexivity. Qed.

Lemma close_auction_absent (db : Store.t) (a : Auction.t) :
  Store.get (AK a) db = None ->
  transactional (close_auction auction_kv a) db =
  (Ret NotFound, db,
   ["Cannot close auction " ++ Auction.str a ++ ": does not exists"]).
Proof. intros H. tx_open. tx_run. reflexivity. Qed.

Lemma close_auction_present (db : Store.t) (a : Auction.t) :
  Store.get (AK a) db <> None ->
  transactional (close_auction auction_kv a) db =
  (Ret Done, Store.set (AK a) "CLOSED" db, []).
Proof.
  intros H. tx_open. destruct (Store.get (AK a) db) eqn:E; [|contradiction].
  tx_run. reflexivity.
Qed.

Lemma add_bidder_present (db : Store.t) (b : Bidder.t) :
  Store.get (BK b) db <> None ->
  transactional (add_bidder auction_kv b) db =
  (Ret AlreadyExists, db,
   ["Cannot add bidder " ++ Bidder.str b ++ ": already exists"]).
Proof.
  intros H. tx_open. destruct (Store.get (BK b) db) eqn:E; [|contradiction].
  tx_run. reflexivity.
Qed.

Lemma add_bidder_absent (db : Store.t) (b : Bidder.t) :
  Store.get (BK b) db = None ->
  transactional (add_bidder auction_kv b) db =
  (Ret Done, Store.set (BN b) "0" (Store.set (BK b) (Bidder.str b) db), []).
Proof. intros H. tx_open. tx_run. reflexivity. Qed.

(** *** [submit_bid] *)

Lemma submit_bid_accepted (db : Store.t) (bid : Bid.t) (h : PyFloat.t)
  (n m : Z) (ka kb : string) :
  accepts auction_kv db bid h n m ka kb ->
  transactional (submit_bid auction_kv bid) db =
  (Ret Done, accepted_store auction_kv db bid n m ka kb, [new_highest_line bid]).
Proof.
  unfold accepts, highest_bid, counter, log_key, accepted_store, new_highest_line.
  set (a := Bid.auction bid). set (b := Bid.bidder bid).
  intros (Ha & Hst & Hh & Hle & Hw & Hn & Hka & Hm & Hkb).
  destruct (Store.get (AK a) db) as [st|] eqn:Ea; [clear Ha | now elim Ha].
  destruct (Store.get (AH a) db) as [hs|] eqn:Eh; [|discriminate].
  destruct (Store.get (AN a) db) as [ns|] eqn:En; [|discriminate].
  destruct (Store.get (BN b) db) as [ms|] eqn:Em; [|discriminate].
  cbn [value_eqb] in Hst.
  assert (Hka' : log_key auction_kv (AK a) (n + 1) = Some ka) by exact Hka.
  tx_open. fold a b. tx_run. store_get. tx_run. reflexivity.
Qed.

Lemma submit_bid_spec (db : Store.t) (bid : Bid.t) :
  exists r db' out,
    transactional (submit_bid auction_kv bid) db = (r, db', out) /\
    ((r <> Ret Done /\ db' = db) \/
     (r = Ret Done /\
      exists h n m ka kb,
        accepts auction_kv db bid h n m ka kb /\
        db' = accepted_store auction_kv db bid n m ka kb)).
Proof.
  set (a := Bid.auction bid). set (b := Bid.bidder bid).
  unfold accepts, highest_bid, counter, log_key. fold a b.
  tx_open. fold a b.
  destruct (Store.get (AK a) db) as [st|] eqn:Ha; tx_run; [|rejected].
  destruct (String.eqb st "CLOSED") eqn:Hst; tx_run; [rejected|].
  destruct (Store.get (AH a) db) as [hs|] eqn:Hh; tx_run; [|rejected].
  destruct (PyFloat.of_string hs) as [h|] eqn:Hp; tx_run; [|rejected].
  destruct (PyFloat.le (Bid.value bid) h) eqn:Hle; tx_run; [rejected|].
  destruct (value_eqb (Store.get (AW a) db) (Bidder.name b)) eqn:Hw; tx_run;
    [rejected|].
  destruct (Store.get (AN a) db) as [ns|] eqn:Hn; tx_run; [|rejected].
  destruct (PyInt.of_string ns) as [n|] eqn:Hnp; tx_run; [|rejected].
  destruct (Subspace.item_int (Subspace.item (bids_ss auction_kv) (AK a)) (n + 1))
    as [ka|] eqn:Hka; tx_run; [|rejected].
  assert (Hka' : log_key auction_kv (AK a) (n + 1) = Some ka) by exact Hka.
  store_get.
  destruct (Store.get (BN b) db) as [ms|] eqn:Hm; tx_run; [|rejected].
  destruct (PyInt.of_string ms) as [m|] eqn:Hmp; tx_run; [|rejected].
  destruct (Subspace.item_int (Subspace.item (bids_ss auction_kv) (BK b)) (m + 1))
    as [kb|] eqn:Hkb; tx_run; [|rejected].
  eexists _, _, _; split; [reflexivity|]. right. split; [reflexivity|].
  exists h, n, m, ka, kb. unfold accepted_store. fold a b.
  repeat split; try reflexivity; try assumption. discriminate.
Qed.

(** *** What each call commits *)

Lemma committed_map {A B} (m : Tx A) (f : A -> B) (db : Store.t) :
  committed (transactional (x <- m ;; ret (f x))%tx db) =
  committed (transactional m db).
Proof.
  rewrite transactional_map.
  now destruct (transactional m db) as [[r db'] out].
Qed.

Lemma is_auction_open_reads (db : Store.t) (a : Auction.t) :
  committed (transactional (is_auction_open auction_kv a) db) = db.
Proof. tx_open. destruct (Store.get (AK a) db) eqn:E; tx_run; reflexivity. Qed.

Lemma winning_bid_reads (db : Store.t) (a : Auction.t) :
  committed (transactional (winning_bid auction_kv a) db) = db.
Proof. tx_open. destruct (Store.get (AK a) db) eqn:E; tx_run; reflexivity. Qed.

Lemma bids_for_bidder_reads (db : Store.t) (b : Bidder.t) :
  committed (transactional (bids_for_bidder auction_kv b) db) = db.
Proof. reflexivity. Qed.

Lemma bids_for_auction_reads (db : Store.t) (a : Auction.t) :
  committed (transactional (bids_for_auction auction_kv a) db) = db.
Proof. reflexivity. Qed.

(** No call reopens a closed auction. *)
Lemma exec_keeps_closed (o : op) (db : Store.t) (a : Auction.t) :
  Store.get (AK a) db = Some "CLOSED" ->
  Store.get (AK a) (exec auction_kv o db) = Some "CLOSED".
Proof.
  intros H. unfold exec.
  destruct o as [a0|a0|a0|a0|b|bid|b|a0]; cbn [body]; rewrite committed_map.
  - destruct (Store.get (AK a0) db) as [st|] eqn:E.
    + rewrite add_auction_present by congruence. exact H.
    + rewrite add_auction_absent by exact E. cbn [committed fst snd].
      assert (N : AK a <> AK a0) by (intros N; rewrite N in H; congruence).
      store_get. now rewrite get_set_neq by exact N.
  - destruct (Store.get (AK a0) db) as [st|] eqn:E.
    + rewrite close_auction_present by congruence. cbn [committed fst snd].
      destruct (String.eqb_spec (AK a) (AK a0)) as [->|N].
      * apply get_set_eq.
      * now rewrite get_set_neq by exact N.
    + rewrite close_auction_absent by exact E. exact H.
  - now rewrite is_auction_open_reads.
  - now rewrite winning_bid_reads.
  - destruct (Store.get (BK b) db) as [st|] eqn:E.
    + rewrite add_bidder_present by congruence. exact H.
    + rewrite add_bidder_absent by exact E. cbn [committed fst snd].
      now store_get.
  - destruct (submit_bid_spec db bid) as (r & db' & out & -> & [[_ ->]|[_ S]]).
    + exact H.
    + destruct S as (h & n & m & ka & kb & Acc & ->).
      destruct Acc as (_ & _ & _ & _ & _ & _ & Hka & _ & Hkb).
      cbn [committed fst snd]. unfold accepted_store. now store_get.
  - exact H.
  - exact H.
Qed.

Lemma exec_all_keeps_closed (ops : list op) : forall (db : Store.t) (a : Auction.t),
  Store.get (AK a) db = Some "CLOSED" ->
  Store.get (AK a) (exec_all auction_kv ops db) = Some "CLOSED".
Proof.
  induction ops as [|o ops IH]; intros db a H; [exact H|].
  cbn [exec_all fold_left]. apply IH. now apply exec_keeps_closed.
Qed.

Lemma submit_bid_closed (db : Store.t) (bid : Bid.t) :
  Store.get (AK (Bid.auction bid)) db = Some "CLOSED" ->
  transactional (submit_bid auction_kv bid) db =
  (Ret AuctionClosed, db, [closed_line bid]).
Proof. intros H. tx_open. tx_run. reflexivity. Qed.

Lemma submit_bid_low (db : Store.t) (bid : Bid.t) (st hs : string) (h : PyFloat.t) :
  Store.get (AK (Bid.auction bid)) db = Some st ->
  String.eqb st "CLOSED" = false ->
  Store.get (AH (Bid.auction bid)) db = Some hs ->
  PyFloat.of_string hs = Some h ->
  PyFloat.le (Bid.value bid) h = true ->
  transactional (submit_bid auction_kv bid) db =
  (Ret BidTooLow, db, [too_low_line bid hs]).
Proof. intros Ha Hst Hh Hp Hle. tx_open. tx_run. reflexivity. Qed.

Lemma submit_bid_winning (db : Store.t) (bid : Bid.t) (st hs : string) (h : PyFloat.t) :
  Store.get (AK (Bid.auction bid)) db = Some st ->
  String.eqb st "CLOSED" = false ->
  Store.get (AH (Bid.auction bid)) db = Some hs ->
  PyFloat.of_string hs = Some h ->
  PyFloat.le (Bid.value bid) h = false ->
  Store.get (AW (Bid.auction bid)) db = Some (Bidder.name (Bid.bidder bid)) ->
  transactional (submit_bid auction_kv bid) db =
  (Ret AlreadyWinning, db, [already_winning_line auction_kv bid]).
Proof.
  intros Ha Hst Hh Hp Hle Hw. tx_open. tx_run.
  rewrite String.eqb_refl. tx_run. reflexivity.
Qed.

(** *** The claims about single calls *)

(** C1 (amended): for every bid whose auction exists and is OPEN, whose
    amount is strictly greater than the auction's highest bid, whose bidder
    is not the winning bidder and is registered (its bid counter is in
    the store; the counters fit the eight bytes the log keys give them),
    [submit_bid] succeeds and commits at once: the highest bid becomes the
    text of the amount, the winning bidder the bidder's name, both counters
    are incremented and the bid is written in both logs at the new counts.
    No other key changes. *)
Theorem submit_bid_accepts_registered (db : Store.t) (bid : Bid.t)
  (h : PyFloat.t) (w : string) (n m : Z) :
  Store.get (AK (Bid.auction bid)) db = Some "OPEN" ->
  highest_bid auction_kv db (Bid.auction bid) = Some h ->
  PyFloat.lt h (Bid.value bid) = true ->
  Store.get (AW (Bid.auction bid)) db = Some w ->
  w <> Bidder.name (Bid.bidder bid) ->
  counter db (AN (Bid.auction bid)) = Some n -> 0 <= n < 2 ^ 64 - 1 ->
  counter db (BN (Bid.bidder bid)) = Some m -> 0 <= m < 2 ^ 64 - 1 ->
  exists ka kb db',
    log_key auction_kv (AK (Bid.auction bid)) (n + 1) = Some ka /\
    log_key auction_kv (BK (Bid.bidder bid)) (m + 1) = Some kb /\
    transactional (submit_bid auction_kv bid) db =
      (Ret Done, db', [new_highest_line bid]) /\
    Store.get (AH (Bid.auction bid)) db' = Some (PyFloat.str (Bid.value bid)) /\
    Store.get (AW (Bid.auction bid)) db' = Some (Bidder.name (Bid.bidder bid)) /\
    Store.get (AN (Bid.auction bid)) db' = Some (PyInt.str (n + 1)) /\
    Store.get ka db' = Some (Bid.str bid) /\
    Store.get (BN (Bid.bidder bid)) db' = Some (PyInt.str (m + 1)) /\
    Store.get kb db' = Some (Bid.str bid) /\
    (forall k,
        k <> AH (Bid.auction bid) -> k <> AW (Bid.auction bid) ->
        k <> AN (Bid.auction bid) -> k <> ka ->
        k <> BN (Bid.bidder bid) -> k <> kb ->
        Store.get k db' = Store.get k db).
Proof.
  set (a := Bid.auction bid). set (b := Bid.bidder bid).
  intros Ha Hh Hlt Hw Hne Hn Bn Hm Bm.
  destruct (encode_int_some (n + 1)) as [ea Ea]; [lia|].
  destruct (encode_int_some (m + 1)) as [eb Eb]; [lia|].
  assert (Hka : log_key auction_kv (AK a) (n + 1) =
                Some (Subspace.item (bids_ss auction_kv) (AK a) ++ ea))
    by (unfold log_key, Subspace.item_int; now rewrite Ea).
  assert (Hkb : log_key auction_kv (BK b) (m + 1) =
                Some (Subspace.item (bids_ss auction_kv) (BK b) ++ eb))
    by (unfold log_key, Subspace.item_int; now rewrite Eb).
  set (ka := Subspace.item (bids_ss auction_kv) (AK a) ++ ea) in *.
  set (kb := Subspace.item (bids_ss auction_kv) (BK b) ++ eb) in *.
  exists ka, kb, (accepted_store auction_kv db bid n m ka kb).
  split; [exact Hka|]. split; [exact Hkb|]. split.
  - apply submit_bid_accepted with (h := h). unfold accepts. fold a b.
    rewrite Ha, Hw. cbn [value_eqb].
    repeat split; try assumption; try discriminate; try reflexivity.
    + now apply lt_not_le.
    + now apply String.eqb_neq.
  - unfold accepted_store. fold a b.
    repeat split; store_get; try reflexivity.
    intros k N1 N2 N3 N4 N5 N6.
    now rewrite !get_set_neq by assumption.
Qed.

(** C2: for every existing OPEN auction and every bid whose amount is less
    than or equal to the auction's highest bid, [submit_bid] rejects the
    bid as too low and leaves the store (the auction, the bidder and both
    bid logs) as it was. *)
Theorem submit_bid_too_low (db : Store.t) (bid : Bid.t) (hs : string) (h : PyFloat.t) :
  Store.get (AK (Bid.auction bid)) db = Some "OPEN" ->
  Store.get (AH (Bid.auction bid)) db = Some hs ->
  PyFloat.of_string hs = Some h ->
  PyFloat.le (Bid.value bid) h = true ->
  transactional (submit_bid auction_kv bid) db =
  (Ret BidTooLow, db, [too_low_line bid hs]).
Proof.
  intros Ha Hh Hp Hle. now apply submit_bid_low with (st := "OPEN") (h := h).
Qed.

(** C3: for every existing OPEN auction, a bid of the bidder whose name is
    the auction's winning bidder is never accepted, whatever its amount,
    and the store is left as it was; when the highest bid can be read the
    bid is reported too low or already winning. *)
Theorem submit_bid_by_winner (db : Store.t) (bid : Bid.t) :
  Store.get (AK (Bid.auction bid)) db = Some "OPEN" ->
  Store.get (AW (Bid.auction bid)) db = Some (Bidder.name (Bid.bidder bid)) ->
  returned (transactional (submit_bid auction_kv bid) db) <> Ret Done /\
  committed (transactional (submit_bid auction_kv bid) db) = db /\
  (forall h, highest_bid auction_kv db (Bid.auction bid) = Some h ->
     returned (transactional (submit_bid auction_kv bid) db) =
     Ret (if PyFloat.le (Bid.value bid) h then BidTooLow else AlreadyWinning)).
Proof.
  intros Ha Hw.
  assert (R : returned (transactional (submit_bid auction_kv bid) db) <> Ret Done /\
              committed (transactional (submit_bid auction_kv bid) db) = db).
  { destruct (submit_bid_spec db bid) as (r & db' & out & -> & [[N ->]|[_ S]]).
    - now split.
    - destruct S as (h & n & m & ka & kb & Acc & _).
      destruct Acc as (_ & _ & _ & _ & W & _).
      rewrite Hw in W. cbn [value_eqb] in W.
      rewrite String.eqb_refl in W. discriminate. }
  destruct R as [R1 R2]. split; [exact R1|]. split; [exact R2|].
  unfold highest_bid. intros h Hh.
  destruct (Store.get (AH (Bid.auction bid)) db) as [hs|] eqn:Eh; [|discriminate].
  destruct (PyFloat.le (Bid.value bid) h) eqn:Hle.
  - now rewrite (submit_bid_low db bid "OPEN" hs h).
  - now rewrite (submit_bid_winning db bid "OPEN" hs h).
Qed.

(** C4: when [add_auction] is called twice for one auction, the second call
    reports that the auction already exists and leaves the store as the
    first call left it; and the first call, for an auction that is not in
    the store, writes status OPEN, highest bid 0, an empty winning bidder
    and bid count 0. *)
Theorem add_auction_twice (db : Store.t) (a : Auction.t) :
  returned (transactional (add_auction auction_kv a)
              (committed (transactional (add_auction auction_kv a) db)))
    = Ret AlreadyExists /\
  committed (transactional (add_auction auction_kv a)
               (committed (transactional (add_auction auction_kv a) db)))
    = committed (transactional (add_auction auction_kv a) db) /\
  (Store.get (AK a) db = None ->
   returned (transactional (add_auction auction_kv a) db) = Ret Done /\
   Store.get (AK a) (committed (transactional (add_auction auction_kv a) db))
     = Some "OPEN" /\
   Store.get (AH a) (committed (transactional (add_auction auction_kv a) db))
     = Some "0" /\
   Store.get (AW a) (committed (transactional (add_auction auction_kv a) db))
     = Some "" /\
   Store.get (AN a) (committed (transactional (add_auction auction_kv a) db))
     = Some "0").
Proof.
  destruct (Store.get (AK a) db) as [st|] eqn:E.
  - rewrite (add_auction_present db a) by congruence.
    cbn [returned committed fst snd].
    rewrite (add_auction_present db a) by congruence.
    cbn [fst snd]. split; [reflexivity|]. split; [reflexivity|]. discriminate.
  - rewrite (add_auction_absent db a) by exact E. cbn [returned committed fst snd].
    assert (P : Store.get (AK a)
                  (Store.set (AN a) "0" (Store.set (AW a) ""
                     (Store.set (AH a) "0" (Store.set (AK a) "OPEN" db))))
                = Some "OPEN") by now store_get.
    rewrite add_auction_present by (rewrite P; discriminate).
    cbn [fst snd]. repeat split; now store_get.
Qed.

(** C5: once [close_auction] has returned for an existing auction, every
    later [submit_bid] on that auction, after any calls of the engine in
    between and for any amount and bidder, reports that the auction is
    closed and leaves the store as it was. *)
Theorem closed_auction_rejects_bids (db : Store.t) (ops : list op) (bid : Bid.t) :
  Store.get (AK (Bid.auction bid)) db <> None ->
  transactional (submit_bid auction_kv bid)
    (exec_all auction_kv ops (exec auction_kv (CloseAuction (Bid.auction bid)) db)) =
  (Ret AuctionClosed,
   exec_all auction_kv ops (exec auction_kv (CloseAuction (Bid.auction bid)) db),
   [closed_line bid]).
Proof.
  intros H. apply submit_bid_closed. apply exec_all_keeps_closed.
  unfold exec. cbn [body]. rewrite committed_map.
  rewrite close_auction_present by exact H. cbn [committed fst snd].
  apply get_set_eq.
Qed.

(** C7, as the code behaves: on an auction that is not in the store,
    [winning_bid] and [is_auction_open] raise [NameError] (the message of
    that branch names [bid], which is not defined there) in place of
    reporting that the auction was not found; no call of either changes
    the store. *)
Theorem get_auction_state_absent (db : Store.t) (a : Auction.t) :
  Store.get (AK a) db = None ->
  transactional (winning_bid auction_kv a) db = (Raise (NameError "bid"), db, []) /\
  transactional (is_auction_open auction_kv a) db = (Raise (NameError "bid"), db, []).
Proof. intros H. split; tx_open; tx_run; reflexivity. Qed.

Lemma get_auction_state_reads (db : Store.t) (a : Auction.t) :
  committed (transactional (winning_bid auction_kv a) db) = db /\
  committed (transactional (is_auction_open auction_kv a) db) = db.
Proof. split; [apply winning_bid_reads | apply is_auction_open_reads]. Qed.

(** *** Bodies and the console *)

Lemma prints_only_ret {A} (a : A) : prints_only (ret a).
Proof. intros db out0. cbn. now rewrite app_nil_r. Qed.

Lemma prints_only_raise {A} (e : exn) : prints_only (@raise A e).
Proof. intros db out0. cbn. now rewrite app_nil_r. Qed.

Lemma prints_only_get (k : string) : prints_only (tr_get k).
Proof. intros db out0. cbn. now rewrite app_nil_r. Qed.

Lemma prints_only_set (k v : string) : prints_only (tr_set k v).
Proof. intros db out0. cbn. now rewrite app_nil_r. Qed.

Lemma prints_only_get_range (rg : string * string) : prints_only (tr_get_range rg).
Proof. intros db out0. cbn. now rewrite app_nil_r. Qed.

Lemma prints_only_print (line : string) : prints_only (print line).
Proof. intros db out0. reflexivity. Qed.

Lemma prints_only_bind {A B} (m : Tx A) (f : A -> Tx B) :
  prints_only m -> (forall a, prints_only (f a)) -> prints_only (bind m f).
Proof.
  intros Hm Hf db out0. unfold bind. rewrite (Hm db out0).
  destruct (m (db, [])) as [[a|e] [db1 out1]].
  - rewrite (Hf a db1 (out0 ++ out1)%list), (Hf a db1 out1).
    destruct (f a (db1, [])) as [r [db2 out2]]. now rewrite app_assoc.
  - reflexivity.
Qed.

Ltac prints_only_tac :=
  repeat first
    [ apply prints_only_ret
    | apply prints_only_raise
    | apply prints_only_get
    | apply prints_only_set
    | apply prints_only_get_range
    | apply prints_only_print
    | apply prints_only_bind; [|intros ?]
    | match goal with
      | |- prints_only (if ?c then _ else _) => destruct c
      | |- prints_only (match ?x with _ => _ end) => destruct x
      end ].

Lemma body_prints_only (o : op) : prints_only (body auction_kv o).
Proof.
  destruct o; cbn [body];
    unfold add_auction, close_auction, is_auction_open, winning_bid,
      add_bidder, submit_bid, bids_for_bidder, bids_for_auction;
    rewrite ?auction_ids, ?bidder_ids;
    unfold value_float, value_int, item_int;
    prints_only_tac.
Qed.

Lemma retry_last_attempt {A} (m : Tx A) (conflicts : list Store.t) (db : Store.t) :
  Forall (fun c => exists a, returned (transactional m c) = Ret a) conflicts ->
  returned (transactional_retry m conflicts db) = returned (transactional m db) /\
  committed (transactional_retry m conflicts db) = committed (transactional m db) /\
  printed (transactional_retry m conflicts db) =
    (flat_map (fun c => printed (transactional m c)) conflicts
       ++ printed (transactional m db))%list.
Proof.
  induction 1 as [|c cs [a Hc] _ IH]; [repeat split|].
  cbn [transactional_retry flat_map].
  assert (T : transactional m c =
              match m (c, []) with
              | (Ret a, (tr, out)) => (Ret a, tr, out)
              | (Raise e, (_, out)) => (Raise e, c, out)
              end) by reflexivity.
  rewrite T in Hc. rewrite T. clear T.
  destruct (m (c, [])) as [[a'|e] [tr out]]; [|discriminate].
  destruct (transactional_retry m cs db) as [[r db'] out'].
  cbn [returned committed printed fst snd] in *.
  destruct IH as (-> & -> & ->). now rewrite app_assoc.
Qed.

(** C8 (amended): every body of the engine acts on the console only by
    printing, and on the store only through the transaction; after
    attempts whose commits were refused, the call returns and commits what
    a single run on the last store returns and commits, but the lines the
    refused attempts printed stay on the console, before those of the
    last. *)
Theorem retried_body_prints_again (o : op) (conflicts : list Store.t) (db : Store.t) :
  Forall (fun c => exists a, returned (transactional (body auction_kv o) c) = Ret a)
    conflicts ->
  prints_only (body auction_kv o) /\
  returned (transactional_retry (body auction_kv o) conflicts db)
    = returned (transactional (body auction_kv o) db) /\
  committed (transactional_retry (body auction_kv o) conflicts db)
    = committed (transactional (body auction_kv o) db) /\
  printed (transactional_retry (body auction_kv o) conflicts db)
    = (flat_map (fun c => printed (transactional (body auction_kv o) c)) conflicts
         ++ printed (transactional (body auction_kv o) db))%list.
Proof.
  intros H. split; [apply body_prints_only | now apply retry_last_attempt].
Qed.

(** *** Range reads of the bid logs *)

Lemma log_in_range (scope : string) (i : Z) (k : string) :
  log_key auction_kv scope i = Some k ->
  Store.in_range (Subspace.range (Subspace.item (bids_ss auction_kv) scope)) k = true.
Proof.
  unfold log_key, Subspace.item_int.
  destruct (Tuple.encode_int i) as [e|] eqn:E; [|discriminate].
  cbn [option_map]. intros [= <-].
  destruct (encode_int_head _ _ E) as (c & r & -> & B).
  apply in_range_inside. intros ->. vm_compute in B. destruct B as [_ B]. now apply B.
Qed.

Lemma log_off_range (scope scope' : string) (i : Z) (k : string) :
  log_key auction_kv scope' i = Some k -> scope' <> scope ->
  Store.in_range (Subspace.range (Subspace.item (bids_ss auction_kv) scope)) k = false.
Proof.
  intros H N.
  destruct (Store.in_range _ k) eqn:R; [|reflexivity].
  apply in_range_prefix in R. destruct R as (c & r & -> & Nc).
  apply log_key_shape in H. destruct H as (e & E & H).
  unfold bids_ss in H. unfold Subspace.item at 1 in H.
  rewrite append_assoc in H. apply append_inv_head in H.
  apply encode_bytes_sep in H; [|exact Nc | eapply no_ff_encode_int; eauto].
  destruct H as [H _]. now elim N.
Qed.

Lemma pack_off_range (s scope : string) (t : list string) :
  s <> "bids" ->
  Store.in_range (Subspace.range (Subspace.item (bids_ss auction_kv) scope))
    (Subspace.pack (Subspace.item auction_kv s) t) = false.
Proof.
  intros N.
  destruct (Store.in_range _ _) eqn:R; [|reflexivity].
  apply in_range_prefix in R. destruct R as (c & r & H & Nc).
  unfold Subspace.pack, bids_ss in H. unfold Subspace.item at 2 in H.
  rewrite append_assoc in H.
  apply item_sep in H; [| apply no_ff_pack | apply no_ff_encode_bytes].
  now destruct H.
Qed.

Lemma auctions_off_range (scope : string) (t : list string) :
  Store.in_range (Subspace.range (Subspace.item (bids_ss auction_kv) scope))
    (Subspace.pack (auctions_ss auction_kv) t) = false.
Proof. apply pack_off_range. discriminate. Qed.

Lemma bidders_off_range (scope : string) (t : list string) :
  Store.in_range (Subspace.range (Subspace.item (bids_ss auction_kv) scope))
    (Subspace.pack (bidders_ss auction_kv) t) = false.
Proof. apply pack_off_range. discriminate. Qed.

(** *** The end-to-end scenario *)

Local Abbreviation K1 := (String (chr 21) (str1 (chr 1))).
Local Abbreviation K2 := (String (chr 21) (str1 (chr 2))).
Local Abbreviation pen_log := (Subspace.item (bids_ss auction_kv) (AK pen)).
Local Abbreviation A_log := (Subspace.item (bids_ss auction_kv) (BK bidder_A)).
Local Abbreviation B_log := (Subspace.item (bids_ss auction_kv) (BK bidder_B)).

Lemma scenario_start_eq :
  scenario_start auction_kv =
  Store.set (BN bidder_B) "0" (Store.set (BK bidder_B) "Bidder(B)"
    (Store.set (BN bidder_A) "0" (Store.set (BK bidder_A) "Bidder(A)"
      (Store.set (AN pen) "0" (Store.set (AW pen) "" (Store.set (AH pen) "0"
        (Store.set (AK pen) "OPEN" Store.empty))))))).
Proof.
  unfold scenario_start, exec_all. cbn [fold_left]. unfold exec. cbn [body].
  rewrite !committed_map.
  rewrite (add_auction_absent Store.empty pen) by reflexivity.
  cbn [committed fst snd].
  rewrite (add_bidder_absent _ bidder_A) by (store_get; reflexivity).
  cbn [committed fst snd].
  rewrite (add_bidder_absent _ bidder_B) by (store_get; reflexivity).
  reflexivity.
Qed.

Lemma after_A5_eq :
  transactional (submit_bid auction_kv bid_A5) (scenario_start auction_kv) =
  (Ret Done,
   accepted_store auction_kv (scenario_start auction_kv) bid_A5 0 0
     (pen_log ++ K1) (A_log ++ K1),
   [new_highest_line bid_A5]).
Proof.
  apply submit_bid_accepted with (h := S754_zero false).
  rewrite scenario_start_eq.
  unfold accepts, highest_bid, counter. cbn [Bid.auction Bid.bidder bid_A5 bid_of].
  store_get. repeat split; try reflexivity. discriminate.
Qed.

Ltac closed :=
  lazymatch goal with
  | |- context [auction_kv] => fail
  | _ => vm_compute; first [reflexivity | discriminate]
  end.

Lemma pen_log_1 : log_key auction_kv (AK pen) 1 = Some (pen_log ++ K1).
Proof. reflexivity. Qed.
Lemma pen_log_2 : log_key auction_kv (AK pen) 2 = Some (pen_log ++ K2).
Proof. reflexivity. Qed.
Lemma A_log_1 : log_key auction_kv (BK bidder_A) 1 = Some (A_log ++ K1).
Proof. reflexivity. Qed.
Lemma B_log_1 : log_key auction_kv (BK bidder_B) 1 = Some (B_log ++ K1).
Proof. reflexivity. Qed.

Ltac with_log_keys :=
  pose proof pen_log_1; pose proof pen_log_2; pose proof A_log_1; pose proof B_log_1.

Lemma after_A5_store :
  after_A5 auction_kv =
  accepted_store auction_kv (scenario_start auction_kv) bid_A5 0 0
    (pen_log ++ K1) (A_log ++ K1).
Proof.
  unfold after_A5, exec. cbn [body]. rewrite committed_map.
  now rewrite after_A5_eq.
Qed.

Lemma after_B5_eq :
  transactional (submit_bid auction_kv bid_B5) (after_A5 auction_kv) =
  (Ret BidTooLow, after_A5 auction_kv, [too_low_line bid_B5 "5.0"]).
Proof.
  with_log_keys.
  apply submit_bid_low with (st := "OPEN") (h := float_lit "5.0");
    rewrite ?after_A5_store, ?scenario_start_eq; unfold accepted_store;
    cbn [Bid.auction Bid.bidder bid_A5 bid_B5 bid_of];
    store_get; closed.
Qed.

Lemma after_B5_store : after_B5 auction_kv = after_A5 auction_kv.
Proof.
  unfold after_B5, exec. cbn [body]. rewrite committed_map.
  now rewrite after_B5_eq.
Qed.

Lemma after_B7_eq :
  transactional (submit_bid auction_kv bid_B7) (after_B5 auction_kv) =
  (Ret Done,
   accepted_store auction_kv (after_A5 auction_kv) bid_B7 1 0
     (pen_log ++ K2) (B_log ++ K1),
   [new_highest_line bid_B7]).
Proof.
  with_log_keys. rewrite after_B5_store.
  apply submit_bid_accepted with (h := float_lit "5.0").
  rewrite after_A5_store, scenario_start_eq.
  unfold accepts, accepted_store, highest_bid, counter.
  cbn [Bid.auction Bid.bidder bid_A5 bid_B7 bid_of].
  store_get. repeat split; try closed; reflexivity.
Qed.

Lemma after_B7_store :
  after_B7 auction_kv =
  accepted_store auction_kv (after_A5 auction_kv) bid_B7 1 0
    (pen_log ++ K2) (B_log ++ K1).
Proof.
  unfold after_B7, exec. cbn [body]. rewrite committed_map.
  now rewrite after_B7_eq.
Qed.

Ltac off_range :=
  first
    [ unfold_keys; apply auctions_off_range
    | unfold_keys; apply bidders_off_range
    | eapply log_off_range; [apply pen_log_1 | key_neq]
    | eapply log_off_range; [apply pen_log_2 | key_neq]
    | eapply log_off_range; [apply A_log_1 | key_neq]
    | eapply log_off_range; [apply B_log_1 | key_neq] ].

Ltac in_range :=
  first
    [ apply (log_in_range _ _ _ pen_log_1)
    | apply (log_in_range _ _ _ pen_log_2)
    | apply (log_in_range _ _ _ A_log_1)
    | apply (log_in_range _ _ _ B_log_1) ].

Ltac range_read :=
  rewrite after_B7_store, after_A5_store, scenario_start_eq;
  unfold accepted_store;
  cbn [Bid.auction Bid.bidder bid_A5 bid_B7 bid_of];
  repeat first
    [ rewrite get_range_set_off by (sorted_tac || off_range)
    | rewrite get_range_set_in by (sorted_tac || in_range) ].

Lemma pen_log_rows :
  Store.get_range (Subspace.range pen_log) (after_B7 auction_kv) =
  [(pen_log ++ K1, Bid.str bid_A5); (pen_log ++ K2, Bid.str bid_B7)].
Proof.
  range_read. unfold Store.get_range, Store.empty. cbn [filter Store.set].
  now rewrite compare_app.
Qed.

Lemma A_log_rows :
  Store.get_range (Subspace.range A_log) (after_B7 auction_kv) =
  [(A_log ++ K1, Bid.str bid_A5)].
Proof. range_read. reflexivity. Qed.

Lemma B_log_rows :
  Store.get_range (Subspace.range B_log) (after_B7 auction_kv) =
  [(B_log ++ K1, Bid.str bid_B7)].
Proof. range_read. reflexivity. Qed.

Lemma winner_after_A5 :
  transactional (winning_bid auction_kv pen) (after_A5 auction_kv) =
  (Ret (Some "A", Some "5.0"), after_A5 auction_kv, []).
Proof.
  with_log_keys. tx_open. tx_run.
  rewrite after_A5_store, scenario_start_eq. unfold accepted_store.
  cbn [Bid.auction Bid.bidder bid_A5 bid_of].
  repeat (store_get; tx_run).
  repeat f_equal; closed.
Qed.

Lemma winner_after_B7 :
  transactional (winning_bid auction_kv pen) (after_B7 auction_kv) =
  (Ret (Some "B", Some "7.0"), after_B7 auction_kv, []).
Proof.
  with_log_keys. tx_open. tx_run.
  rewrite after_B7_store, after_A5_store, scenario_start_eq. unfold accepted_store.
  cbn [Bid.auction Bid.bidder bid_A5 bid_B7 bid_of].
  repeat (store_get; tx_run).
  repeat f_equal; closed.
Qed.

(** C9: from an empty store, after the auction ("pen", "blue pen") and the
    bidders "A" and "B" are added: A's bid of 5.0 is accepted and the
    auction shows winner "A" and highest bid 5.0; B's bid of 5.0 is
    rejected as too low and changes nothing; B's bid of 7.0 is accepted
    and the auction shows winner "B" and highest bid 7.0; the auction's
    bid log then lists A's bid of 5.0 and B's bid of 7.0, in that order,
    at entries 1 and 2, the log of "A" its bid of 5.0 alone, the log of "B"
    its bid of 7.0 alone. *)
Theorem pen_scenario :
  returned (transactional (submit_bid auction_kv bid_A5) (scenario_start auction_kv))
    = Ret Done /\
  returned (transactional (winning_bid auction_kv pen) (after_A5 auction_kv))
    = Ret (Some "A", Some "5.0") /\
  returned (transactional (submit_bid auction_kv bid_B5) (after_A5 auction_kv))
    = Ret BidTooLow /\
  after_B5 auction_kv = after_A5 auction_kv /\
  returned (transactional (submit_bid auction_kv bid_B7) (after_B5 auction_kv))
    = Ret Done /\
  returned (transactional (winning_bid auction_kv pen) (after_B7 auction_kv))
    = Ret (Some "B", Some "7.0") /\
  returned (transactional (bids_for_auction auction_kv pen) (after_B7 auction_kv))
    = Ret [(log_entry_key auction_kv (AK pen) 1, Bid.str bid_A5);
           (log_entry_key auction_kv (AK pen) 2, Bid.str bid_B7)] /\
  returned (transactional (bids_for_bidder auction_kv bidder_A) (after_B7 auction_kv))
    = Ret [(log_entry_key auction_kv (BK bidder_A) 1, Bid.str bid_A5)] /\
  returned (transactional (bids_for_bidder auction_kv bidder_B) (after_B7 auction_kv))
    = Ret [(log_entry_key auction_kv (BK bidder_B) 1, Bid.str bid_B7)] /\
  Bid.str bid_A5 = "Bid(A, pen, " ++ dquote ++ "blue pen" ++ dquote ++ ", $5.00)" /\
  Bid.str bid_B7 = "Bid(B, pen, " ++ dquote ++ "blue pen" ++ dquote ++ ", $7.00)".
Proof.
  rewrite after_A5_eq, winner_after_A5, after_B5_eq, after_B5_store,
    <- after_B5_store at 1.
  rewrite after_B7_eq, winner_after_B7.
  repeat split; try closed.
  - change (Ret (Store.get_range (Subspace.range pen_log) (after_B7 auction_kv)) =
            Ret [(pen_log ++ K1, Bid.str bid_A5); (pen_log ++ K2, Bid.str bid_B7)]).
    now rewrite pen_log_rows.
  - change (Ret (Store.get_range (Subspace.range A_log) (after_B7 auction_kv)) =
            Ret [(A_log ++ K1, Bid.str bid_A5)]).
    now rewrite A_log_rows.
  - change (Ret (Store.get_range (Subspace.range B_log) (after_B7 auction_kv)) =
            Ret [(B_log ++ K1, Bid.str bid_B7)]).
    now rewrite B_log_rows.
Qed.

(** *** Accepted bids rise *)

Lemma auction_eqb_eq (a a' : Auction.t) : Auction.eqb a a' = true -> a = a'.
Proof.
  unfold Auction.eqb. destruct a as [n d], a' as [n' d']. cbn.
  intros H. apply andb_true_iff in H. destruct H as [H1 H2].
  apply String.eqb_eq in H1, H2. now subst.
Qed.

Lemma auction_eqb_neq (a a' : Auction.t) : Auction.eqb a a' = false -> a <> a'.
Proof.
  intros H ->. unfold Auction.eqb in H. now rewrite !String.eqb_refl in H.
Qed.

Lemma AK_inj (a a' : Auction.t) : AK a = AK a' -> a = a'.
Proof.
  intros E. apply auctions_key_inj in E. destruct a, a'. cbn in E. now injection E as -> ->.
Qed.

Lemma AH_neq (a a' : Auction.t) : a <> a' -> AH a <> AH a'.
Proof.
  intros N E. apply N. apply auctions_key_inj in E.
  destruct a, a'. cbn in E. now injection E as -> ->.
Qed.

Lemma AW_neq (a a' : Auction.t) : a <> a' -> AW a <> AW a'.
Proof.
  intros N E. apply N. apply auctions_key_inj in E.
  destruct a, a'. cbn in E. now injection E as -> ->.
Qed.

Lemma zero_lt_trans (p v : PyFloat.t) :
  PyFloat.lt (S754_zero false) p = true -> PyFloat.lt p v = true ->
  PyFloat.lt (S754_zero false) v = true.
Proof.
  unfold PyFloat.lt, SFltb.
  destruct p as [s|s| |s m e], v as [s'|s'| |s' m' e']; cbn;
    try discriminate; try (destruct s; discriminate);
    try (destruct s, s'; discriminate); try (destruct s'; discriminate);
    destruct s, s'; cbn; try discriminate; reflexivity.
Qed.

Ltac key_neq2 :=
  lazymatch goal with
  | |- highest_bid_key _ _ <> highest_bid_key _ _ =>
      first [apply AH_neq; assumption | key_neq]
  | |- winning_bidder_key _ _ <> winning_bidder_key _ _ =>
      first [apply AW_neq; assumption | key_neq]
  | _ => key_neq
  end.

Ltac store_get2 :=
  repeat first
    [ rewrite get_set_eq
    | rewrite get_set_neq by key_neq2 ].

(** A call on another auction, or on no auction, leaves the highest bid
    and the winner of auction [a], and keeps the auction present. *)
Lemma get_set_present (k k' v : string) (db : Store.t) :
  Store.get k db <> None -> Store.get k (Store.set k' v db) <> None.
Proof.
  intros H. destruct (String.eqb_spec k k') as [->|N].
  - rewrite get_set_eq. discriminate.
  - now rewrite get_set_neq.
Qed.

Lemma tracks_add_auction (a a0 : Auction.t) (db : Store.t) (prev : option Bid.t) :
  tracks auction_kv a db prev ->
  tracks auction_kv a (exec auction_kv (AddAuction a0) db) prev.
Proof.
  intros T. unfold exec. cbn [body]. rewrite committed_map.
  destruct (Store.get (AK a0) db) as [st|] eqn:E.
  - rewrite add_auction_present by congruence. exact T.
  - rewrite add_auction_absent by exact E. cbn [committed fst snd].
    destruct (Auction.eqb a0 a) eqn:Q.
    + apply auction_eqb_eq in Q. subst a0.
      destruct prev as [p|]; cbn [tracks] in *.
      * destruct T as [T _]. now elim T.
      * right. split; now store_get.
    + apply auction_eqb_neq in Q.
      assert (Q' : a <> a0) by congruence.
      assert (NK : AK a <> AK a0) by (intros N; now apply AK_inj in N).
      destruct prev as [p|]; cbn [tracks] in *.
      * destruct T as (T1 & T2 & T3 & T4).
        split; [|split; [|split]]; store_get2; try assumption.
        now rewrite get_set_neq by exact NK.
      * destruct T as [T|[T1 T2]].
        -- left. store_get. now rewrite get_set_neq by exact NK.
        -- right. split; store_get2; assumption.
Qed.

Lemma tracks_close_auction (a a0 : Auction.t) (db : Store.t) (prev : option Bid.t) :
  tracks auction_kv a db prev ->
  tracks auction_kv a (exec auction_kv (CloseAuction a0) db) prev.
Proof.
  intros T. unfold exec. cbn [body]. rewrite committed_map.
  destruct (Store.get (AK a0) db) as [st|] eqn:E.
  - rewrite close_auction_present by congruence. cbn [committed fst snd].
    destruct prev as [p|]; cbn [tracks] in *.
    + destruct T as (T1 & T2 & T3 & T4).
      split; [|split; [|split]]; store_get2; try assumption.
      now apply get_set_present.
    + destruct T as [T|[T1 T2]].
      * left. rewrite get_set_neq; [exact T|]. intros N. rewrite N in T. congruence.
      * right. split; store_get2; assumption.
  - rewrite close_auction_absent by exact E. exact T.
Qed.

Lemma tracks_add_bidder (a : Auction.t) (b : Bidder.t) (db : Store.t)
  (prev : option Bid.t) :
  tracks auction_kv a db prev ->
  tracks auction_kv a (exec auction_kv (AddBidder b) db) prev.
Proof.
  intros T. unfold exec. cbn [body]. rewrite committed_map.
  destruct (Store.get (BK b) db) as [st|] eqn:E.
  - rewrite add_bidder_present by congruence. exact T.
  - rewrite add_bidder_absent by exact E. cbn [committed fst snd].
    destruct prev as [p|]; cbn [tracks] in *; now store_get.
Qed.

Lemma tracks_other_bid (a : Auction.t) (bid : Bid.t) (db : Store.t)
  (prev : option Bid.t) :
  Bid.auction bid <> a ->
  tracks auction_kv a db prev ->
  tracks auction_kv a (exec auction_kv (SubmitBid bid) db) prev.
Proof.
  intros N T. unfold exec. cbn [body]. rewrite committed_map.
  destruct (submit_bid_spec db bid) as (r & db' & out & -> & [[_ ->]|[_ S]]);
    [exact T|].
  destruct S as (h & n & m & ka & kb & Acc & ->).
  destruct Acc as (_ & _ & _ & _ & _ & _ & Hka & _ & Hkb).
  assert (N' : a <> Bid.auction bid) by congruence.
  cbn [committed fst snd]. unfold accepted_store.
  destruct prev as [p|]; cbn [tracks] in *; now store_get2.
Qed.

Lemma tracks_rejected_bid (a : Auction.t) (bid : Bid.t) (db : Store.t)
  (prev : option Bid.t) :
  is_done (returned (transactional (submit_bid auction_kv bid) db)) = false ->
  tracks auction_kv a db prev ->
  tracks auction_kv a (exec auction_kv (SubmitBid bid) db) prev.
Proof.
  intros R T. unfold exec. cbn [body]. rewrite committed_map.
  destruct (submit_bid_spec db bid) as (r & db' & out & E & [[_ ->]|[-> _]]).
  - now rewrite E.
  - rewrite E in R. discriminate.
Qed.

(** An accepted bid is above the last accepted one, by another bidder,
    and becomes the one the auction record shows. *)
Lemma tracks_accepted_bid (bid : Bid.t) (db : Store.t) (prev : option Bid.t) :
  plain_amount (Bid.value bid) ->
  tracks auction_kv (Bid.auction bid) db prev ->
  is_done (returned (transactional (submit_bid auction_kv bid) db)) = true ->
  PyFloat.lt (S754_zero false) (Bid.value bid) = true /\
  match prev with
  | None => True
  | Some p =>
      PyFloat.lt (Bid.value p) (Bid.value bid) = true /\
      Bidder.name (Bid.bidder p) <> Bidder.name (Bid.bidder bid)
  end /\
  tracks auction_kv (Bid.auction bid) (exec auction_kv (SubmitBid bid) db) (Some bid).
Proof.
  intros [Pn Px] T R. unfold exec. cbn [body]. rewrite committed_map.
  destruct (submit_bid_spec db bid) as (r & db' & out & E & [[N _]|[-> S]]).
  { rewrite E in R. cbn [returned fst] in R. destruct r as [[]|]; try discriminate.
    now elim N. }
  rewrite E. cbn [committed fst snd].
  destruct S as (h & n & m & ka & kb & Acc & ->).
  destruct Acc as (Ha & _ & Hh & Hle & Hw & _ & Hka & _ & Hkb).
  unfold highest_bid in Hh.
  assert (Z : PyFloat.lt (S754_zero false) (Bid.value bid) = true /\
              match prev with
              | None => True
              | Some p =>
                  PyFloat.lt (Bid.value p) (Bid.value bid) = true /\
                  Bidder.name (Bid.bidder p) <> Bidder.name (Bid.bidder bid)
              end).
  { destruct prev as [p|]; cbn [tracks] in T.
    - destruct T as (_ & T2 & T3 & [Qn Qx] & T5).
      rewrite T2, Qx in Hh. injection Hh as <-.
      rewrite T3 in Hw. cbn [value_eqb] in Hw. apply String.eqb_neq in Hw.
      assert (L : PyFloat.lt (Bid.value p) (Bid.value bid) = true)
        by now apply not_le_lt.
      split; [now apply zero_lt_trans with (Bid.value p) | now split].
    - destruct T as [T|[T1 _]]; [now elim Ha|].
      rewrite T1 in Hh.
      assert (Hz : h = S754_zero false)
        by (change (PyFloat.of_string "0") with (Some (S754_zero false)) in Hh;
            now injection Hh).
      subst h. split; [now apply not_le_lt | exact I]. }
  destruct Z as [Z1 Z2]. split; [exact Z1|]. split; [exact Z2|].
  cbn [tracks]. unfold accepted_store.
  split; [|split; [|split; [|split]]]; store_get; try reflexivity;
    try assumption; now split.
Qed.

Lemma accepted_bids_rising (a : Auction.t) (ops : list op) :
  forall (db : Store.t) (prev : option Bid.t),
    Forall (plain_op) ops ->
    tracks auction_kv a db prev ->
    rising prev (accepted_bids auction_kv a ops db).
Proof.
  induction ops as [|o ops IH]; intros db prev P T; [exact I|].
  inversion P as [|? ? Po Pops]; subst.
  cbn [accepted_bids].
  destruct o as [a0|a0|a0|a0|b|bid|b|a0]; cbn [app].
  - apply IH; [exact Pops | now apply tracks_add_auction].
  - apply IH; [exact Pops | now apply tracks_close_auction].
  - apply IH; [exact Pops|]. unfold exec. cbn [body].
    now rewrite committed_map, is_auction_open_reads.
  - apply IH; [exact Pops|]. unfold exec. cbn [body].
    now rewrite committed_map, winning_bid_reads.
  - apply IH; [exact Pops | now apply tracks_add_bidder].
  - destruct (Auction.eqb (Bid.auction bid) a) eqn:Q; cbn [andb].
    + apply auction_eqb_eq in Q. subst a.
      destruct (is_done _) eqn:R; cbn [app].
      * destruct (tracks_accepted_bid bid db prev Po T R) as (Z1 & Z2 & T').
        cbn [rising]. split; [exact Z1|]. split; [exact Z2|].
        now apply IH.
      * apply IH; [exact Pops | now apply tracks_rejected_bid].
    + apply auction_eqb_neq in Q. cbn [app].
      apply IH; [exact Pops | now apply tracks_other_bid].
  - apply IH; [exact Pops | exact T].
  - apply IH; [exact Pops | exact T].
Qed.


(** *** The bid log lists the accepted bids *)

Lemma AN_neq (a a' : Auction.t) : a <> a' -> AN a <> AN a'.
Proof.
  intros N E. apply N. apply auctions_key_inj in E.
  destruct a, a'. cbn in E. now injection E as -> ->.
Qed.

Lemma set_above (k v : string) (s : Store.t) :
  Forall (fun kv => String.compare (fst kv) k = Lt) s ->
  Store.set k v s = (s ++ [(k, v)])%list.
Proof.
  induction 1 as [|[k' v'] r L _ IH]; [reflexivity|].
  cbn [Store.set app]. cbn [fst] in L.
  rewrite String.compare_antisym, L. cbn [CompOpp]. now rewrite IH.
Qed.

Lemma log_rows_app (scope : string) (bids : list Bid.t) : forall i b,
  log_rows auction_kv scope i (bids ++ [b]) =
  (log_rows auction_kv scope i bids
     ++ [(log_entry_key auction_kv scope (i + Z.of_nat (List.length bids)), Bid.str b)])%list.
Proof.
  induction bids as [|b0 bids IH]; intros i b; cbn [app log_rows List.length].
  - now rewrite Z.add_0_r.
  - rewrite IH.
    replace (i + 1 + Z.of_nat (List.length bids))
      with (i + Z.of_nat (S (List.length bids))) by lia.
    reflexivity.
Qed.

(** An index below one that can be packed can be packed, under a smaller key. *)
Lemma log_key_below (scope : string) (i j : Z) (k : string) :
  0 < i -> i < j -> log_key auction_kv scope j = Some k ->
  String.compare (log_entry_key auction_kv scope i) k = Lt.
Proof.
  intros Hi Hij Hk. unfold log_entry_key, log_key, Subspace.item_int in *.
  destruct (Tuple.encode_int j) as [e'|] eqn:Ej; [|discriminate].
  cbn [option_map] in Hk. injection Hk as <-.
  destruct (Tuple.encode_int i) as [e|] eqn:Ei.
  - cbn [option_map]. rewrite compare_app. now apply encode_int_lt with i j.
  - exfalso. revert Ei Ej. unfold Tuple.encode_int.
    assert (Zi : (i =? 0) = false) by (apply Z.eqb_neq; lia).
    assert (Zj : (j =? 0) = false) by (apply Z.eqb_neq; lia).
    assert (Pi : (0 <? i) = true) by (apply Z.ltb_lt; lia).
    assert (Pj : (0 <? j) = true) by (apply Z.ltb_lt; lia).
    rewrite Zi, Zj, Pi, Pj.
    pose proof (size_of_mono i j Hi ltac:(lia)) as M.
    destruct (Tuple.size_of j <=? 8) eqn:Lj; [|discriminate].
    apply Z.leb_le in Lj.
    assert (Li : (Tuple.size_of i <=? 8) = true) by (apply Z.leb_le; lia).
    rewrite Li. discriminate.
Qed.

Lemma log_rows_below (scope : string) (j : Z) (k : string) (bids : list Bid.t) :
  forall i,
    0 < i -> i + Z.of_nat (List.length bids) <= j ->
    log_key auction_kv scope j = Some k ->
    Forall (fun kv => String.compare (fst kv) k = Lt) (log_rows auction_kv scope i bids).
Proof.
  induction bids as [|b bids IH]; intros i Hi Hj Hk; cbn [log_rows]; constructor.
  - cbn [fst]. apply log_key_below with j; try assumption.
    cbn [List.length] in Hj. lia.
  - apply IH; try assumption; cbn [List.length] in Hj; lia.
Qed.

Ltac off_log :=
  first
    [ unfold_keys; apply auctions_off_range
    | unfold_keys; apply bidders_off_range
    | eapply log_off_range; [eassumption|];
      first [ apply not_eq_sym; apply auctions_bidders_neq
            | intros ?E; apply AK_inj in E; congruence ] ].

Ltac sorted_hyp := repeat apply set_sorted; first [assumption | apply empty_sorted].

Ltac range_off := repeat (rewrite get_range_set_off by (sorted_hyp || off_log)).

Lemma logged_add_auction (a a0 : Auction.t) (db : Store.t) (bids : list Bid.t) :
  logged auction_kv a db bids ->
  logged auction_kv a (exec auction_kv (AddAuction a0) db) bids.
Proof.
  intros L. unfold exec. cbn [body]. rewrite committed_map.
  destruct (Store.get (AK a0) db) as [st|] eqn:E.
  - rewrite add_auction_present by congruence. exact L.
  - rewrite add_auction_absent by exact E. cbn [committed fst snd].
    destruct L as (S & R & L0 & Ln).
    split; [sorted_hyp|]. split; [range_off; exact R|].
    destruct (Auction.eqb a0 a) eqn:Q.
    + apply auction_eqb_eq in Q. subst a0. split.
      * store_get. discriminate.
      * intros _. store_get. now rewrite (L0 E).
    + apply auction_eqb_neq in Q.
      assert (Q' : a <> a0) by congruence.
      assert (NK : AK a <> AK a0) by (intros N; now apply AK_inj in N).
      assert (NN : AN a <> AN a0) by now apply AN_neq.
      split.
      * store_get. now rewrite get_set_neq by exact NK.
      * store_get. rewrite (get_set_neq (AK a)) by exact NK.
        intros P. rewrite get_set_neq by exact NN. store_get. now apply Ln.
Qed.

Lemma logged_close_auction (a a0 : Auction.t) (db : Store.t) (bids : list Bid.t) :
  logged auction_kv a db bids ->
  logged auction_kv a (exec auction_kv (CloseAuction a0) db) bids.
Proof.
  intros L. unfold exec. cbn [body]. rewrite committed_map.
  destruct (Store.get (AK a0) db) as [st|] eqn:E.
  - rewrite close_auction_present by congruence. cbn [committed fst snd].
    destruct L as (S & R & L0 & Ln).
    split; [sorted_hyp|]. split; [range_off; exact R|].
    destruct (String.eqb_spec (AK a) (AK a0)) as [K|K].
    + split.
      * rewrite K, get_set_eq. discriminate.
      * intros _. store_get. apply Ln. rewrite K, E. discriminate.
    + split.
      * now rewrite get_set_neq by exact K.
      * rewrite get_set_neq by exact K. intros P. store_get. now apply Ln.
  - rewrite close_auction_absent by exact E. exact L.
Qed.

Lemma logged_add_bidder (a : Auction.t) (b : Bidder.t) (db : Store.t)
  (bids : list Bid.t) :
  logged auction_kv a db bids ->
  logged auction_kv a (exec auction_kv (AddBidder b) db) bids.
Proof.
  intros L. unfold exec. cbn [body]. rewrite committed_map.
  destruct (Store.get (BK b) db) as [st|] eqn:E.
  - rewrite add_bidder_present by congruence. exact L.
  - rewrite add_bidder_absent by exact E. cbn [committed fst snd].
    destruct L as (S & R & L0 & Ln).
    split; [sorted_hyp|]. split; [range_off; exact R|].
    split; store_get; assumption.
Qed.

Lemma logged_other_bid (a : Auction.t) (bid : Bid.t) (db : Store.t)
  (bids : list Bid.t) :
  Bid.auction bid <> a ->
  logged auction_kv a db bids ->
  logged auction_kv a (exec auction_kv (SubmitBid bid) db) bids.
Proof.
  intros N L. unfold exec. cbn [body]. rewrite committed_map.
  destruct (submit_bid_spec db bid) as (r & db' & out & -> & [[_ ->]|[_ S]]);
    [exact L|].
  destruct S as (h & n & m & ka & kb & Acc & ->).
  destruct Acc as (_ & _ & _ & _ & _ & _ & Hka & _ & Hkb).
  assert (N' : a <> Bid.auction bid) by congruence.
  assert (NN : AN a <> AN (Bid.auction bid)) by now apply AN_neq.
  cbn [committed fst snd]. unfold accepted_store.
  destruct L as (S & R & L0 & Ln).
  split; [sorted_hyp|]. split; [range_off; exact R|].
  split.
  - now store_get.
  - store_get. intros P. rewrite (get_set_neq (AN a)) by exact NN.
    store_get. now apply Ln.
Qed.

Lemma logged_rejected_bid (a : Auction.t) (bid : Bid.t) (db : Store.t)
  (bids : list Bid.t) :
  is_done (returned (transactional (submit_bid auction_kv bid) db)) = false ->
  logged auction_kv a db bids ->
  logged auction_kv a (exec auction_kv (SubmitBid bid) db) bids.
Proof.
  intros R L. unfold exec. cbn [body]. rewrite committed_map.
  destruct (submit_bid_spec db bid) as (r & db' & out & E & [[_ ->]|[-> _]]).
  - now rewrite E.
  - rewrite E in R. discriminate.
Qed.

(** An accepted bid is written at the end of the bid log of its auction,
    at the entry of the new bid count. *)
Lemma logged_accepted_bid (bid : Bid.t) (db : Store.t) (bids : list Bid.t) :
  logged auction_kv (Bid.auction bid) db bids ->
  is_done (returned (transactional (submit_bid auction_kv bid) db)) = true ->
  logged auction_kv (Bid.auction bid) (exec auction_kv (SubmitBid bid) db)
    (bids ++ [bid]).
Proof.
  intros L R. unfold exec. cbn [body]. rewrite committed_map.
  destruct (submit_bid_spec db bid) as (r & db' & out & E & [[N _]|[-> S]]).
  { rewrite E in R. cbn [returned fst] in R. destruct r as [[]|]; try discriminate.
    now elim N. }
  rewrite E. cbn [committed fst snd].
  destruct S as (h & n & m & ka & kb & Acc & ->).
  destruct Acc as (Ha & _ & _ & _ & _ & Hn & Hka & _ & Hkb).
  destruct L as (S & Rg & L0 & Ln).
  specialize (Ln Ha). unfold counter in Hn. rewrite Ln in Hn.
  rewrite int_of_str in Hn by lia. injection Hn as <-.
  unfold accepted_store.
  split; [sorted_hyp|]. split; [|split].
  - rewrite get_range_set_off by (sorted_hyp || off_log).
    rewrite get_range_set_off by (sorted_hyp || off_log).
    rewrite get_range_set_in by (sorted_hyp || (eapply log_in_range; eassumption)).
    range_off. rewrite Rg.
    rewrite set_above
      by (apply log_rows_below with (j := Z.of_nat (List.length bids) + 1);
          [lia | lia | exact Hka]).
    rewrite log_rows_app.
    replace (1 + Z.of_nat (List.length bids)) with (Z.of_nat (List.length bids) + 1)
      by lia.
    unfold log_entry_key. now rewrite Hka.
  - store_get. intros P. now elim Ha.
  - intros _. store_get. rewrite length_app. cbn [List.length].
    do 2 f_equal. lia.
Qed.

Lemma exec_sorted (o : op) (db : Store.t) :
  Store.sorted db -> Store.sorted (exec auction_kv o db).
Proof.
  intros S. unfold exec.
  destruct o as [a0|a0|a0|a0|b|bid|b|a0]; cbn [body]; rewrite committed_map.
  - destruct (Store.get (AK a0) db) as [st|] eqn:E.
    + now rewrite add_auction_present by congruence.
    + rewrite add_auction_absent by exact E. cbn [committed fst snd]. sorted_hyp.
  - destruct (Store.get (AK a0) db) as [st|] eqn:E.
    + rewrite close_auction_present by congruence. cbn [committed fst snd]. sorted_hyp.
    + now rewrite close_auction_absent by exact E.
  - now rewrite is_auction_open_reads.
  - now rewrite winning_bid_reads.
  - destruct (Store.get (BK b) db) as [st|] eqn:E.
    + now rewrite add_bidder_present by congruence.
    + rewrite add_bidder_absent by exact E. cbn [committed fst snd]. sorted_hyp.
  - destruct (submit_bid_spec db bid) as (r & db' & out & -> & [[_ ->]|[_ A]]);
      [exact S|].
    destruct A as (h & n & m & ka & kb & _ & ->).
    cbn [committed fst snd]. unfold accepted_store. sorted_hyp.
  - exact S.
  - exact S.
Qed.

Lemma logged_run (a : Auction.t) (ops : list op) :
  forall (db : Store.t) (bids : list Bid.t),
    logged auction_kv a db bids ->
    logged auction_kv a (exec_all auction_kv ops db)
      (bids ++ accepted_bids auction_kv a ops db).
Proof.
  induction ops as [|o ops IH]; intros db bids L.
  - cbn. now rewrite app_nil_r.
  - cbn [accepted_bids exec_all fold_left].
    change (fold_left (fun s o0 => exec auction_kv o0 s) ops (exec auction_kv o db))
      with (exec_all auction_kv ops (exec auction_kv o db)).
    destruct o as [a0|a0|a0|a0|b|bid|b|a0]; cbn [app].
    + apply IH. now apply logged_add_auction.
    + apply IH. now apply logged_close_auction.
    + apply IH. unfold exec. cbn [body].
      now rewrite committed_map, is_auction_open_reads.
    + apply IH. unfold exec. cbn [body].
      now rewrite committed_map, winning_bid_reads.
    + apply IH. now apply logged_add_bidder.
    + destruct (Auction.eqb (Bid.auction bid) a) eqn:Q; cbn [andb].
      * apply auction_eqb_eq in Q. subst a.
        destruct (is_done _) eqn:R; cbn [app].
        -- match goal with
           | |- logged _ _ _ (bids ++ bid :: ?r)%list =>
               replace (bids ++ bid :: r)%list with ((bids ++ [bid]) ++ r)%list
                 by (now rewrite <- app_assoc)
           end.
           apply IH. now apply logged_accepted_bid.
        -- apply IH. now apply logged_rejected_bid.
      * apply auction_eqb_neq in Q. cbn [app].
        apply IH. now apply logged_other_bid.
    + apply IH. exact L.
    + apply IH. exact L.
Qed.

(** After any sequence of calls on an empty store, [bids_for_auction]
    returns the bids accepted on the auction, in the order of acceptance,
    at the entries 1, 2, ... of its log, and the auction's bid count is
    their number. *)
Theorem bid_log_lists_accepted_bids (a : Auction.t) (ops : list op) :
  returned (transactional (bids_for_auction auction_kv a)
              (exec_all auction_kv ops Store.empty))
  = Ret (log_rows auction_kv (AK a) 1 (accepted_bids auction_kv a ops Store.empty)) /\
  (Store.get (AK a) (exec_all auction_kv ops Store.empty) <> None ->
   counter (exec_all auction_kv ops Store.empty) (AN a)
   = Some (Z.of_nat (List.length (accepted_bids auction_kv a ops Store.empty)))).
Proof.
  assert (L0 : logged auction_kv a Store.empty []).
  { split; [apply empty_sorted|]. split; [reflexivity|]. split; [reflexivity|].
    intros P. now elim P. }
  destruct (logged_run a ops Store.empty [] L0) as (_ & R & _ & Ln).
  cbn [app] in R, Ln. split.
  - change (Ret (Store.get_range
                   (Subspace.range (Subspace.item (bids_ss auction_kv) (AK a)))
                   (exec_all auction_kv ops Store.empty)) =
            Ret (log_rows auction_kv (AK a) 1
                   (accepted_bids auction_kv a ops Store.empty))).
    now rewrite R.
  - intros P. unfold counter. rewrite (Ln P). apply int_of_str. lia.
Qed.

(** C10 (amended): when every amount submitted is a number that [str]
    renders exactly ([float(str(v)) == v]), the bids accepted on an auction
    by any sequence of calls on an empty store, taken in order, have
    strictly increasing amounts, each greater than zero, and no two in a row
    are by one bidder name; and the bid log of the auction, as
    [bids_for_auction] reads it, holds exactly these bids, in that order, at
    the entries 1, 2, ... *)
Theorem accepted_bids_rise (a : Auction.t) (ops : list op) :
  Forall (plain_op) ops ->
  rising None (accepted_bids auction_kv a ops Store.empty) /\
  returned (transactional (bids_for_auction auction_kv a)
              (exec_all auction_kv ops Store.empty))
  = Ret (log_rows auction_kv (AK a) 1 (accepted_bids auction_kv a ops Store.empty)).
Proof.
  intros P. split.
  - apply accepted_bids_rising; [exact P|]. now left.
  - apply bid_log_lists_accepted_bids.
Qed.

(** *** Grouping of the records under a prefix *)

Lemma map_str1_inj (l : list ascii) : forall l', map str1 l = map str1 l' -> l = l'.
Proof.
  induction l as [|c l IH]; intros [|c' l'] H; try discriminate; [reflexivity|].
  cbn in H. injection H as -> H. now rewrite (IH _ H).
Qed.

(** No two bidders share a key, and no key of a bidder is the counter of
    another. *)
Lemma BK_inj (b b' : Bidder.t) : BK b = BK b' -> b = b'.
Proof.
  intros E. apply bidders_key_inj in E. unfold Bidder.id_tuple in E.
  apply map_str1_inj in E. destruct b as [n], b' as [n']. cbn in E.
  rewrite <- (string_of_list_ascii_of_string n), E.
  now rewrite string_of_list_ascii_of_string.
Qed.

Lemma BN_inj (b b' : Bidder.t) : BN b = BN b' -> b = b'.
Proof.
  intros E. apply bidders_key_inj in E. destruct b, b'. cbn in E.
  now injection E as ->.
Qed.

Lemma BK_BN_neq (b b' : Bidder.t) : BK b <> BN b'.
Proof.
  intros E. apply bidders_key_inj in E.
  unfold Bidder.id_tuple, Bidder.num_bids_tuple in E.
  destruct (list_ascii_of_string (Bidder.name b)) as [|c [|c' [|c'' l]]];
    cbn in E; discriminate.
Qed.

(** The range under the key of an auction holds no field of another
    auction. *)
Lemma auction_range_own_fields (a a' : Auction.t) (field : string) :
  Store.in_range (Subspace.range (AK a))
    (Subspace.pack (auctions_ss auction_kv) (Auction.id_tuple a' ++ [field])%list)
    = true ->
  a' = a.
Proof.
  intros R. apply in_range_prefix in R. destruct R as (c & r & H & Nc).
  unfold auction_key, Subspace.pack in H. rewrite append_assoc in H.
  apply append_inv_head in H.
  destruct a as [n d], a' as [n' d']. cbn [Auction.id_tuple app Tuple.pack] in H.
  cbn [Auction.name Auction.description] in H.
  rewrite !append_assoc, append_nil_r in H. cbn [String.append] in H.
  destruct (encode_bytes_sep _ _ _ _ (no_ff_encode_bytes _ _)
              (no_ff_encode_bytes _ _) H) as [-> H1].
  assert (F : no_ff (String c r)) by exact Nc.
  assert (G : no_ff (Tuple.encode_bytes field)) by (cbn; discriminate).
  destruct (encode_bytes_sep _ _ _ _ G F H1) as [-> _].
  reflexivity.
Qed.

Lemma in_range_self (p : string) : Store.in_range (Subspace.range p) p = false.
Proof.
  destruct (Store.in_range _ p) eqn:R; [|reflexivity].
  apply in_range_prefix in R. destruct R as (c & r & H & _).
  rewrite <- (append_nil_r p) in H at 1. apply append_inv_head in H. discriminate.
Qed.

Lemma BK_AB : BK bidder_AB = BK bidder_A ++ Tuple.encode_bytes "B".
Proof.
  unfold bidder_key, Subspace.pack. cbn [Bidder.id_tuple bidder_A bidder_AB
    Bidder.name list_ascii_of_string map Tuple.pack].
  now rewrite !append_nil_r, append_assoc.
Qed.

Lemma BN_A : BN bidder_A = BK bidder_A ++ Tuple.encode_bytes "num_bids".
Proof.
  unfold bidder_key, bidder_num_bids_key, Subspace.pack.
  cbn [Bidder.id_tuple Bidder.num_bids_tuple bidder_A
    Bidder.name list_ascii_of_string map Tuple.pack].
  now rewrite !append_nil_r, append_assoc.
Qed.

Lemma BN_AB_off : Store.in_range (Subspace.range (BK bidder_A)) (BN bidder_AB) = false.
Proof.
  destruct (Store.in_range _ _) eqn:R; [|reflexivity].
  apply in_range_prefix in R. destruct R as (c & r & H & Nc).
  unfold bidder_key, bidder_num_bids_key, Subspace.pack in H.
  rewrite append_assoc in H. apply append_inv_head in H.
  cbn [Bidder.id_tuple Bidder.num_bids_tuple bidder_A bidder_AB
    Bidder.name list_ascii_of_string map Tuple.pack] in H.
  rewrite !append_assoc, !append_nil_r in H. cbn [String.append] in H.
  assert (F : no_ff (String c r)) by exact Nc.
  assert (G : no_ff (Tuple.encode_bytes "num_bids")) by (cbn; discriminate).
  destruct (encode_bytes_sep _ _ _ _ G F H) as [H1 _].
  discriminate.
Qed.

(** C6, as the code behaves: the key of bidder "AB" extends the key of
    bidder "A" (the identifier of a bidder is the tuple of the characters
    of its name), so it lies in the range under the key of "A", and a
    ranged read there, after both are added to an empty store, returns
    the display name of "AB" next to the bid counter of "A". *)
Theorem bidder_range_holds_another_bidder :
  Bidder.name bidder_A <> Bidder.name bidder_AB /\
  BK bidder_AB = BK bidder_A ++ Tuple.encode_bytes "B" /\
  Store.in_range (Subspace.range (BK bidder_A)) (BK bidder_AB) = true /\
  Store.get_range (Subspace.range (BK bidder_A))
    (exec_all auction_kv [AddBidder bidder_A; AddBidder bidder_AB] Store.empty)
  = [(BK bidder_AB, "Bidder(AB)"); (BN bidder_A, "0")].
Proof.
  assert (I1 : Store.in_range (Subspace.range (BK bidder_A)) (BK bidder_AB) = true)
    by (rewrite BK_AB; apply in_range_inside; discriminate).
  assert (I2 : Store.in_range (Subspace.range (BK bidder_A)) (BN bidder_A) = true)
    by (rewrite BN_A; apply in_range_inside; discriminate).
  split; [discriminate|]. split; [exact BK_AB|]. split; [exact I1|].
  unfold exec_all. cbn [fold_left]. unfold exec. cbn [body].
  rewrite !committed_map.
  rewrite (add_bidder_absent Store.empty bidder_A) by reflexivity.
  cbn [committed fst snd].
  rewrite (add_bidder_absent _ bidder_AB)
    by (rewrite !get_set_neq; [reflexivity | intros E; now apply BK_inj in E
                               | apply BK_BN_neq]).
  cbn [committed fst snd].
  rewrite get_range_set_off by (sorted_tac || apply BN_AB_off).
  rewrite get_range_set_in by (sorted_tac || exact I1).
  rewrite get_range_set_in by (sorted_tac || exact I2).
  rewrite get_range_set_off by (sorted_tac || apply in_range_self).
  unfold Store.get_range, Store.empty. cbn [filter Store.set].
  rewrite BK_AB, BN_A. now rewrite compare_app.
Qed.

(** *** Registering bidders, closing auctions *)

Lemma set_set (k v : string) (s : Store.t) :
  Store.set k v (Store.set k v s) = Store.set k v s.
Proof.
  induction s as [|[k' v'] r IH]; cbn [Store.set].
  - now rewrite compare_refl.
  - destruct (String.compare k k') eqn:C; cbn [Store.set].
    + now rewrite compare_refl.
    + now rewrite compare_refl.
    + now rewrite C, IH.
Qed.

(** X1: [add_bidder] on a bidder that is not in the store returns, writes
    the text of the bidder under the bidder's key and the count 0 under its
    count key and changes no other key; called again it reports that the
    bidder exists, prints its message and leaves the store, the count
    included, as it is. *)
Theorem add_bidder_twice (db : Store.t) (b : Bidder.t) :
  Store.get (BK b) db = None ->
  exists db',
    transactional (add_bidder auction_kv b) db = (Ret Done, db', []) /\
    Store.get (BK b) db' = Some (Bidder.str b) /\
    Store.get (BN b) db' = Some "0" /\
    (forall k, k <> BK b -> k <> BN b -> Store.get k db' = Store.get k db) /\
    transactional (add_bidder auction_kv b) db' =
      (Ret AlreadyExists, db',
       ["Cannot add bidder " ++ Bidder.str b ++ ": already exists"]).
Proof.
  intros H. eexists. split; [now apply add_bidder_absent|].
  assert (N : BK b <> BN b) by apply BK_BN_neq.
  split; [|split; [|split]].
  - rewrite get_set_neq by exact N. apply get_set_eq.
  - apply get_set_eq.
  - intros k K1 K2. now rewrite !get_set_neq by assumption.
  - apply add_bidder_present.
    rewrite get_set_neq by exact N. rewrite get_set_eq. discriminate.
Qed.

(** X2: [close_auction] changes nothing but the status of its auction, and
    never creates one: on an auction that is not in the store it reports so
    and leaves the store as it is, on one that is there it sets the status
    to CLOSED, whatever it was; closing twice leaves the store of closing
    once. *)
Theorem close_auction_twice (db : Store.t) (a : Auction.t) :
  exec auction_kv (CloseAuction a) (exec auction_kv (CloseAuction a) db)
    = exec auction_kv (CloseAuction a) db /\
  (forall k, k <> AK a ->
     Store.get k (exec auction_kv (CloseAuction a) db) = Store.get k db) /\
  Store.get (AK a) (exec auction_kv (CloseAuction a) db)
    = match Store.get (AK a) db with
      | Some _ => Some "CLOSED"
      | None => None
      end /\
  returned (transactional (close_auction auction_kv a) db)
    = Ret (match Store.get (AK a) db with
           | Some _ => Done
           | None => NotFound
           end).
Proof.
  unfold exec. cbn [body]. rewrite !committed_map.
  destruct (Store.get (AK a) db) as [st|] eqn:E.
  - rewrite (close_auction_present db a) by congruence.
    cbn [committed returned fst snd].
    rewrite close_auction_present by (rewrite get_set_eq; discriminate).
    cbn [committed fst snd].
    split; [apply set_set|]. split; [|split].
    + intros k K. now rewrite get_set_neq by exact K.
    + apply get_set_eq.
    + reflexivity.
  - rewrite (close_auction_absent db a) by exact E.
    cbn [committed returned fst snd].
    rewrite (close_auction_absent db a) by exact E.
    cbn [committed fst snd]. now repeat split.
Qed.

(** X3: once [close_auction] has returned for an auction of the store, the
    auction stays closed whatever is called next: [is_auction_open]
    answers [False], and [add_auction] does not reopen it, it reports that
    the auction exists and changes nothing. *)
Theorem closed_auction_stays_closed (db : Store.t) (ops : list op) (a : Auction.t) :
  Store.get (AK a) db <> None ->
  transactional (is_auction_open auction_kv a)
    (exec_all auction_kv ops (exec auction_kv (CloseAuction a) db))
  = (Ret false, exec_all auction_kv ops (exec auction_kv (CloseAuction a) db), []) /\
  transactional (add_auction auction_kv a)
    (exec_all auction_kv ops (exec auction_kv (CloseAuction a) db))
  = (Ret AlreadyExists,
     exec_all auction_kv ops (exec auction_kv (CloseAuction a) db),
     ["Cannot add auction " ++ Auction.str a ++ ": already exists"]).
Proof.
  intros H.
  assert (C : Store.get (AK a)
                (exec_all auction_kv ops (exec auction_kv (CloseAuction a) db))
              = Some "CLOSED").
  { apply exec_all_keeps_closed. unfold exec. cbn [body].
    rewrite committed_map, close_auction_present by exact H.
    apply get_set_eq. }
  split.
  - tx_open. tx_run. reflexivity.
  - apply add_auction_present. rewrite C. discriminate.
Qed.

Lemma exec_keeps_open (o : op) (db : Store.t) (a : Auction.t) :
  o <> CloseAuction a ->
  Store.get (AK a) db = Some "OPEN" ->
  Store.get (AK a) (exec auction_kv o db) = Some "OPEN".
Proof.
  intros No H. unfold exec.
  destruct o as [a0|a0|a0|a0|b|bid|b|a0]; cbn [body]; rewrite committed_map.
  - destruct (Store.get (AK a0) db) as [st|] eqn:E.
    + rewrite add_auction_present by congruence. exact H.
    + rewrite add_auction_absent by exact E. cbn [committed fst snd].
      assert (N : AK a <> AK a0) by (intros N; rewrite N in H; congruence).
      store_get. now rewrite get_set_neq by exact N.
  - destruct (Store.get (AK a0) db) as [st|] eqn:E.
    + rewrite close_auction_present by congruence. cbn [committed fst snd].
      assert (N : AK a <> AK a0).
      { intros N. apply AK_inj in N. subst a0. now elim No. }
      now rewrite get_set_neq by exact N.
    + rewrite close_auction_absent by exact E. exact H.
  - now rewrite is_auction_open_reads.
  - now rewrite winning_bid_reads.
  - destruct (Store.get (BK b) db) as [st|] eqn:E.
    + rewrite add_bidder_present by congruence. exact H.
    + rewrite add_bidder_absent by exact E. cbn [committed fst snd].
      now store_get.
  - destruct (submit_bid_spec db bid) as (r & db' & out & -> & [[_ ->]|[_ S]]).
    + exact H.
    + destruct S as (h & n & m & ka & kb & Acc & ->).
      destruct Acc as (_ & _ & _ & _ & _ & _ & Hka & _ & Hkb).
      cbn [committed fst snd]. unfold accepted_store. now store_get.
  - exact H.
  - exact H.
Qed.

(** X4: an open auction stays open until it is closed: after any sequence
    of calls none of which is [close_auction] on it, bids and repeated
    [add_auction] included, [is_auction_open] answers [True] and changes
    nothing. *)
Theorem open_auction_stays_open (db : Store.t) (ops : list op) (a : Auction.t) :
  Store.get (AK a) db = Some "OPEN" ->
  Forall (fun o => o <> CloseAuction a) ops ->
  transactional (is_auction_open auction_kv a) (exec_all auction_kv ops db)
  = (Ret true, exec_all auction_kv ops db, []).
Proof.
  intros H F.
  assert (O : Store.get (AK a) (exec_all auction_kv ops db) = Some "OPEN").
  { revert db H. induction F as [|o ops No _ IH]; intros db H; [exact H|].
    cbn [exec_all fold_left]. apply IH. now apply exec_keeps_open. }
  tx_open. tx_run. reflexivity.
Qed.

(** *** Bids: all or nothing *)

(** X5: [submit_bid] commits all of its writes or none. Either the call
    does not succeed and the store is the one before it, or it succeeds,
    prints the new highest bid once and commits the six writes together:
    highest bid, winning bidder, both counts and both log entries, the
    entries at the counts read plus one. *)
Theorem submit_bid_all_or_nothing (db : Store.t) (bid : Bid.t) :
  (returned (transactional (submit_bid auction_kv bid) db) <> Ret Done /\
   committed (transactional (submit_bid auction_kv bid) db) = db) \/
  (returned (transactional (submit_bid auction_kv bid) db) = Ret Done /\
   printed (transactional (submit_bid auction_kv bid) db) = [new_highest_line bid] /\
   exists n m ka kb,
     counter db (AN (Bid.auction bid)) = Some n /\
     counter db (BN (Bid.bidder bid)) = Some m /\
     log_key auction_kv (AK (Bid.auction bid)) (n + 1) = Some ka /\
     log_key auction_kv (BK (Bid.bidder bid)) (m + 1) = Some kb /\
     committed (transactional (submit_bid auction_kv bid) db)
     = accepted_store auction_kv db bid n m ka kb).
Proof.
  destruct (submit_bid_spec db bid) as (r & db' & out & E & [[N ->]|[-> S]]).
  - left. rewrite E. now split.
  - right. destruct S as (h & n & m & ka & kb & Acc & ->).
    rewrite (submit_bid_accepted db bid h n m ka kb Acc).
    cbn [returned committed printed fst snd].
    split; [reflexivity|]. split; [reflexivity|].
    exists n, m, ka, kb.
    destruct Acc as (_ & _ & _ & _ & _ & Hn & Hka & Hm & Hkb).
    now repeat split.
Qed.

Lemma accepted_store_winner (db : Store.t) (bid : Bid.t) (n m : Z) (ka kb : string) :
  log_key auction_kv (AK (Bid.auction bid)) (n + 1) = Some ka ->
  log_key auction_kv (BK (Bid.bidder bid)) (m + 1) = Some kb ->
  Store.get (AW (Bid.auction bid)) (accepted_store auction_kv db bid n m ka kb)
    = Some (Bidder.name (Bid.bidder bid)) /\
  Store.get (AH (Bid.auction bid)) (accepted_store auction_kv db bid n m ka kb)
    = Some (PyFloat.str (Bid.value bid)) /\
  Store.get (AK (Bid.auction bid)) (accepted_store auction_kv db bid n m ka kb)
    = Store.get (AK (Bid.auction bid)) db.
Proof.
  intros Hka Hkb. unfold accepted_store. split; [|split]; now store_get.
Qed.

Lemma submit_bid_again (db : Store.t) (bid : Bid.t) :
  returned (transactional (submit_bid auction_kv bid) db) = Ret Done ->
  returned (transactional (submit_bid auction_kv bid)
              (exec auction_kv (SubmitBid bid) db)) <> Ret Done.
Proof.
  intros D. unfold exec. cbn [body]. rewrite committed_map.
  destruct (submit_bid_spec db bid) as (r & db' & out & E & [[N _]|[-> S]]).
  { rewrite E in D. now elim N. }
  rewrite E. cbn [committed fst snd].
  destruct S as (h & n & m & ka & kb & Acc & ->).
  destruct Acc as (_ & _ & _ & _ & _ & _ & Hka & _ & Hkb).
  destruct (accepted_store_winner db bid n m ka kb Hka Hkb) as (W & _ & _).
  destruct (submit_bid_spec (accepted_store auction_kv db bid n m ka kb) bid)
    as (r' & db'' & out' & E' & [[N' _]|[-> S']]); rewrite E'; [exact N'|].
  destruct S' as (h' & n' & m' & ka' & kb' & Acc' & _).
  destruct Acc' as (_ & _ & _ & _ & Hw & _).
  rewrite W in Hw. cbn [value_eqb] in Hw. rewrite String.eqb_refl in Hw.
  discriminate Hw.
Qed.

(** X6: whatever the outcome of a bid, submitting it twice in a row
    leaves the store of submitting it once: a bid that was refused is
    refused again on the unchanged store, and a bid that was accepted is
    refused the second time, its bidder being the winning bidder. *)
Theorem submit_bid_twice (db : Store.t) (bid : Bid.t) :
  exec auction_kv (SubmitBid bid) (exec auction_kv (SubmitBid bid) db)
  = exec auction_kv (SubmitBid bid) db.
Proof.
  destruct (submit_bid_spec db bid) as (r & db' & out & E & [[N D]|[D S]]).
  - assert (X : exec auction_kv (SubmitBid bid) db = db).
    { unfold exec. cbn [body]. now rewrite committed_map, E. }
    now rewrite !X.
  - subst r.
    assert (D : returned (transactional (submit_bid auction_kv bid) db) = Ret Done)
      by now rewrite E.
    pose proof (submit_bid_again db bid D) as A.
    set (db1 := exec auction_kv (SubmitBid bid) db) in *.
    unfold exec at 1. cbn [body]. rewrite committed_map.
    destruct (submit_bid_spec db1 bid) as (r' & db'' & out' & E' & [[_ ->]|[-> _]]).
    + now rewrite E'.
    + rewrite E' in A. now elim A.
Qed.

(** X7: a bid that [submit_bid] accepts is the winning bid right after:
    [winning_bid] returns the name of its bidder and the text of its amount,
    and the same bid submitted again is not accepted. *)
Theorem accepted_bid_is_winning (db : Store.t) (bid : Bid.t) :
  returned (transactional (submit_bid auction_kv bid) db) = Ret Done ->
  transactional (winning_bid auction_kv (Bid.auction bid))
    (exec auction_kv (SubmitBid bid) db)
  = (Ret (Some (Bidder.name (Bid.bidder bid)), Some (PyFloat.str (Bid.value bid))),
     exec auction_kv (SubmitBid bid) db, []) /\
  returned (transactional (submit_bid auction_kv bid)
              (exec auction_kv (SubmitBid bid) db)) <> Ret Done.
Proof.
  intros D. split; [|now apply submit_bid_again].
  unfold exec. cbn [body]. rewrite committed_map.
  destruct (submit_bid_spec db bid) as (r & db' & out & E & [[N _]|[-> S]]).
  { rewrite E in D. now elim N. }
  rewrite E. cbn [committed fst snd].
  destruct S as (h & n & m & ka & kb & Acc & ->).
  destruct Acc as (Ha & _ & _ & _ & _ & _ & Hka & _ & Hkb).
  destruct (accepted_store_winner db bid n m ka kb Hka Hkb) as (W & H & K).
  destruct (Store.get (AK (Bid.auction bid)) db) as [st|] eqn:Est; [|now elim Ha].
  tx_open. tx_run. reflexivity.
Qed.

(** *** Bids on unknown auctions and by unknown bidders *)

Lemma exec_keeps_absent (o : op) (db : Store.t) (a : Auction.t) :
  o <> AddAuction a ->
  Store.get (AK a) db = None ->
  Store.get (AK a) (exec auction_kv o db) = None.
Proof.
  intros No H. unfold exec.
  destruct o as [a0|a0|a0|a0|b|bid|b|a0]; cbn [body]; rewrite committed_map.
  - destruct (Store.get (AK a0) db) as [st|] eqn:E.
    + rewrite add_auction_present by congruence. exact H.
    + rewrite add_auction_absent by exact E. cbn [committed fst snd].
      assert (N : AK a <> AK a0).
      { intros N. apply AK_inj in N. subst a0. now elim No. }
      store_get. now rewrite get_set_neq by exact N.
  - destruct (Store.get (AK a0) db) as [st|] eqn:E.
    + rewrite close_auction_present by congruence. cbn [committed fst snd].
      assert (N : AK a <> AK a0) by (intros N; rewrite N in H; congruence).
      now rewrite get_set_neq by exact N.
    + rewrite close_auction_absent by exact E. exact H.
  - now rewrite is_auction_open_reads.
  - now rewrite winning_bid_reads.
  - destruct (Store.get (BK b) db) as [st|] eqn:E.
    + rewrite add_bidder_present by congruence. exact H.
    + rewrite add_bidder_absent by exact E. cbn [committed fst snd].
      now store_get.
  - destruct (submit_bid_spec db bid) as (r & db' & out & -> & [[_ ->]|[_ S]]).
    + exact H.
    + destruct S as (h & n & m & ka & kb & Acc & ->).
      destruct Acc as (_ & _ & _ & _ & _ & _ & Hka & _ & Hkb).
      cbn [committed fst snd]. unfold accepted_store. now store_get.
  - exact H.
  - exact H.
Qed.

(** X8: only [add_auction] creates an auction. On an auction that is not
    in the store, and after any sequence of calls none of which is
    [add_auction] on it, [submit_bid] reports that the auction does not
    exist, prints its message and leaves the store as it is. *)
Theorem unknown_auction_rejects_bids (db : Store.t) (ops : list op) (bid : Bid.t) :
  Store.get (AK (Bid.auction bid)) db = None ->
  Forall (fun o => o <> AddAuction (Bid.auction bid)) ops ->
  transactional (submit_bid auction_kv bid) (exec_all auction_kv ops db)
  = (Ret NotFound, exec_all auction_kv ops db,
     [cannot_bid bid ++ ": does not exist"]).
Proof.
  intros H F.
  assert (O : Store.get (AK (Bid.auction bid)) (exec_all auction_kv ops db) = None).
  { revert db H. induction F as [|o ops No _ IH]; intros db H; [exact H|].
    cbn [exec_all fold_left]. apply IH. now apply exec_keeps_absent. }
  tx_open. tx_run. reflexivity.
Qed.

(** X9: [submit_bid] does not check that the bidder was added. When the bid
    passes every check on the auction but its bidder has no bid count in the
    store, the call raises [TypeError] at [int(tr[bidder_num_bids_key])]:
    the new highest bid has been printed, and nothing is committed. *)
Theorem submit_bid_unregistered (db : Store.t) (bid : Bid.t)
  (h : PyFloat.t) (w : string) (n : Z) :
  Store.get (AK (Bid.auction bid)) db = Some "OPEN" ->
  highest_bid auction_kv db (Bid.auction bid) = Some h ->
  PyFloat.lt h (Bid.value bid) = true ->
  Store.get (AW (Bid.auction bid)) db = Some w ->
  w <> Bidder.name (Bid.bidder bid) ->
  counter db (AN (Bid.auction bid)) = Some n -> 0 <= n < 2 ^ 64 - 1 ->
  Store.get (BN (Bid.bidder bid)) db = None ->
  transactional (submit_bid auction_kv bid) db
  = (Raise TypeError, db, [new_highest_line bid]).
Proof.
  unfold highest_bid, counter.
  set (a := Bid.auction bid). set (b := Bid.bidder bid).
  intros Ha Hh Hlt Hw Nw Hn Bn Hm.
  destruct (Store.get (AH a) db) as [hs|] eqn:Eh; [|discriminate].
  destruct (Store.get (AN a) db) as [ns|] eqn:En; [|discriminate].
  apply lt_not_le in Hlt.
  assert (Hwe : String.eqb w (Bidder.name b) = false) by now apply String.eqb_neq.
  destruct (encode_int_some (n + 1) ltac:(lia)) as (e & Ee).
  assert (Hka : Subspace.item_int (Subspace.item (bids_ss auction_kv) (AK a)) (n + 1)
                = Some (Subspace.item (bids_ss auction_kv) (AK a) ++ e)).
  { unfold Subspace.item_int. now rewrite Ee. }
  assert (Hka' : log_key auction_kv (AK a) (n + 1)
                 = Some (Subspace.item (bids_ss auction_kv) (AK a) ++ e)) by exact Hka.
  tx_open. fold a b. unfold new_highest_line. fold a b.
  tx_run. store_get. tx_run. reflexivity.
Qed.

(** *** The engine keeps to its directory *)

Lemma pack_in_directory (s : string) (t : list string) :
  Store.in_range (Subspace.range auction_kv)
    (Subspace.pack (Subspace.item auction_kv s) t) = true.
Proof.
  unfold Subspace.pack, Subspace.item. rewrite append_assoc.
  unfold Tuple.encode_bytes. cbn [append].
  apply in_range_inside. discriminate.
Qed.

Lemma log_in_directory (scope : string) (i : Z) (k : string) :
  log_key auction_kv scope i = Some k ->
  Store.in_range (Subspace.range auction_kv) k = true.
Proof.
  intros H. apply log_key_shape in H. destruct H as (e & _ & ->).
  unfold Subspace.item. rewrite append_assoc.
  unfold Tuple.encode_bytes at 1. cbn [append].
  apply in_range_inside. discriminate.
Qed.

Lemma get_set_outside (rg : string * string) (k k' v : string) (s : Store.t) :
  Store.in_range rg k = false -> Store.in_range rg k' = true ->
  Store.get k (Store.set k' v s) = Store.get k s.
Proof.
  intros O I. apply get_set_neq. intros ->. congruence.
Qed.

Lemma clear_range_set_in (rg : string * string) (k v : string) (s : Store.t) :
  Store.in_range rg k = true ->
  Store.clear_range rg (Store.set k v s) = Store.clear_range rg s.
Proof.
  intros I. unfold Store.clear_range.
  induction s as [|[k' v'] r IH]; cbn [Store.set filter fst].
  - now rewrite I.
  - destruct (String.compare k k') eqn:C; cbn [filter fst].
    + apply String.compare_eq_iff in C. subst k'. now rewrite I.
    + now rewrite I.
    + now rewrite IH.
Qed.

Ltac in_directory :=
  first [ unfold_keys; apply pack_in_directory
        | eapply log_in_directory; eassumption ].

Lemma exec_keeps_to_directory (o : op) (db : Store.t) :
  (forall k, Store.in_range (Subspace.range auction_kv) k = false ->
     Store.get k (exec auction_kv o db) = Store.get k db) /\
  Store.clear_range (Subspace.range auction_kv) (exec auction_kv o db)
  = Store.clear_range (Subspace.range auction_kv) db.
Proof.
  unfold exec.
  destruct o as [a0|a0|a0|a0|b|bid|b|a0]; cbn [body]; rewrite committed_map.
  - destruct (Store.get (AK a0) db) as [st|] eqn:E.
    + rewrite add_auction_present by congruence. now split.
    + rewrite add_auction_absent by exact E. cbn [committed fst snd]. split.
      * intros k O.
        now rewrite !(get_set_outside _ k) by (exact O || in_directory).
      * now rewrite !clear_range_set_in by in_directory.
  - destruct (Store.get (AK a0) db) as [st|] eqn:E.
    + rewrite close_auction_present by congruence. cbn [committed fst snd]. split.
      * intros k O.
        now rewrite !(get_set_outside _ k) by (exact O || in_directory).
      * now rewrite !clear_range_set_in by in_directory.
    + rewrite close_auction_absent by exact E. now split.
  - rewrite is_auction_open_reads. now split.
  - rewrite winning_bid_reads. now split.
  - destruct (Store.get (BK b) db) as [st|] eqn:E.
    + rewrite add_bidder_present by congruence. now split.
    + rewrite add_bidder_absent by exact E. cbn [committed fst snd]. split.
      * intros k O.
        now rewrite !(get_set_outside _ k) by (exact O || in_directory).
      * now rewrite !clear_range_set_in by in_directory.
  - destruct (submit_bid_spec db bid) as (r & db' & out & -> & [[_ ->]|[_ S]]);
      [now split|].
    destruct S as (h & n & m & ka & kb & Acc & ->).
    destruct Acc as (_ & _ & _ & _ & _ & _ & Hka & _ & Hkb).
    cbn [committed fst snd]. unfold accepted_store. split.
    + intros k O.
      now rewrite !(get_set_outside _ k) by (exact O || in_directory).
    + now rewrite !clear_range_set_in by in_directory.
  - now split.
  - now split.
Qed.

(** X10: the engine keeps to its directory. No sequence of calls writes a
    key outside the range of [auction_kv]: the keys outside it hold what
    they held, so that clearing the range, as the program does before a
    simulation ([del db[auction_kv.range()]]), leaves what clearing it
    before the calls would have left; after any calls on an empty store it
    leaves the empty store. *)
Theorem engine_keeps_to_directory (ops : list op) (db : Store.t) :
  (forall k, Store.in_range (Subspace.range auction_kv) k = false ->
     Store.get k (exec_all auction_kv ops db) = Store.get k db) /\
  Store.clear_range (Subspace.range auction_kv) (exec_all auction_kv ops db)
  = Store.clear_range (Subspace.range auction_kv) db /\
  Store.clear_range (Subspace.range auction_kv)
    (exec_all auction_kv ops Store.empty) = Store.empty.
Proof.
  assert (G : forall db0,
    (forall k, Store.in_range (Subspace.range auction_kv) k = false ->
       Store.get k (exec_all auction_kv ops db0) = Store.get k db0) /\
    Store.clear_range (Subspace.range auction_kv) (exec_all auction_kv ops db0)
    = Store.clear_range (Subspace.range auction_kv) db0).
  { induction ops as [|o ops IH]; intros db0; [now split|].
    cbn [exec_all fold_left].
    destruct (IH (exec auction_kv o db0)) as [G1 G2].
    destruct (exec_keeps_to_directory o db0) as [E1 E2].
    split.
    - intros k O.
      change (Store.get k (exec_all auction_kv ops (exec auction_kv o db0))
              = Store.get k db0).
      now rewrite G1, E1.
    - change (Store.clear_range (Subspace.range auction_kv)
                (exec_all auction_kv ops (exec auction_kv o db0))
              = Store.clear_range (Subspace.range auction_kv) db0).
      now rewrite G2, E2. }
  destruct (G db) as [G1 G2]. split; [exact G1|]. split; [exact G2|].
  now rewrite (proj2 (G Store.empty)).
Qed.

(** *** The key layout *)

Lemma log_key_index (s s' : string) (i j : Z) (k : string) :
  0 < i -> 0 < j ->
  log_key auction_kv s i = Some k -> log_key auction_kv s' j = Some k ->
  s = s' /\ i = j.
Proof.
  intros Pi Pj H H'.
  pose proof (log_key_sep _ _ _ _ _ _ H H') as <-. split; [reflexivity|].
  apply log_key_shape in H. destruct H as (e & Ei & ->).
  apply log_key_shape in H'. destruct H' as (e' & Ej & H').
  do 2 apply append_inv_head in H'. subst e'.
  destruct (Z.lt_trichotomy i j) as [L|[E|L]]; [|exact E|].
  - pose proof (encode_int_lt i j e e Pi L Ei Ej) as C.
    rewrite compare_refl in C. discriminate C.
  - pose proof (encode_int_lt j i e e Pj L Ej Ei) as C.
    rewrite compare_refl in C. discriminate C.
Qed.

(** X11: the key layout is injective. Distinct auctions have distinct
    status, highest-bid, count and winner keys, and distinct bidders have
    distinct record and count keys; the keys of different fields never
    meet, nor do keys of the auctions subspace, of the bidders subspace and
    of the bid logs; and a key of a bid log determines its log and, for the
    entries 1, 2, ... the engine writes, its entry. *)
Theorem key_layout_injective :
  (forall a a', a <> a' ->
     AK a <> AK a' /\ AH a <> AH a' /\ AN a <> AN a' /\ AW a <> AW a') /\
  (forall a a',
     AK a <> AH a' /\ AK a <> AN a' /\ AK a <> AW a' /\
     AH a <> AN a' /\ AH a <> AW a' /\ AN a <> AW a') /\
  (forall b b', b <> b' -> BK b <> BK b' /\ BN b <> BN b') /\
  (forall b b', BK b <> BN b') /\
  (forall t t',
     Subspace.pack (auctions_ss auction_kv) t
     <> Subspace.pack (bidders_ss auction_kv) t') /\
  (forall scope i k t,
     log_key auction_kv scope i = Some k ->
     Subspace.pack (auctions_ss auction_kv) t <> k /\
     Subspace.pack (bidders_ss auction_kv) t <> k) /\
  (forall s s' i j k,
     0 < i -> 0 < j ->
     log_key auction_kv s i = Some k -> log_key auction_kv s' j = Some k ->
     s = s' /\ i = j) /\
  (forall a b i j k k',
     log_key auction_kv (AK a) i = Some k ->
     log_key auction_kv (BK b) j = Some k' ->
     k <> k').
Proof.
  split; [|split; [|split; [|split; [|split; [|split; [|split]]]]]].
  - intros a a' N. split; [|split; [|split]].
    + intros E. now apply AK_inj in E.
    + now apply AH_neq.
    + now apply AN_neq.
    + now apply AW_neq.
  - intros a a'.
    split; [|split; [|split; [|split; [|split]]]];
      unfold_keys; intros E; apply auctions_key_inj in E; discriminate E.
  - intros b b' N. split; intros E; [apply BK_inj in E | apply BN_inj in E];
      now elim N.
  - apply BK_BN_neq.
  - apply auctions_bidders_neq.
  - intros scope i k t H. split;
      [now apply auctions_log_neq with scope i
      | now apply bidders_log_neq with scope i].
  - apply log_key_index.
  - apply auction_bidder_log_neq.
Qed.

(** *** Calls on other auctions *)

Lemma get_range_set_outside (rg : string * string) (k v : string) (s : Store.t) :
  Store.in_range rg k = false ->
  Store.get_range rg (Store.set k v s) = Store.get_range rg s.
Proof.
  intros O. unfold Store.get_range.
  induction s as [|[k' v'] r IH]; cbn [Store.set filter fst].
  - now rewrite O.
  - destruct (String.compare k k') eqn:C; cbn [filter fst].
    + apply String.compare_eq_iff in C. subst k'. now rewrite O.
    + now rewrite O.
    + now rewrite IH.
Qed.

Lemma is_auction_open_returns (db : Store.t) (a : Auction.t) :
  transactional (is_auction_open auction_kv a) db
  = (match Store.get (AK a) db with
     | Some st => Ret (String.eqb st "OPEN")
     | None => Raise (NameError "bid")
     end, db, []).
Proof. tx_open. destruct (Store.get (AK a) db) eqn:E; tx_run; reflexivity. Qed.

Lemma winning_bid_returns (db : Store.t) (a : Auction.t) :
  transactional (winning_bid auction_kv a) db
  = (match Store.get (AK a) db with
     | Some _ => Ret (Store.get (AW a) db, Store.get (AH a) db)
     | None => Raise (NameError "bid")
     end, db, []).
Proof. tx_open. destruct (Store.get (AK a) db) eqn:E; tx_run; reflexivity. Qed.

Ltac store_get_hyp :=
  repeat first
    [ rewrite get_set_neq by assumption
    | rewrite get_set_neq by key_neq ].

Ltac range_outside := repeat (rewrite get_range_set_outside by off_log).

Lemma exec_leaves_auction (a : Auction.t) (o : op) (db : Store.t) :
  written_auction o <> Some a ->
  Store.get (AK a) (exec auction_kv o db) = Store.get (AK a) db /\
  Store.get (AH a) (exec auction_kv o db) = Store.get (AH a) db /\
  Store.get (AW a) (exec auction_kv o db) = Store.get (AW a) db /\
  Store.get (AN a) (exec auction_kv o db) = Store.get (AN a) db /\
  Store.get_range (Subspace.range (Subspace.item (bids_ss auction_kv) (AK a)))
    (exec auction_kv o db)
  = Store.get_range (Subspace.range (Subspace.item (bids_ss auction_kv) (AK a))) db.
Proof.
  intros W. unfold exec.
  destruct o as [a0|a0|a0|a0|b|bid|b|a0]; cbn [body written_auction] in *;
    rewrite committed_map.
  - assert (Q : a <> a0) by congruence.
    assert (NK : AK a <> AK a0) by (intros N; now apply AK_inj in N).
    assert (NH : AH a <> AH a0) by now apply AH_neq.
    assert (NW : AW a <> AW a0) by now apply AW_neq.
    assert (NN : AN a <> AN a0) by now apply AN_neq.
    destruct (Store.get (AK a0) db) as [st|] eqn:E.
    + rewrite add_auction_present by congruence. now repeat split.
    + rewrite add_auction_absent by exact E. cbn [committed fst snd].
      split; [|split; [|split; [|split]]]; try (now store_get_hyp).
      now range_outside.
  - assert (Q : a <> a0) by congruence.
    assert (NK : AK a <> AK a0) by (intros N; now apply AK_inj in N).
    destruct (Store.get (AK a0) db) as [st|] eqn:E.
    + rewrite close_auction_present by congruence. cbn [committed fst snd].
      split; [|split; [|split; [|split]]]; try (now store_get_hyp).
      now range_outside.
    + rewrite close_auction_absent by exact E. now repeat split.
  - rewrite is_auction_open_reads. now repeat split.
  - rewrite winning_bid_reads. now repeat split.
  - destruct (Store.get (BK b) db) as [st|] eqn:E.
    + rewrite add_bidder_present by congruence. now repeat split.
    + rewrite add_bidder_absent by exact E. cbn [committed fst snd].
      split; [|split; [|split; [|split]]]; try (now store_get_hyp).
      now range_outside.
  - assert (Q : a <> Bid.auction bid) by congruence.
    assert (Q' : Bid.auction bid <> a) by congruence.
    assert (NH : AH a <> AH (Bid.auction bid)) by now apply AH_neq.
    assert (NW : AW a <> AW (Bid.auction bid)) by now apply AW_neq.
    assert (NN : AN a <> AN (Bid.auction bid)) by now apply AN_neq.
    destruct (submit_bid_spec db bid) as (r & db' & out & -> & [[_ ->]|[_ S]]);
      [now repeat split|].
    destruct S as (h & n & m & ka & kb & Acc & ->).
    destruct Acc as (_ & _ & _ & _ & _ & _ & Hka & _ & Hkb).
    cbn [committed fst snd]. unfold accepted_store.
    split; [|split; [|split; [|split]]]; try (now store_get_hyp).
    now range_outside.
  - now repeat split.
  - now repeat split.
Qed.

(** X12: auctions do not interfere. Calls that add, close or bid on other
    auctions, that add bidders or that only read leave an auction as it is:
    after any sequence of them [is_auction_open], [winning_bid] and
    [bids_for_auction] return what they returned before, and the auction's
    bid count is the same. *)
Theorem other_calls_leave_auction (a : Auction.t) (ops : list op) (db : Store.t) :
  Forall (fun o => written_auction o <> Some a) ops ->
  returned (transactional (is_auction_open auction_kv a) (exec_all auction_kv ops db))
  = returned (transactional (is_auction_open auction_kv a) db) /\
  returned (transactional (winning_bid auction_kv a) (exec_all auction_kv ops db))
  = returned (transactional (winning_bid auction_kv a) db) /\
  returned (transactional (bids_for_auction auction_kv a) (exec_all auction_kv ops db))
  = returned (transactional (bids_for_auction auction_kv a) db) /\
  Store.get (AN a) (exec_all auction_kv ops db) = Store.get (AN a) db.
Proof.
  intros F.
  assert (G :
    Store.get (AK a) (exec_all auction_kv ops db) = Store.get (AK a) db /\
    Store.get (AH a) (exec_all auction_kv ops db) = Store.get (AH a) db /\
    Store.get (AW a) (exec_all auction_kv ops db) = Store.get (AW a) db /\
    Store.get (AN a) (exec_all auction_kv ops db) = Store.get (AN a) db /\
    Store.get_range (Subspace.range (Subspace.item (bids_ss auction_kv) (AK a)))
      (exec_all auction_kv ops db)
    = Store.get_range (Subspace.range (Subspace.item (bids_ss auction_kv) (AK a))) db).
  { revert db. induction F as [|o ops W _ IH]; intros db; [now repeat split|].
    cbn [exec_all fold_left].
    change (fold_left (fun s o0 => exec auction_kv o0 s) ops (exec auction_kv o db))
      with (exec_all auction_kv ops (exec auction_kv o db)).
    destruct (IH (exec auction_kv o db)) as (I1 & I2 & I3 & I4 & I5).
    destruct (exec_leaves_auction a o db W) as (E1 & E2 & E3 & E4 & E5).
    rewrite I1, I2, I3, I4, I5. now repeat split. }
  destruct G as (G1 & G2 & G3 & G4 & G5).
  rewrite !is_auction_open_returns, !winning_bid_returns.
  cbn [returned fst]. rewrite G1, G2, G3.
  split; [reflexivity|]. split; [reflexivity|]. split; [|exact G4].
  change (Ret (Store.get_range
                 (Subspace.range (Subspace.item (bids_ss auction_kv) (AK a)))
                 (exec_all auction_kv ops db))
          = Ret (Store.get_range
                   (Subspace.range (Subspace.item (bids_ss auction_kv) (AK a))) db)).
  now rewrite G5.
Qed.

(** *** The bid log of a bidder *)

Lemma bidder_eqb_eq (b b' : Bidder.t) : Bidder.eqb b b' = true -> b = b'.
Proof.
  unfold Bidder.eqb. intros E. apply String.eqb_eq in E.
  destruct b, b'. cbn in E. now subst.
Qed.

Lemma bidder_eqb_neq (b b' : Bidder.t) : Bidder.eqb b b' = false -> b <> b'.
Proof.
  unfold Bidder.eqb. intros E ->. now rewrite String.eqb_refl in E.
Qed.

Lemma BK_neq (b b' : Bidder.t) : b <> b' -> BK b <> BK b'.
Proof. intros N E. now apply BK_inj in E. Qed.

Lemma BN_neq (b b' : Bidder.t) : b <> b' -> BN b <> BN b'.
Proof. intros N E. now apply BN_inj in E. Qed.

Lemma BN_BK_neq (b b' : Bidder.t) : BN b <> BK b'.
Proof. apply not_eq_sym. apply BK_BN_neq. Qed.

Ltac off_bidder_log :=
  first
    [ unfold_keys; apply auctions_off_range
    | unfold_keys; apply bidders_off_range
    | eapply log_off_range; [eassumption|];
      first [ apply auctions_bidders_neq
            | intros ?E; apply BK_inj in E; congruence ] ].

Ltac range_off_bidder :=
  repeat (rewrite get_range_set_off by (sorted_hyp || off_bidder_log)).

Ltac bidder_get :=
  repeat first
    [ rewrite get_set_eq
    | rewrite get_set_neq by assumption
    | rewrite get_set_neq by apply BK_BN_neq
    | rewrite get_set_neq by apply BN_BK_neq
    | rewrite get_set_neq by key_neq ].

Lemma bidder_logged_add_auction (b : Bidder.t) (a0 : Auction.t) (db : Store.t)
  (bids : list Bid.t) :
  bidder_logged auction_kv b db bids ->
  bidder_logged auction_kv b (exec auction_kv (AddAuction a0) db) bids.
Proof.
  intros L. unfold exec. cbn [body]. rewrite committed_map.
  destruct (Store.get (AK a0) db) as [st|] eqn:E.
  - rewrite add_auction_present by congruence. exact L.
  - rewrite add_auction_absent by exact E. cbn [committed fst snd].
    destruct L as (S & R & L0 & Ln).
    split; [sorted_hyp|]. split; [range_off_bidder; exact R|].
    split; bidder_get; assumption.
Qed.

Lemma bidder_logged_close_auction (b : Bidder.t) (a0 : Auction.t) (db : Store.t)
  (bids : list Bid.t) :
  bidder_logged auction_kv b db bids ->
  bidder_logged auction_kv b (exec auction_kv (CloseAuction a0) db) bids.
Proof.
  intros L. unfold exec. cbn [body]. rewrite committed_map.
  destruct (Store.get (AK a0) db) as [st|] eqn:E.
  - rewrite close_auction_present by congruence. cbn [committed fst snd].
    destruct L as (S & R & L0 & Ln).
    split; [sorted_hyp|]. split; [range_off_bidder; exact R|].
    split; bidder_get; assumption.
  - rewrite close_auction_absent by exact E. exact L.
Qed.

Lemma bidder_logged_add_bidder (b b0 : Bidder.t) (db : Store.t) (bids : list Bid.t) :
  bidder_logged auction_kv b db bids ->
  bidder_logged auction_kv b (exec auction_kv (AddBidder b0) db) bids.
Proof.
  intros L. unfold exec. cbn [body]. rewrite committed_map.
  destruct (Store.get (BK b0) db) as [st|] eqn:E.
  - rewrite add_bidder_present by congruence. exact L.
  - rewrite add_bidder_absent by exact E. cbn [committed fst snd].
    destruct L as (S & R & L0 & Ln).
    split; [sorted_hyp|]. split; [range_off_bidder; exact R|].
    destruct (Bidder.eqb b0 b) eqn:Q.
    + apply bidder_eqb_eq in Q. subst b0.
      destruct (L0 E) as [-> _]. split.
      * bidder_get. discriminate.
      * intros _. now bidder_get.
    + apply bidder_eqb_neq in Q.
      assert (Q' : b <> b0) by congruence.
      assert (NK : BK b <> BK b0) by now apply BK_neq.
      assert (NN : BN b <> BN b0) by now apply BN_neq.
      split; bidder_get; assumption.
Qed.

Lemma bidder_logged_other_bid (b : Bidder.t) (bid : Bid.t) (db : Store.t)
  (bids : list Bid.t) :
  Bid.bidder bid <> b ->
  bidder_logged auction_kv b db bids ->
  bidder_logged auction_kv b (exec auction_kv (SubmitBid bid) db) bids.
Proof.
  intros N L. unfold exec. cbn [body]. rewrite committed_map.
  destruct (submit_bid_spec db bid) as (r & db' & out & -> & [[_ ->]|[_ S]]);
    [exact L|].
  destruct S as (h & n & m & ka & kb & Acc & ->).
  destruct Acc as (_ & _ & _ & _ & _ & _ & Hka & _ & Hkb).
  assert (N' : b <> Bid.bidder bid) by congruence.
  assert (NN : BN b <> BN (Bid.bidder bid)) by now apply BN_neq.
  cbn [committed fst snd]. unfold accepted_store.
  destruct L as (S & R & L0 & Ln).
  split; [sorted_hyp|]. split; [range_off_bidder; exact R|].
  split; bidder_get; assumption.
Qed.

Lemma bidder_logged_rejected_bid (b : Bidder.t) (bid : Bid.t) (db : Store.t)
  (bids : list Bid.t) :
  is_done (returned (transactional (submit_bid auction_kv bid) db)) = false ->
  bidder_logged auction_kv b db bids ->
  bidder_logged auction_kv b (exec auction_kv (SubmitBid bid) db) bids.
Proof.
  intros R L. unfold exec. cbn [body]. rewrite committed_map.
  destruct (submit_bid_spec db bid) as (r & db' & out & E & [[_ ->]|[-> _]]).
  - now rewrite E.
  - rewrite E in R. discriminate.
Qed.

(** An accepted bid is written at the end of the bid log of its bidder, at
    the entry of the bidder's new bid count. *)
Lemma bidder_logged_accepted_bid (bid : Bid.t) (db : Store.t) (bids : list Bid.t) :
  bidder_logged auction_kv (Bid.bidder bid) db bids ->
  is_done (returned (transactional (submit_bid auction_kv bid) db)) = true ->
  bidder_logged auction_kv (Bid.bidder bid) (exec auction_kv (SubmitBid bid) db)
    (bids ++ [bid]).
Proof.
  intros L R. unfold exec. cbn [body]. rewrite committed_map.
  destruct (submit_bid_spec db bid) as (r & db' & out & E & [[N _]|[-> S]]).
  { rewrite E in R. cbn [returned fst] in R. destruct r as [[]|]; try discriminate.
    now elim N. }
  rewrite E. cbn [committed fst snd].
  destruct S as (h & n & m & ka & kb & Acc & ->).
  destruct Acc as (_ & _ & _ & _ & _ & _ & Hka & Hm & Hkb).
  destruct L as (S & Rg & L0 & Ln).
  assert (P : Store.get (BK (Bid.bidder bid)) db <> None).
  { intros A. destruct (L0 A) as [_ B]. unfold counter in Hm. now rewrite B in Hm. }
  specialize (Ln P). unfold counter in Hm. rewrite Ln in Hm.
  rewrite int_of_str in Hm by lia. injection Hm as <-.
  unfold accepted_store.
  split; [sorted_hyp|]. split; [|split].
  - rewrite get_range_set_in by (sorted_hyp || (eapply log_in_range; eassumption)).
    range_off_bidder. rewrite Rg.
    rewrite set_above
      by (apply log_rows_below with (j := Z.of_nat (List.length bids) + 1);
          [lia | lia | exact Hkb]).
    rewrite log_rows_app.
    replace (1 + Z.of_nat (List.length bids)) with (Z.of_nat (List.length bids) + 1)
      by lia.
    unfold log_entry_key. now rewrite Hkb.
  - bidder_get. intros A. now elim P.
  - intros _. bidder_get. rewrite length_app. cbn [List.length].
    do 2 f_equal. lia.
Qed.

Lemma bidder_logged_run (b : Bidder.t) (ops : list op) :
  forall (db : Store.t) (bids : list Bid.t),
    bidder_logged auction_kv b db bids ->
    bidder_logged auction_kv b (exec_all auction_kv ops db)
      (bids ++ accepted_from auction_kv b ops db).
Proof.
  induction ops as [|o ops IH]; intros db bids L.
  - cbn. now rewrite app_nil_r.
  - cbn [accepted_from exec_all fold_left].
    change (fold_left (fun s o0 => exec auction_kv o0 s) ops (exec auction_kv o db))
      with (exec_all auction_kv ops (exec auction_kv o db)).
    destruct o as [a0|a0|a0|a0|b0|bid|b0|a0]; cbn [app].
    + apply IH. now apply bidder_logged_add_auction.
    + apply IH. now apply bidder_logged_close_auction.
    + apply IH. unfold exec. cbn [body].
      now rewrite committed_map, is_auction_open_reads.
    + apply IH. unfold exec. cbn [body].
      now rewrite committed_map, winning_bid_reads.
    + apply IH. now apply bidder_logged_add_bidder.
    + destruct (Bidder.eqb (Bid.bidder bid) b) eqn:Q; cbn [andb].
      * apply bidder_eqb_eq in Q. subst b.
        destruct (is_done _) eqn:R; cbn [app].
        -- match goal with
           | |- bidder_logged _ _ _ (bids ++ bid :: ?r)%list =>
               replace (bids ++ bid :: r)%list with ((bids ++ [bid]) ++ r)%list
                 by (now rewrite <- app_assoc)
           end.
           apply IH. now apply bidder_logged_accepted_bid.
        -- apply IH. now apply bidder_logged_rejected_bid.
      * apply bidder_eqb_neq in Q. cbn [app].
        apply IH. now apply bidder_logged_other_bid.
    + apply IH. exact L.
    + apply IH. exact L.
Qed.

(** X13: after any sequence of calls on an empty store, [bids_for_bidder]
    returns the bids of the bidder that were accepted, on whatever auction,
    in the order of acceptance, at the entries 1, 2, ... of the bidder's
    log; the bid count of a registered bidder is their number, and a bidder
    that is not registered has no count. *)
Theorem bidder_log_lists_accepted_bids (b : Bidder.t) (ops : list op) :
  returned (transactional (bids_for_bidder auction_kv b)
              (exec_all auction_kv ops Store.empty))
  = Ret (log_rows auction_kv (BK b) 1 (accepted_from auction_kv b ops Store.empty)) /\
  counter (exec_all auction_kv ops Store.empty) (BN b)
  = match Store.get (BK b) (exec_all auction_kv ops Store.empty) with
    | Some _ =>
        Some (Z.of_nat (List.length (accepted_from auction_kv b ops Store.empty)))
    | None => None
    end.
Proof.
  assert (L0 : bidder_logged auction_kv b Store.empty []).
  { split; [apply empty_sorted|]. split; [reflexivity|]. split; [now split|].
    intros P. now elim P. }
  destruct (bidder_logged_run b ops Store.empty [] L0) as (_ & R & L1 & Ln).
  cbn [app] in R, L1, Ln. split.
  - change (Ret (Store.get_range
                   (Subspace.range (Subspace.item (bids_ss auction_kv) (BK b)))
                   (exec_all auction_kv ops Store.empty)) =
            Ret (log_rows auction_kv (BK b) 1
                   (accepted_from auction_kv b ops Store.empty))).
    now rewrite R.
  - unfold counter.
    destruct (Store.get (BK b) (exec_all auction_kv ops Store.empty)) as [st|] eqn:E.
    + rewrite Ln by discriminate. apply int_of_str. lia.
    + destruct (L1 eq_refl) as [_ ->]. reflexivity.
Qed.

Lemma log_rows_length (scope : string) (bids : list Bid.t) : forall i,
  List.length (log_rows auction_kv scope i bids) = List.length bids.
Proof.
  induction bids as [|b0 bids IH]; intros i; cbn [log_rows List.length];
    [reflexivity | now rewrite IH].
Qed.

(** X14: the bid count of an auction counts its accepted bids. After any
    sequence of calls on an empty store, the count stored for an auction of
    the store is the number of bids accepted on it, an auction that is not
    in the store has none, and the auction's bid log has as many rows. *)
Theorem num_bids_counts_accepted_bids (a : Auction.t) (ops : list op) :
  match Store.get (AK a) (exec_all auction_kv ops Store.empty) with
  | Some _ =>
      counter (exec_all auction_kv ops Store.empty) (AN a)
      = Some (Z.of_nat (List.length (accepted_bids auction_kv a ops Store.empty)))
  | None => accepted_bids auction_kv a ops Store.empty = []
  end /\
  List.length
    (Store.get_range (Subspace.range (Subspace.item (bids_ss auction_kv) (AK a)))
       (exec_all auction_kv ops Store.empty))
  = List.length (accepted_bids auction_kv a ops Store.empty).
Proof.
  assert (L0 : logged auction_kv a Store.empty []).
  { split; [apply empty_sorted|]. split; [reflexivity|]. split; [reflexivity|].
    intros P. now elim P. }
  destruct (logged_run a ops Store.empty [] L0) as (_ & R & L1 & Ln).
  cbn [app] in R, L1, Ln. split.
  - destruct (Store.get (AK a) (exec_all auction_kv ops Store.empty)) as [st|] eqn:E.
    + unfold counter. rewrite Ln by discriminate. apply int_of_str. lia.
    + now apply L1.
  - rewrite R. apply log_rows_length.
Qed.

(** *** First bids, amounts that are not numbers, bidders never added *)

Lemma accepts_intro (db : Store.t) (bid : Bid.t) (h : PyFloat.t) (w : string)
  (n m : Z) :
  Store.get (AK (Bid.auction bid)) db = Some "OPEN" ->
  highest_bid auction_kv db (Bid.auction bid) = Some h ->
  PyFloat.le (Bid.value bid) h = false ->
  Store.get (AW (Bid.auction bid)) db = Some w ->
  w <> Bidder.name (Bid.bidder bid) ->
  counter db (AN (Bid.auction bid)) = Some n -> 0 <= n < 2 ^ 64 - 1 ->
  counter db (BN (Bid.bidder bid)) = Some m -> 0 <= m < 2 ^ 64 - 1 ->
  exists ka kb, accepts auction_kv db bid h n m ka kb.
Proof.
  intros Ha Hh Hle Hw Nw Hn Bn Hm Bm.
  destruct (encode_int_some (n + 1) ltac:(lia)) as (e & Ee).
  destruct (encode_int_some (m + 1) ltac:(lia)) as (e' & Ee').
  exists (Subspace.item (bids_ss auction_kv) (AK (Bid.auction bid)) ++ e),
         (Subspace.item (bids_ss auction_kv) (BK (Bid.bidder bid)) ++ e').
  unfold accepts. rewrite Ha, Hw. cbn [value_eqb].
  split; [discriminate|]. split; [reflexivity|]. split; [exact Hh|].
  split; [exact Hle|]. split; [now apply String.eqb_neq|].
  split; [exact Hn|]. split; [|split; [exact Hm|]].
  - unfold log_key, Subspace.item_int. now rewrite Ee.
  - unfold log_key, Subspace.item_int. now rewrite Ee'.
Qed.

(** X15: the first bid on an auction. On an auction and a bidder just
    added, a bid is refused as too low when its amount is zero or less (the
    highest bid starts at 0), refused as already winning when the bidder's
    name is the empty string (the winning bidder starts as ''), and
    accepted otherwise. *)
Theorem first_bid (db : Store.t) (a : Auction.t) (b : Bidder.t) (v : PyFloat.t) :
  Store.get (AK a) db = None ->
  Store.get (BK b) db = None ->
  returned
    (transactional
       (submit_bid auction_kv {| Bid.bidder := b; Bid.auction := a; Bid.value := v |})
       (exec_all auction_kv [AddAuction a; AddBidder b] db))
  = Ret (if PyFloat.le v (S754_zero false) then BidTooLow
         else if String.eqb (Bidder.name b) "" then AlreadyWinning
         else Done).
Proof.
  intros Ha Hb.
  set (bid := {| Bid.bidder := b; Bid.auction := a; Bid.value := v |}).
  cbn [exec_all fold_left]. unfold exec. cbn [body]. rewrite !committed_map.
  rewrite (add_auction_absent db a) by exact Ha. cbn [committed fst snd].
  rewrite add_bidder_absent by (store_get; exact Hb).
  cbn [committed fst snd].
  set (db2 := Store.set (BN b) "0" _).
  assert (Gk : Store.get (AK (Bid.auction bid)) db2 = Some "OPEN")
    by (unfold db2; cbn [bid Bid.auction]; now store_get).
  assert (Gh : Store.get (AH (Bid.auction bid)) db2 = Some "0")
    by (unfold db2; cbn [bid Bid.auction]; now store_get).
  assert (Gw : Store.get (AW (Bid.auction bid)) db2 = Some "")
    by (unfold db2; cbn [bid Bid.auction]; now store_get).
  assert (Gn : Store.get (AN (Bid.auction bid)) db2 = Some "0")
    by (unfold db2; cbn [bid Bid.auction]; now store_get).
  assert (Gb : Store.get (BN (Bid.bidder bid)) db2 = Some "0")
    by (unfold db2; cbn [bid Bid.bidder]; now store_get).
  change v with (Bid.value bid).
  change (Bidder.name b) with (Bidder.name (Bid.bidder bid)).
  destruct (PyFloat.le (Bid.value bid) (S754_zero false)) eqn:Hle.
  - now rewrite (submit_bid_low db2 bid "OPEN" "0" (S754_zero false)).
  - destruct (String.eqb (Bidder.name (Bid.bidder bid)) "") eqn:Hn.
    + apply String.eqb_eq in Hn.
      rewrite (submit_bid_winning db2 bid "OPEN" "0" (S754_zero false));
        try (reflexivity || assumption).
      now rewrite Hn.
    + apply String.eqb_neq in Hn.
      destruct (accepts_intro db2 bid (S754_zero false) "" 0 0) as (ka & kb & Acc);
        try (assumption || lia).
      * unfold highest_bid. now rewrite Gh.
      * congruence.
      * unfold counter. now rewrite Gn.
      * unfold counter. now rewrite Gb.
      * now rewrite (submit_bid_accepted db2 bid _ _ _ _ _ Acc).
Qed.

Lemma nan_not_le (v h : PyFloat.t) : PyFloat.is_nan v = true -> PyFloat.le v h = false.
Proof. destruct v; try discriminate. reflexivity. Qed.

Lemma not_le_nan (v : PyFloat.t) : PyFloat.le v S754_nan = false.
Proof. now destruct v. Qed.

(** X16: amounts are not checked to be numbers. A bid whose amount is NaN
    passes the comparison with the highest bid ([nan <= h] is false): for
    an open auction and a registered bidder who is not the winning bidder it
    is accepted, and the highest bid of the auction becomes NaN. *)
Theorem nan_bid_is_accepted (db : Store.t) (bid : Bid.t)
  (h : PyFloat.t) (w : string) (n m : Z) :
  PyFloat.is_nan (Bid.value bid) = true ->
  Store.get (AK (Bid.auction bid)) db = Some "OPEN" ->
  highest_bid auction_kv db (Bid.auction bid) = Some h ->
  Store.get (AW (Bid.auction bid)) db = Some w ->
  w <> Bidder.name (Bid.bidder bid) ->
  counter db (AN (Bid.auction bid)) = Some n -> 0 <= n < 2 ^ 64 - 1 ->
  counter db (BN (Bid.bidder bid)) = Some m -> 0 <= m < 2 ^ 64 - 1 ->
  returned (transactional (submit_bid auction_kv bid) db) = Ret Done /\
  highest_bid auction_kv (exec auction_kv (SubmitBid bid) db) (Bid.auction bid)
  = Some S754_nan.
Proof.
  intros Hv Ha Hh Hw Nw Hn Bn Hm Bm.
  destruct (accepts_intro db bid h w n m) as (ka & kb & Acc); try assumption.
  { now apply nan_not_le. }
  unfold exec. cbn [body]. rewrite committed_map.
  rewrite (submit_bid_accepted db bid _ _ _ _ _ Acc).
  cbn [returned committed fst snd]. split; [reflexivity|].
  destruct Acc as (_ & _ & _ & _ & _ & _ & Hka & _ & Hkb).
  destruct (accepted_store_winner db bid n m ka kb Hka Hkb) as (_ & H & _).
  unfold highest_bid. rewrite H.
  destruct (Bid.value bid); try discriminate. reflexivity.
Qed.

(** X17: once the highest bid of an auction is NaN, amounts no longer
    matter: every bid on it by a registered bidder other than the winning
    bidder is accepted, whatever its amount ([v <= nan] is false). *)
Theorem nan_highest_bid_accepts_any_amount (db : Store.t) (bid : Bid.t)
  (w : string) (n m : Z) :
  Store.get (AK (Bid.auction bid)) db = Some "OPEN" ->
  highest_bid auction_kv db (Bid.auction bid) = Some S754_nan ->
  Store.get (AW (Bid.auction bid)) db = Some w ->
  w <> Bidder.name (Bid.bidder bid) ->
  counter db (AN (Bid.auction bid)) = Some n -> 0 <= n < 2 ^ 64 - 1 ->
  counter db (BN (Bid.bidder bid)) = Some m -> 0 <= m < 2 ^ 64 - 1 ->
  transactional (submit_bid auction_kv bid) db
  = (Ret Done,
     exec auction_kv (SubmitBid bid) db,
     [new_highest_line bid]).
Proof.
  intros Ha Hh Hw Nw Hn Bn Hm Bm.
  destruct (accepts_intro db bid S754_nan w n m) as (ka & kb & Acc); try assumption.
  { apply not_le_nan. }
  unfold exec. cbn [body]. rewrite committed_map.
  now rewrite (submit_bid_accepted db bid _ _ _ _ _ Acc).
Qed.

Lemma exec_keeps_unregistered (o : op) (db : Store.t) (b : Bidder.t) :
  o <> AddBidder b ->
  Store.get (BN b) db = None ->
  Store.get (BN b) (exec auction_kv o db) = None.
Proof.
  intros No H. unfold exec.
  destruct o as [a0|a0|a0|a0|b0|bid|b0|a0]; cbn [body]; rewrite committed_map.
  - destruct (Store.get (AK a0) db) as [st|] eqn:E.
    + rewrite add_auction_present by congruence. exact H.
    + rewrite add_auction_absent by exact E. cbn [committed fst snd].
      now store_get.
  - destruct (Store.get (AK a0) db) as [st|] eqn:E.
    + rewrite close_auction_present by congruence. cbn [committed fst snd].
      now store_get.
    + rewrite close_auction_absent by exact E. exact H.
  - now rewrite is_auction_open_reads.
  - now rewrite winning_bid_reads.
  - destruct (Store.get (BK b0) db) as [st|] eqn:E.
    + rewrite add_bidder_present by congruence. exact H.
    + rewrite add_bidder_absent by exact E. cbn [committed fst snd].
      assert (N : BN b <> BN b0).
      { intros N. apply BN_inj in N. subst b0. now elim No. }
      now bidder_get.
  - destruct (submit_bid_spec db bid) as (r & db' & out & -> & [[_ ->]|[_ S]]).
    + exact H.
    + destruct S as (h & n & m & ka & kb & Acc & ->).
      destruct Acc as (_ & _ & _ & _ & _ & _ & Hka & Hm & Hkb).
      assert (N : BN b <> BN (Bid.bidder bid)).
      { intros N. unfold counter in Hm. rewrite <- N, H in Hm. discriminate Hm. }
      cbn [committed fst snd]. unfold accepted_store. now bidder_get.
  - exact H.
  - exact H.
Qed.

(** X18: a bidder has to be added before any of its bids can be accepted,
    and only [add_bidder] does that. For a bidder without a bid count in the
    store, after any sequence of calls none of which is [add_bidder] on it,
    none of its bids has been accepted and it still has no bid count. *)
Theorem unregistered_bidder_never_accepted (b : Bidder.t) (ops : list op) :
  forall db : Store.t,
    Store.get (BN b) db = None ->
    Forall (fun o => o <> AddBidder b) ops ->
    accepted_from auction_kv b ops db = [] /\
    Store.get (BN b) (exec_all auction_kv ops db) = None.
Proof.
  induction ops as [|o ops IH]; intros db H F; [now split|].
  inversion F as [|o' ops' No F']; subst o' ops'.
  cbn [accepted_from exec_all fold_left].
  change (fold_left (fun s o0 => exec auction_kv o0 s) ops (exec auction_kv o db))
    with (exec_all auction_kv ops (exec auction_kv o db)).
  destruct (IH (exec auction_kv o db) (exec_keeps_unregistered o db b No H) F')
    as [I1 I2].
  rewrite I1, app_nil_r. split; [|exact I2].
  destruct o as [a0|a0|a0|a0|b0|bid|b0|a0]; try reflexivity.
  destruct (Bidder.eqb (Bid.bidder bid) b) eqn:Q; cbn [andb]; [|reflexivity].
  apply bidder_eqb_eq in Q. subst b.
  destruct (submit_bid_spec db bid) as (r & db' & out & E & [[N _]|[-> S]]);
    rewrite E; cbn [returned fst].
  - destruct r as [[]|]; try reflexivity. now elim N.
  - destruct S as (h & n & m & ka & kb & Acc & _).
    destruct Acc as (_ & _ & _ & _ & _ & _ & _ & Hm & _).
    unfold counter in Hm. rewrite H in Hm. discriminate Hm.
Qed.

(** *** What an auction shows *)

Lemma shows_exec (a : Auction.t) (o : op) (db : Store.t) (s : string * string) :
  shows auction_kv a db s ->
  shows auction_kv a (exec auction_kv o db)
    (standing s (accepted_bids auction_kv a [o] db)).
Proof.
  intros I. unfold shows in *. cbn [accepted_bids]. rewrite app_nil_r.
  unfold exec.
  destruct o as [a0|a0|a0|a0|b|bid|b|a0]; cbn [body standing];
    rewrite committed_map.
  - destruct (Store.get (AK a0) db) as [st|] eqn:E.
    + rewrite add_auction_present by congruence. exact I.
    + rewrite add_auction_absent by exact E. cbn [committed fst snd].
      destruct (Auction.eqb a0 a) eqn:Q.
      * apply auction_eqb_eq in Q. subst a0. rewrite E in I. subst s.
        store_get. cbn [fst snd]. split; [now left|]. now split.
      * apply auction_eqb_neq in Q.
        assert (Q' : a <> a0) by congruence.
        assert (NK : AK a <> AK a0) by (intros N; now apply AK_inj in N).
        assert (NH : AH a <> AH a0) by now apply AH_neq.
        assert (NW : AW a <> AW a0) by now apply AW_neq.
        now store_get_hyp.
  - destruct (Store.get (AK a0) db) as [st|] eqn:E.
    + rewrite close_auction_present by congruence. cbn [committed fst snd].
      destruct (Auction.eqb a0 a) eqn:Q.
      * apply auction_eqb_eq in Q. subst a0. rewrite E in I.
        store_get. destruct I as (_ & I2 & I3). split; [now right|].
        store_get_hyp. now split.
      * apply auction_eqb_neq in Q.
        assert (Q' : a <> a0) by congruence.
        assert (NK : AK a <> AK a0) by (intros N; now apply AK_inj in N).
        now store_get_hyp.
    + rewrite close_auction_absent by exact E. exact I.
  - now rewrite is_auction_open_reads.
  - now rewrite winning_bid_reads.
  - destruct (Store.get (BK b) db) as [st|] eqn:E.
    + rewrite add_bidder_present by congruence. exact I.
    + rewrite add_bidder_absent by exact E. cbn [committed fst snd].
      now store_get.
  - destruct (submit_bid_spec db bid) as (r & db' & out & E & [[N ->]|[-> S]]);
      rewrite E; cbn [returned committed fst snd].
    + assert (D : is_done r = false).
      { destruct r as [[]|]; try reflexivity. now elim N. }
      rewrite D, andb_false_r. exact I.
    + destruct S as (h & n & m & ka & kb & Acc & ->).
      destruct Acc as (Ha & Hc & _ & _ & _ & _ & Hka & _ & Hkb).
      cbn [is_done]. rewrite andb_true_r.
      destruct (Auction.eqb (Bid.auction bid) a) eqn:Q; cbn [standing].
      * apply auction_eqb_eq in Q. subst a.
        destruct (accepted_store_winner db bid n m ka kb Hka Hkb) as (W & H & K).
        rewrite K, W, H.
        destruct (Store.get (AK (Bid.auction bid)) db) as [st|] eqn:Est;
          [|now elim Ha].
        cbn [fst snd]. destruct I as (I1 & _). now repeat split.
      * apply auction_eqb_neq in Q.
        assert (Q' : a <> Bid.auction bid) by congruence.
        assert (NH : AH a <> AH (Bid.auction bid)) by now apply AH_neq.
        assert (NW : AW a <> AW (Bid.auction bid)) by now apply AW_neq.
        unfold accepted_store. now store_get_hyp.
  - exact I.
  - exact I.
Qed.

Lemma standing_app (bids bids' : list Bid.t) : forall s,
  standing s (bids ++ bids') = standing (standing s bids) bids'.
Proof.
  induction bids as [|b bids IH]; intros s; cbn [app standing];
    [reflexivity | apply IH].
Qed.

Lemma shows_run (a : Auction.t) (ops : list op) :
  forall (db : Store.t) (s : string * string),
    shows auction_kv a db s ->
    shows auction_kv a (exec_all auction_kv ops db)
      (standing s (accepted_bids auction_kv a ops db)).
Proof.
  induction ops as [|o ops IH]; intros db s I; [exact I|].
  cbn [exec_all fold_left].
  change (fold_left (fun s0 o0 => exec auction_kv o0 s0) ops (exec auction_kv o db))
    with (exec_all auction_kv ops (exec auction_kv o db)).
  pose proof (shows_exec a o db s I) as I'.
  apply IH in I'. cbn [accepted_bids] in I'. rewrite app_nil_r in I'.
  cbn [accepted_bids]. now rewrite standing_app.
Qed.

(** X19: [winning_bid] reports the last accepted bid. After any sequence
    of calls on an empty store, for an auction of the store [winning_bid]
    returns the name of the bidder and the text of the amount of the last
    bid accepted on it, and [('', '0')] when none was; the status of the
    auction is OPEN or CLOSED, so that [is_auction_open] answers [False]
    exactly for the auctions on which [submit_bid] refuses bids as closed. *)
Theorem winning_bid_is_last_accepted (a : Auction.t) (ops : list op) (st : string) :
  Store.get (AK a) (exec_all auction_kv ops Store.empty) = Some st ->
  (st = "OPEN" \/ st = "CLOSED") /\
  transactional (winning_bid auction_kv a) (exec_all auction_kv ops Store.empty)
  = (Ret (Some (fst (standing ("", "0")
                       (accepted_bids auction_kv a ops Store.empty))),
          Some (snd (standing ("", "0")
                       (accepted_bids auction_kv a ops Store.empty)))),
     exec_all auction_kv ops Store.empty, []) /\
  transactional (is_auction_open auction_kv a) (exec_all auction_kv ops Store.empty)
  = (Ret (negb (String.eqb st "CLOSED")), exec_all auction_kv ops Store.empty, []).
Proof.
  intros E.
  assert (I0 : shows auction_kv a Store.empty ("", "0")) by reflexivity.
  pose proof (shows_run a ops Store.empty _ I0) as I.
  unfold shows in I. rewrite E in I. destruct I as (O & W & H).
  split; [exact O|]. split.
  - rewrite winning_bid_returns, E, W, H. reflexivity.
  - rewrite is_auction_open_returns, E. now destruct O as [-> | ->].
Qed.

End EngineFacts.

(** * Instances under the sample prefix *)

(** C1 as stated fails for a bidder that was never added: the auction
    exists and is OPEN, the amount is above the highest bid, the bidder is
    not the winner, and [submit_bid] raises when it reads the bidder's bid
    counter, after it printed the line of an accepted bid; nothing is
    committed. *)
Lemma submit_bid_unregistered_bidder :
  Store.get (auction_key sample_kv pen) only_pen = Some "OPEN" /\
  highest_bid sample_kv only_pen pen = Some (S754_zero false) /\
  PyFloat.lt (S754_zero false) (Bid.value bid_A5) = true /\
  Store.get (winning_bidder_key sample_kv pen) only_pen = Some "" /\
  "" <> Bidder.name (Bid.bidder bid_A5) /\
  transactional (submit_bid sample_kv bid_A5) only_pen =
    (Raise TypeError, only_pen, [new_highest_line bid_A5]) /\
  ~ (exists db' out,
       transactional (submit_bid sample_kv bid_A5) only_pen = (Ret Done, db', out)).
Proof.
  assert (R : transactional (submit_bid sample_kv bid_A5) only_pen =
              (Raise TypeError, only_pen, [new_highest_line bid_A5]))
    by (vm_compute; reflexivity).
  split; [vm_compute; reflexivity|].
  split; [vm_compute; reflexivity|].
  split; [vm_compute; reflexivity|].
  split; [vm_compute; reflexivity|].
  split; [discriminate|].
  split; [exact R|].
  intros (db' & out & H). rewrite R in H. discriminate.
Qed.

Lemma submit_bid_accepts_registered_witness :
  Store.get (auction_key sample_kv pen) (scenario_start sample_kv) = Some "OPEN" /\
  exists db',
    transactional (submit_bid sample_kv bid_A5) (scenario_start sample_kv) =
      (Ret Done, db', [new_highest_line bid_A5]) /\
    Store.get (highest_bid_key sample_kv pen) db' = Some "5.0" /\
    Store.get (winning_bidder_key sample_kv pen) db' = Some "A" /\
    Store.get (num_bids_key sample_kv pen) db' = Some "1" /\
    Store.get (bidder_num_bids_key sample_kv bidder_A) db' = Some "1".
Proof.
  split; [vm_compute; reflexivity|].
  destruct (submit_bid_accepts_registered sample_kv (scenario_start sample_kv)
              bid_A5 (S754_zero false) "" 0 0)
    as (ka & kb & db' & _ & _ & R & H1 & H2 & H3 & _ & H5 & _).
  - vm_compute; reflexivity.
  - vm_compute; reflexivity.
  - vm_compute; reflexivity.
  - vm_compute; reflexivity.
  - discriminate.
  - vm_compute; reflexivity.
  - lia.
  - vm_compute; reflexivity.
  - lia.
  - exists db'.
    split; [exact R|]. split; [exact H1|]. split; [exact H2|].
    split; [exact H3 | exact H5].
Defined.

Lemma submit_bid_too_low_witness :
  Store.get (auction_key sample_kv pen) (after_A5 sample_kv) = Some "OPEN" /\
  Store.get (highest_bid_key sample_kv pen) (after_A5 sample_kv) = Some "5.0" /\
  PyFloat.of_string "5.0" = Some (float_lit "5.0") /\
  PyFloat.le (Bid.value bid_B5) (float_lit "5.0") = true /\
  transactional (submit_bid sample_kv bid_B5) (after_A5 sample_kv) =
    (Ret BidTooLow, after_A5 sample_kv, [too_low_line bid_B5 "5.0"]).
Proof.
  assert (H1 : Store.get (auction_key sample_kv pen) (after_A5 sample_kv) = Some "OPEN")
    by (vm_compute; reflexivity).
  assert (H2 : Store.get (highest_bid_key sample_kv pen) (after_A5 sample_kv) = Some "5.0")
    by (vm_compute; reflexivity).
  assert (H3 : PyFloat.of_string "5.0" = Some (float_lit "5.0"))
    by (vm_compute; reflexivity).
  assert (H4 : PyFloat.le (Bid.value bid_B5) (float_lit "5.0") = true)
    by (vm_compute; reflexivity).
  split; [exact H1|]. split; [exact H2|]. split; [exact H3|]. split; [exact H4|].
  exact (submit_bid_too_low sample_kv (after_A5 sample_kv) bid_B5 "5.0"
           (float_lit "5.0") H1 H2 H3 H4).
Defined.

Lemma submit_bid_by_winner_witness :
  Store.get (auction_key sample_kv pen) (after_A5 sample_kv) = Some "OPEN" /\
  Store.get (winning_bidder_key sample_kv pen) (after_A5 sample_kv) = Some "A" /\
  returned (transactional (submit_bid sample_kv bid_A9) (after_A5 sample_kv)) <> Ret Done /\
  committed (transactional (submit_bid sample_kv bid_A9) (after_A5 sample_kv))
    = after_A5 sample_kv.
Proof.
  assert (H1 : Store.get (auction_key sample_kv pen) (after_A5 sample_kv) = Some "OPEN")
    by (vm_compute; reflexivity).
  assert (H2 : Store.get (winning_bidder_key sample_kv pen) (after_A5 sample_kv) = Some "A")
    by (vm_compute; reflexivity).
  destruct (submit_bid_by_winner sample_kv (after_A5 sample_kv) bid_A9 H1 H2)
    as (R1 & R2 & _).
  split; [exact H1|]. split; [exact H2|]. split; [exact R1 | exact R2].
Defined.

Lemma add_auction_twice_witness :
  Store.get (auction_key sample_kv pen) Store.empty = None /\
  returned (transactional (add_auction sample_kv pen) Store.empty) = Ret Done /\
  returned (transactional (add_auction sample_kv pen) only_pen) = Ret AlreadyExists /\
  committed (transactional (add_auction sample_kv pen) only_pen) = only_pen.
Proof.
  destruct (add_auction_twice sample_kv Store.empty pen) as (R2 & S2 & F).
  destruct (F eq_refl) as (R1 & _).
  split; [reflexivity|]. split; [exact R1|]. split; [exact R2 | exact S2].
Defined.

Lemma closed_auction_rejects_bids_witness :
  Store.get (auction_key sample_kv (Bid.auction bid_A5)) (scenario_start sample_kv)
    <> None /\
  transactional (submit_bid sample_kv bid_A5)
    (exec_all sample_kv [AddBidder bidder_AB; SubmitBid bid_B7]
       (exec sample_kv (CloseAuction (Bid.auction bid_A5)) (scenario_start sample_kv)))
  = (Ret AuctionClosed,
     exec_all sample_kv [AddBidder bidder_AB; SubmitBid bid_B7]
       (exec sample_kv (CloseAuction (Bid.auction bid_A5)) (scenario_start sample_kv)),
     [closed_line bid_A5]).
Proof.
  assert (H : Store.get (auction_key sample_kv (Bid.auction bid_A5))
                (scenario_start sample_kv) <> None)
    by (vm_compute; discriminate).
  split; [exact H|].
  exact (closed_auction_rejects_bids sample_kv (scenario_start sample_kv)
           [AddBidder bidder_AB; SubmitBid bid_B7] bid_A5 H).
Defined.

Lemma get_auction_state_absent_witness :
  Store.get (auction_key sample_kv pen) Store.empty = None /\
  transactional (winning_bid sample_kv pen) Store.empty
    = (Raise (NameError "bid"), Store.empty, []) /\
  transactional (is_auction_open sample_kv pen) Store.empty
    = (Raise (NameError "bid"), Store.empty, []).
Proof.
  split; [reflexivity|].
  exact (get_auction_state_absent sample_kv Store.empty pen eq_refl).
Defined.

(** C8 as stated fails: when the commit of A's accepted bid of 5.0 is
    refused (B's bid of 3.0 was committed meanwhile) and the body runs
    again, the line of the accepted bid is on the console twice, which a
    single run on the last store does not print. *)
Lemma retried_bid_prints_twice :
  printed (transactional_retry (body sample_kv (SubmitBid bid_A5))
             [scenario_start sample_kv] after_B3)
    = [new_highest_line bid_A5; new_highest_line bid_A5] /\
  printed (transactional (body sample_kv (SubmitBid bid_A5)) after_B3)
    = [new_highest_line bid_A5] /\
  transactional_retry (body sample_kv (SubmitBid bid_A5))
    [scenario_start sample_kv] after_B3
  <> transactional (body sample_kv (SubmitBid bid_A5)) after_B3.
Proof.
  assert (P2 : printed (transactional_retry (body sample_kv (SubmitBid bid_A5))
                          [scenario_start sample_kv] after_B3)
               = [new_highest_line bid_A5; new_highest_line bid_A5])
    by (vm_compute; reflexivity).
  assert (P1 : printed (transactional (body sample_kv (SubmitBid bid_A5)) after_B3)
               = [new_highest_line bid_A5])
    by (vm_compute; reflexivity).
  split; [exact P2|]. split; [exact P1|].
  intros E. rewrite E, P1 in P2.
  apply (f_equal (@List.length string)) in P2. discriminate P2.
Qed.

Lemma retried_body_prints_again_witness :
  Forall (fun c => exists a,
            returned (transactional (body sample_kv (SubmitBid bid_A5)) c) = Ret a)
    [scenario_start sample_kv] /\
  committed (transactional_retry (body sample_kv (SubmitBid bid_A5))
               [scenario_start sample_kv] after_B3)
    = committed (transactional (body sample_kv (SubmitBid bid_A5)) after_B3).
Proof.
  assert (H : Forall (fun c => exists a,
                returned (transactional (body sample_kv (SubmitBid bid_A5)) c) = Ret a)
                [scenario_start sample_kv]).
  { apply Forall_cons; [|apply Forall_nil].
    exists (Report Done). vm_compute. reflexivity. }
  split; [exact H|].
  exact (proj1 (proj2 (proj2
           (retried_body_prints_again sample_kv (SubmitBid bid_A5)
              [scenario_start sample_kv] after_B3 H)))).
Defined.

(** C10 as stated fails: after A's bid of 5.0, B's bid of 5.0000000000001
    is accepted (it is above 5.0), and the highest bid it stores is the text
    ["5.0"], the twelve significant digits [str] keeps: the highest bid of
    the auction is 5.0 before and after. *)
Lemma accepted_bid_keeps_highest_bid :
  returned (transactional (submit_bid sample_kv bid_B5_and_a_bit) (after_A5 sample_kv))
    = Ret Done /\
  PyFloat.lt (float_lit "5.0") (Bid.value bid_B5_and_a_bit) = true /\
  highest_bid sample_kv (after_A5 sample_kv) pen = Some (float_lit "5.0") /\
  highest_bid sample_kv
    (exec sample_kv (SubmitBid bid_B5_and_a_bit) (after_A5 sample_kv)) pen
    = Some (float_lit "5.0") /\
  PyFloat.lt (float_lit "5.0") (float_lit "5.0") = false.
Proof.
  split; [vm_compute; reflexivity|].
  split; [vm_compute; reflexivity|].
  split; [vm_compute; reflexivity|].
  split; vm_compute; reflexivity.
Qed.

Lemma accepted_bids_rise_witness :
  Forall (plain_op)
    [AddAuction pen; AddBidder bidder_A; AddBidder bidder_B;
     SubmitBid bid_A5; SubmitBid bid_B5; SubmitBid bid_B7] /\
  rising None
    (accepted_bids sample_kv pen
       [AddAuction pen; AddBidder bidder_A; AddBidder bidder_B;
        SubmitBid bid_A5; SubmitBid bid_B5; SubmitBid bid_B7] Store.empty) /\
  accepted_bids sample_kv pen
    [AddAuction pen; AddBidder bidder_A; AddBidder bidder_B;
     SubmitBid bid_A5; SubmitBid bid_B5; SubmitBid bid_B7] Store.empty
  = [bid_A5; bid_B7].
Proof.
  assert (H : Forall (plain_op)
    [AddAuction pen; AddBidder bidder_A; AddBidder bidder_B;
     SubmitBid bid_A5; SubmitBid bid_B5; SubmitBid bid_B7]).
  { repeat (apply Forall_cons;
            [first [exact I | split; vm_compute; reflexivity]|]).
    apply Forall_nil. }
  split; [exact H|]. split; [|vm_compute; reflexivity].
  exact (proj1 (accepted_bids_rise sample_kv pen _ H)).
Defined.

(** ** Instances of the further properties *)

Lemma add_bidder_twice_witness :
  Store.get (bidder_key sample_kv bidder_A) Store.empty = None /\
  exists db',
    transactional (add_bidder sample_kv bidder_A) Store.empty = (Ret Done, db', []) /\
    Store.get (bidder_num_bids_key sample_kv bidder_A) db' = Some "0" /\
    transactional (add_bidder sample_kv bidder_A) db' =
      (Ret AlreadyExists, db',
       ["Cannot add bidder " ++ Bidder.str bidder_A ++ ": already exists"]).
Proof.
  split; [reflexivity|].
  destruct (add_bidder_twice sample_kv Store.empty bidder_A eq_refl)
    as (db' & R & _ & N & _ & R').
  exists db'. split; [exact R|]. split; [exact N | exact R'].
Defined.

Lemma closed_auction_stays_closed_witness :
  Store.get (auction_key sample_kv pen) (scenario_start sample_kv) <> None /\
  transactional (is_auction_open sample_kv pen)
    (exec_all sample_kv [AddAuction pen; SubmitBid bid_A5]
       (exec sample_kv (CloseAuction pen) (scenario_start sample_kv)))
  = (Ret false,
     exec_all sample_kv [AddAuction pen; SubmitBid bid_A5]
       (exec sample_kv (CloseAuction pen) (scenario_start sample_kv)), []).
Proof.
  assert (H : Store.get (auction_key sample_kv pen) (scenario_start sample_kv) <> None)
    by (vm_compute; discriminate).
  split; [exact H|].
  exact (proj1 (closed_auction_stays_closed sample_kv (scenario_start sample_kv)
                  [AddAuction pen; SubmitBid bid_A5] pen H)).
Defined.

Lemma open_auction_stays_open_witness :
  Store.get (auction_key sample_kv pen) (scenario_start sample_kv) = Some "OPEN" /\
  Forall (fun o => o <> CloseAuction pen) [SubmitBid bid_A5; AddAuction pen] /\
  transactional (is_auction_open sample_kv pen)
    (exec_all sample_kv [SubmitBid bid_A5; AddAuction pen] (scenario_start sample_kv))
  = (Ret true,
     exec_all sample_kv [SubmitBid bid_A5; AddAuction pen] (scenario_start sample_kv),
     []).
Proof.
  assert (H : Store.get (auction_key sample_kv pen) (scenario_start sample_kv)
              = Some "OPEN") by (vm_compute; reflexivity).
  assert (F : Forall (fun o => o <> CloseAuction pen)
                [SubmitBid bid_A5; AddAuction pen]).
  { repeat (apply Forall_cons; [discriminate|]). apply Forall_nil. }
  split; [exact H|]. split; [exact F|].
  exact (open_auction_stays_open sample_kv (scenario_start sample_kv) _ pen H F).
Defined.

Lemma accepted_bid_is_winning_witness :
  returned (transactional (submit_bid sample_kv bid_A5) (scenario_start sample_kv))
    = Ret Done /\
  transactional (winning_bid sample_kv (Bid.auction bid_A5))
    (exec sample_kv (SubmitBid bid_A5) (scenario_start sample_kv))
  = (Ret (Some (Bidder.name (Bid.bidder bid_A5)),
          Some (PyFloat.str (Bid.value bid_A5))),
     exec sample_kv (SubmitBid bid_A5) (scenario_start sample_kv), []) /\
  PyFloat.str (Bid.value bid_A5) = "5.0".
Proof.
  assert (H : returned (transactional (submit_bid sample_kv bid_A5)
                          (scenario_start sample_kv)) = Ret Done)
    by (vm_compute; reflexivity).
  split; [exact H|]. split; [|vm_compute; reflexivity].
  exact (proj1 (accepted_bid_is_winning sample_kv (scenario_start sample_kv) bid_A5 H)).
Defined.

Lemma unknown_auction_rejects_bids_witness :
  Store.get (auction_key sample_kv (Bid.auction bid_A5)) Store.empty = None /\
  Forall (fun o => o <> AddAuction (Bid.auction bid_A5))
    [AddBidder bidder_A; CloseAuction pen; AddAuction ink] /\
  transactional (submit_bid sample_kv bid_A5)
    (exec_all sample_kv [AddBidder bidder_A; CloseAuction pen; AddAuction ink]
       Store.empty)
  = (Ret NotFound,
     exec_all sample_kv [AddBidder bidder_A; CloseAuction pen; AddAuction ink]
       Store.empty,
     [cannot_bid bid_A5 ++ ": does not exist"]).
Proof.
  assert (F : Forall (fun o => o <> AddAuction (Bid.auction bid_A5))
                [AddBidder bidder_A; CloseAuction pen; AddAuction ink]).
  { repeat (apply Forall_cons; [discriminate|]). apply Forall_nil. }
  split; [reflexivity|]. split; [exact F|].
  exact (unknown_auction_rejects_bids sample_kv Store.empty _ bid_A5 eq_refl F).
Defined.

Lemma submit_bid_unregistered_witness :
  Store.get (auction_key sample_kv (Bid.auction bid_A5)) only_pen = Some "OPEN" /\
  Store.get (bidder_num_bids_key sample_kv (Bid.bidder bid_A5)) only_pen = None /\
  transactional (submit_bid sample_kv bid_A5) only_pen
  = (Raise TypeError, only_pen, [new_highest_line bid_A5]).
Proof.
  split; [vm_compute; reflexivity|]. split; [vm_compute; reflexivity|].
  apply (submit_bid_unregistered sample_kv only_pen bid_A5 (S754_zero false) "" 0).
  - vm_compute; reflexivity.
  - vm_compute; reflexivity.
  - vm_compute; reflexivity.
  - vm_compute; reflexivity.
  - discriminate.
  - vm_compute; reflexivity.
  - lia.
  - vm_compute; reflexivity.
Defined.

Lemma other_calls_leave_auction_witness :
  Forall (fun o => written_auction o <> Some pen)
    [AddAuction ink; AddBidder bidder_AB; SubmitBid bid_B2_ink; CloseAuction ink] /\
  accepted_bids sample_kv ink
    [AddAuction ink; AddBidder bidder_AB; SubmitBid bid_B2_ink; CloseAuction ink]
    (after_A5 sample_kv) = [bid_B2_ink] /\
  returned (transactional (winning_bid sample_kv pen)
              (exec_all sample_kv
                 [AddAuction ink; AddBidder bidder_AB; SubmitBid bid_B2_ink;
                  CloseAuction ink] (after_A5 sample_kv)))
  = returned (transactional (winning_bid sample_kv pen) (after_A5 sample_kv)).
Proof.
  assert (F : Forall (fun o => written_auction o <> Some pen)
                [AddAuction ink; AddBidder bidder_AB; SubmitBid bid_B2_ink;
                 CloseAuction ink]).
  { repeat (apply Forall_cons; [discriminate|]). apply Forall_nil. }
  split; [exact F|]. split; [vm_compute; reflexivity|].
  exact (proj1 (proj2 (other_calls_leave_auction sample_kv pen _ (after_A5 sample_kv) F))).
Defined.

Lemma first_bid_witness :
  Store.get (auction_key sample_kv pen) Store.empty = None /\
  Store.get (bidder_key sample_kv bidder_A) Store.empty = None /\
  returned
    (transactional
       (submit_bid sample_kv
          {| Bid.bidder := bidder_A; Bid.auction := pen; Bid.value := float_lit "5.0" |})
       (exec_all sample_kv [AddAuction pen; AddBidder bidder_A] Store.empty))
  = Ret (if PyFloat.le (float_lit "5.0") (S754_zero false) then BidTooLow
         else if String.eqb (Bidder.name bidder_A) "" then AlreadyWinning
         else Done) /\
  PyFloat.le (float_lit "5.0") (S754_zero false) = false.
Proof.
  split; [reflexivity|]. split; [reflexivity|]. split; [|vm_compute; reflexivity].
  exact (first_bid sample_kv Store.empty pen bidder_A (float_lit "5.0")
           eq_refl eq_refl).
Defined.

Lemma nan_bid_is_accepted_witness :
  PyFloat.is_nan (Bid.value bid_A_nan) = true /\
  Store.get (auction_key sample_kv (Bid.auction bid_A_nan)) (scenario_start sample_kv)
    = Some "OPEN" /\
  returned (transactional (submit_bid sample_kv bid_A_nan) (scenario_start sample_kv))
    = Ret Done /\
  highest_bid sample_kv
    (exec sample_kv (SubmitBid bid_A_nan) (scenario_start sample_kv))
    (Bid.auction bid_A_nan)
  = Some S754_nan.
Proof.
  split; [reflexivity|]. split; [vm_compute; reflexivity|].
  apply (nan_bid_is_accepted sample_kv (scenario_start sample_kv) bid_A_nan
           (S754_zero false) "" 0 0).
  - reflexivity.
  - vm_compute; reflexivity.
  - vm_compute; reflexivity.
  - vm_compute; reflexivity.
  - discriminate.
  - vm_compute; reflexivity.
  - lia.
  - vm_compute; reflexivity.
  - lia.
Defined.

Lemma nan_highest_bid_accepts_any_amount_witness :
  highest_bid sample_kv after_A_nan (Bid.auction bid_B3) = Some S754_nan /\
  Store.get (winning_bidder_key sample_kv (Bid.auction bid_B3)) after_A_nan = Some "A" /\
  transactional (submit_bid sample_kv bid_B3) after_A_nan
  = (Ret Done, exec sample_kv (SubmitBid bid_B3) after_A_nan, [new_highest_line bid_B3]).
Proof.
  split; [vm_compute; reflexivity|]. split; [vm_compute; reflexivity|].
  apply (nan_highest_bid_accepts_any_amount sample_kv after_A_nan bid_B3 "A" 1 0).
  - vm_compute; reflexivity.
  - vm_compute; reflexivity.
  - vm_compute; reflexivity.
  - discriminate.
  - vm_compute; reflexivity.
  - lia.
  - vm_compute; reflexivity.
  - lia.
Defined.

Lemma unregistered_bidder_never_accepted_witness :
  Store.get (bidder_num_bids_key sample_kv bidder_A) only_pen = None /\
  Forall (fun o => o <> AddBidder bidder_A)
    [SubmitBid bid_A5; AddBidder bidder_B; SubmitBid bid_A9] /\
  accepted_from sample_kv bidder_A
    [SubmitBid bid_A5; AddBidder bidder_B; SubmitBid bid_A9] only_pen = [].
Proof.
  assert (H : Store.get (bidder_num_bids_key sample_kv bidder_A) only_pen = None)
    by (vm_compute; reflexivity).
  assert (F : Forall (fun o => o <> AddBidder bidder_A)
                [SubmitBid bid_A5; AddBidder bidder_B; SubmitBid bid_A9]).
  { repeat (apply Forall_cons; [discriminate|]). apply Forall_nil. }
  split; [exact H|]. split; [exact F|].
  exact (proj1 (unregistered_bidder_never_accepted sample_kv bidder_A _ only_pen H F)).
Defined.

Lemma winning_bid_is_last_accepted_witness :
  Store.get (auction_key sample_kv pen)
    (exec_all sample_kv
       [AddAuction pen; AddBidder bidder_A; AddBidder bidder_B;
        SubmitBid bid_A5; SubmitBid bid_B5; SubmitBid bid_B7] Store.empty)
  = Some "OPEN" /\
  standing ("", "0")
    (accepted_bids sample_kv pen
       [AddAuction pen; AddBidder bidder_A; AddBidder bidder_B;
        SubmitBid bid_A5; SubmitBid bid_B5; SubmitBid bid_B7] Store.empty)
  = ("B", "7.0") /\
  transactional (is_auction_open sample_kv pen)
    (exec_all sample_kv
       [AddAuction pen; AddBidder bidder_A; AddBidder bidder_B;
        SubmitBid bid_A5; SubmitBid bid_B5; SubmitBid bid_B7] Store.empty)
  = (Ret (negb (String.eqb "OPEN" "CLOSED")),
     exec_all sample_kv
       [AddAuction pen; AddBidder bidder_A; AddBidder bidder_B;
        SubmitBid bid_A5; SubmitBid bid_B5; SubmitBid bid_B7] Store.empty, []).
Proof.
  assert (H : Store.get (auction_key sample_kv pen)
    (exec_all sample_kv
       [AddAuction pen; AddBidder bidder_A; AddBidder bidder_B;
        SubmitBid bid_A5; SubmitBid bid_B5; SubmitBid bid_B7] Store.empty)
    = Some "OPEN") by (vm_compute; reflexivity).
  split; [exact H|]. split; [vm_compute; reflexivity|].
  exact (proj2 (proj2 (winning_bid_is_last_accepted sample_kv pen _ "OPEN" H))).
Defined.
